(** * PDF Batch Summarizer: a shallow embedding of the orchestration core

    The development follows the three source files of the application:
    - [types.ts]: the ledger entry [SummaryResult] and [ProcessingStatus];
    - [services/geminiService.ts] and [services/volcanoService.ts]: the two
      model clients;
    - [App.tsx]: file selection, the batch loop [handleGenerate] and the
      export [handleDownloadZip].

    JavaScript strings are kept as Rocq strings, one [ascii] per code unit
    (code units below 256).  Asynchronous code is sequential here: every
    [await] is a call, in program order, of an external collaborator whose
    answer may depend on everything that happened before.  The handlers
    are first given as they run alone, each to its end before the next
    one starts; [Interleaved] then lets other handlers run while the batch
    awaits. *)

From Stdlib Require Import String Ascii List Bool Arith ZArith QArith Lia.
From Stdlib Require Import DecimalString DecimalZ.
Import ListNotations.
Close Scope Q_scope.
Open Scope string_scope.
Open Scope list_scope.
Open Scope nat_scope.

Set Implicit Arguments.
Set Warnings "-register-all".

(** ** JavaScript strings and values *)

Module Js.

Definition LF : string := String "010"%char EmptyString.
Definition DQUOTE : string := String "034"%char EmptyString.

(** [String.prototype.startsWith] (position 0). *)
Definition startsWith (s searchString : string) : bool :=
  String.prefix searchString s.

(** Drops the first [n] code units. *)
Fixpoint drop (n : nat) (s : string) : string :=
  match n, s with
  | O, _ => s
  | S _, EmptyString => EmptyString
  | S n', String _ s' => drop n' s'
  end.

(** [String.prototype.replace] with a string pattern and a replacement
    that holds no [$]: only the first occurrence is replaced. *)
Fixpoint replace (pattern replacement s : string) : string :=
  if String.prefix pattern s then replacement ++ drop (String.length pattern) s
  else match s with
       | EmptyString => EmptyString
       | String c s' => String c (replace pattern replacement s')
       end.

(** [pattern] occurs somewhere in [s]. *)
Fixpoint occursIn (pattern s : string) : bool :=
  String.prefix pattern s
  || match s with
     | EmptyString => false
     | String _ s' => occursIn pattern s'
     end.

(** WhiteSpace and LineTerminator code units below 256:
    TAB, LF, VT, FF, CR, SP and NBSP. *)
Definition isWhiteSpace (c : ascii) : bool :=
  let n := nat_of_ascii c in
  ((9 <=? n) && (n <=? 13)) || (n =? 32) || (n =? 160).

Fixpoint trimStart (s : string) : string :=
  match s with
  | EmptyString => EmptyString
  | String c s' => if isWhiteSpace c then trimStart s' else s
  end.

Fixpoint trimEnd (s : string) : string :=
  match s with
  | EmptyString => EmptyString
  | String c s' =>
      let r := trimEnd s' in
      if isWhiteSpace c && (r =? "")%string then EmptyString else String c r
  end.

(** [String.prototype.trim]. *)
Definition trim (s : string) : string := trimEnd (trimStart s).

(** A blank string: every code unit is white space. *)
Fixpoint allWhiteSpace (s : string) : bool :=
  match s with
  | EmptyString => true
  | String c s' => isWhiteSpace c && allWhiteSpace s'
  end.

(** Truthiness of a string: non-empty. *)
Definition truthyString (s : string) : bool := negb (s =? "")%string.

(** Number to string, for the integers the program renders.  A Number
    holds the integers up to 2^53 in size exactly and prints them digit by
    digit; the rendering below is the program's for those. *)
Definition natToString (n : nat) : string :=
  NilZero.string_of_uint (Nat.to_uint n).
Definition intToString (z : Z) : string :=
  NilZero.string_of_int (Z.to_int z).

(** A value as the program can meet it: what [JSON.parse] builds, and
    [undefined].  A number is the rational its double denotes. *)
Inductive Value : Type :=
| Undefined
| Null
| Bool (b : bool)
| Num (q : Q)
| Str (s : string)
| Arr (elements : list Value)
| Obj (properties : list (string * Value)).

Definition isZero (q : Q) : bool := (Qnum q =? 0)%Z.

(** ToBoolean. *)
Definition truthy (v : Value) : bool :=
  match v with
  | Undefined | Null => false
  | Bool b => b
  | Num q => negb (isZero q)
  | Str s => truthyString s
  | Arr _ | Obj _ => true
  end.

Definition nullish (v : Value) : bool :=
  match v with
  | Undefined | Null => true
  | _ => false
  end.

(** [v === 0]. *)
Definition strictEqualsZero (v : Value) : bool :=
  match v with
  | Num q => isZero q
  | _ => false
  end.

Fixpoint lookup (key : string) (properties : list (string * Value)) : Value :=
  match properties with
  | [] => Undefined
  | (k, v) :: rest => if (k =? key)%string then v else lookup key rest
  end.

(** A canonical array index: the decimal rendering of a natural. *)
Definition arrayIndex (key : string) : option nat :=
  match NilEmpty.uint_of_string key with
  | Some u => let n := Nat.of_uint u in
              if (natToString n =? key)%string then Some n else None
  | None => None
  end.

Fixpoint charAt (n : nat) (s : string) : Value :=
  match n, s with
  | _, EmptyString => Undefined
  | O, String c _ => Str (String c EmptyString)
  | S n', String _ s' => charAt n' s'
  end.

(** Property read [v.key] / [v[key]] for the keys the program reads
    ([error], [message], [choices], [length], [content] and index 0), on
    data values: [None] is the TypeError of reading a property of
    [undefined] or [null]. *)
Definition get (v : Value) (key : string) : option Value :=
  match v with
  | Undefined | Null => None
  | Bool _ | Num _ => Some Undefined
  | Str s =>
      if (key =? "length")%string then Some (Num (inject_Z (Z.of_nat (String.length s))))
      else match arrayIndex key with
           | Some n => Some (charAt n s)
           | None => Some Undefined
           end
  | Arr l =>
      if (key =? "length")%string then Some (Num (inject_Z (Z.of_nat (List.length l))))
      else match arrayIndex key with
           | Some n => Some (nth n l Undefined)
           | None => Some Undefined
           end
  | Obj ps => Some (lookup key ps)
  end.

(** Optional chaining [v?.key]. *)
Definition getOpt (v : Value) (key : string) : Value :=
  match get v key with
  | Some x => x
  | None => Undefined
  end.

(** What a [throw] carries: an [Error] instance with its message, or any
    other value ([error instanceof Error] is false). *)
Inductive Thrown : Type :=
| ErrorObj (message : string)
| NonError.

Inductive Completion (A : Type) : Type :=
| Normal (a : A)
| Abrupt (t : Thrown).
Arguments Abrupt {A} t.

End Js.
Import Js.

(** ** [types.ts] *)

Module Types.

Inductive ProcessingStatus : Type := IDLE | PROCESSING | SUCCESS | ERROR.

Definition statusEq (a b : ProcessingStatus) : bool :=
  match a, b with
  | IDLE, IDLE | PROCESSING, PROCESSING | SUCCESS, SUCCESS | ERROR, ERROR => true
  | _, _ => false
  end.

Record SummaryResult : Type := mkSummaryResult {
  id : string;
  fileName : string;
  content : string;
  status : ProcessingStatus;
  error : option string
}.

End Types.
Import Types.

(** ** The external collaborators: browser files, PDF.js, the Gemini SDK,
    [fetch] *)

Module Web.

(** A browser [File]: what the program reads of it. *)
Record File : Type := mkFile {
  name : string;
  lastModified : Z;
  type : string
}.

Definition ArrayBuffer : Type := list Init.Byte.byte.

(** PDF.js objects; each asynchronous getter either yields or rejects. *)
Record TextItem : Type := mkTextItem { str : string }.
Record TextContent : Type := mkTextContent { items : list TextItem }.
Record PdfPage : Type := mkPdfPage { getTextContent : Completion TextContent }.
Record PdfDocument : Type := mkPdfDocument {
  numPages : nat;
  getPage : nat -> Completion PdfPage
}.

(** [GenerateContentResponse]: its [text] is a string or [undefined]. *)
Record GenerateContentResponse : Type := mkGenerateContentResponse {
  text : option string
}.

(** The [fetch] request; [body] is the value handed to [JSON.stringify]. *)
Record RequestInit : Type := mkRequestInit {
  method : string;
  headers : list (string * string);
  body : Value
}.

(** The [fetch] response: [ok] is derived from the status as the Fetch
    standard defines it, [json] is the outcome of [response.json()]. *)
Record Response : Type := mkResponse {
  status : nat;
  json : Completion Value
}.

Definition ok (r : Response) : bool :=
  (200 <=? status r) && (status r <=? 299).

End Web.

(** ** JSZip: the files of an archive under construction

    [zip.file(name, data)] adds the file [name] to the archive or, when
    the archive already has a file of that name, replaces its data: an
    archive holds one file per name.  The names the program hands over
    are base names of browser files, which hold no [/]. *)

Module JSZip.

Definition Zip : Type := list (string * string).

(** [new JSZip()]. *)
Definition empty : Zip := [].

(** [zip.file(name, data)]. *)
Fixpoint file (name data : string) (zip : Zip) : Zip :=
  match zip with
  | [] => [(name, data)]
  | (n, d) :: rest =>
      if (n =? name)%string then (name, data) :: rest
      else (n, d) :: file name data rest
  end.

End JSZip.

(** ** Application state, events and the program monad *)

Module Prog.

Inductive ApiProvider : Type := gemini | volcano.

Record VolcanoCredentials : Type := mkVolcanoCredentials { apiKey : string }.

(** The [useState] cells of [App]. *)
Record AppState : Type := mkAppState {
  files : list Web.File;
  prompt : string;
  apiProvider : ApiProvider;
  selectedModel : string;
  volcanoCreds : VolcanoCredentials;
  results : list SummaryResult;
  isProcessing : bool;
  globalError : string;
  apiKeyMissing : bool
}.

Inductive Setter : Type :=
| SetFiles | SetPrompt | SetApiProvider | SetSelectedModel | SetVolcanoCreds
| SetResults | SetIsProcessing | SetGlobalError.

(** Everything observable a run does, in program order. *)
Inductive Event : Type :=
| ConsoleLog (message : string)
| ConsoleError (message : string)
| ReadFile (file : Web.File)
| GetDocument (data : Web.ArrayBuffer)
| GenerateContent (model contents : string)
| Fetch (url : string) (init : Web.RequestInit)
| StateSet (which : Setter) (after : AppState)
| Download (archiveName : string) (entries : list (string * string)).

(** The environment answers each external call from the history so far;
    it also owns the texts of the engine's own TypeErrors and the
    ToString conversion of values that are not strings. *)
Record Env : Type := mkEnv {
  arrayBuffer : list Event -> Web.File -> Completion Web.ArrayBuffer;
  getDocument : list Event -> Web.ArrayBuffer -> Completion Web.PdfDocument;
  generateContent : list Event -> string -> string ->
                    Completion Web.GenerateContentResponse;
  fetch : list Event -> string -> Web.RequestInit -> Completion Web.Response;
  typeErrorMessage : Value -> string -> string;
  toStringOther : Value -> Completion string
}.

Record World : Type := mkWorld {
  app : AppState;
  log : list Event
}.

Definition M (A : Type) : Type := Env -> World -> Completion A * World.

Definition ret {A} (a : A) : M A := fun _ w => (Normal a, w).

Definition bind {A B} (m : M A) (k : A -> M B) : M B :=
  fun env w =>
    match m env w with
    | (Normal a, w') => k a env w'
    | (Abrupt t, w') => (Abrupt t, w')
    end.

Definition throw {A} (t : Thrown) : M A := fun _ w => (Abrupt t, w).

(** [try { body } catch (e) { handler e }]. *)
Definition tryCatch {A} (body : M A) (handler : Thrown -> M A) : M A :=
  fun env w =>
    match body env w with
    | (Normal a, w') => (Normal a, w')
    | (Abrupt t, w') => handler t env w'
    end.

Definition lift {A} (c : Completion A) : M A := fun _ w => (c, w).

Definition emit (e : Event) : M unit :=
  fun _ w => (Normal tt, mkWorld (app w) (log w ++ [e])).

(** An external call: logged, then answered from the history before it. *)
Definition call {A} (e : Event) (answer : Env -> list Event -> Completion A) : M A :=
  fun env w => (answer env (log w), mkWorld (app w) (log w ++ [e])).

Definition getState : M AppState := fun _ w => (Normal (app w), w).

Definition setState (which : Setter) (f : AppState -> AppState) : M unit :=
  fun _ w => let st := f (app w) in
             (Normal tt, mkWorld st (log w ++ [StateSet which st])).

End Prog.
Import Prog.

Declare Scope prog_scope.
Delimit Scope prog_scope with prog.
Notation "x <- c1 ;; c2" := (bind c1 (fun x => c2))
  (at level 100, c1 at next level, right associativity) : prog_scope.
Notation "c1 ;; c2" := (bind c1 (fun _ => c2))
  (at level 100, right associativity) : prog_scope.
Open Scope prog_scope.

(** ** Shared runtime behaviour *)

Module Runtime.

(** [v.key] where reading a property of [undefined] or [null] throws the
    engine's TypeError. *)
Definition getM (v : Value) (key : string) : M Value :=
  fun env w =>
    match Js.get v key with
    | Some x => (Normal x, w)
    | None => (Abrupt (ErrorObj (typeErrorMessage env v key)), w)
    end.

(** [new Error(message)]: the message is converted by ToString; an
    [undefined] argument leaves the message empty. *)
Definition newError (message : Value) : M Thrown :=
  match message with
  | Str s => ret (ErrorObj s)
  | Undefined => ret (ErrorObj "")
  | other => fun env w =>
      match toStringOther env other with
      | Normal s => (Normal (ErrorObj s), w)
      | Abrupt t => (Abrupt t, w)
      end
  end.

(** [prev.map((res, index) => f res index)]. *)
Fixpoint mapiFrom {A B} (start : nat) (f : A -> nat -> B) (l : list A) : list B :=
  match l with
  | [] => []
  | x :: rest => f x start :: mapiFrom (S start) f rest
  end.

Definition mapi {A B} (f : A -> nat -> B) (l : list A) : list B := mapiFrom 0 f l.

End Runtime.
Import Runtime.

(** ** [services/geminiService.ts] *)

Module GeminiService.

Definition generateSummaryFromText (fullPrompt modelName : string) : M Value :=
  tryCatch
    (response <- call (GenerateContent modelName fullPrompt)
                      (fun env h => generateContent env h modelName fullPrompt) ;;
     ret (match Web.text response with
          | Some s => Str s
          | None => Undefined
          end))
    (fun error =>
       emit (ConsoleError "Error generating summary from Gemini:") ;;
       match error with
       | ErrorObj message =>
           ret (Str ("Error during summary generation: " ++ message))
       | NonError =>
           ret (Str "An unknown error occurred during summary generation.")
       end).

End GeminiService.

(** ** [services/volcanoService.ts] *)

Module VolcanoService.

Definition apiEndpoint : string :=
  "https://ark.cn-beijing.volces.com/api/v3/chat/completions".

Definition modelId : string := "ep-20250718110917-jckmt".

Definition requestInit (fullPrompt : string) (creds : VolcanoCredentials)
  : Web.RequestInit :=
  Web.mkRequestInit "POST"
    [("Authorization", ("Bearer " ++ apiKey creds)%string);
     ("Content-Type", "application/json")]
    (Obj [("model", Str modelId);
          ("messages", Arr [Obj [("role", Str "user");
                                 ("content", Str fullPrompt)]])]).

Definition missingKeyMessage : string :=
  "Error: Volcano Engine API Key is required but was not provided.".

Definition invalidStructureMessage : string :=
  "Received an invalid response structure from the API.".

Definition errorPrefix : string :=
  "Error during Volcano Engine summary generation: ".

Definition unknownErrorMessage : string :=
  "An unknown error occurred during Volcano Engine summary generation.".

(** What the client returns for a response of invalid structure. *)
Definition invalidStructureFailure : Completion Value :=
  Normal (Str (errorPrefix ++ invalidStructureMessage)).

(** The condition
    [!data.choices || data.choices.length === 0 ||
     !data.choices[0].message?.content], evaluated left to right. *)
Definition invalidStructure (data : Value) : M bool :=
  choices <- getM data "choices" ;;
  if negb (truthy choices) then ret true
  else
    (choices1 <- getM data "choices" ;;
     len <- getM choices1 "length" ;;
     if strictEqualsZero len then ret true
     else
       (choices2 <- getM data "choices" ;;
        first <- getM choices2 "0" ;;
        message <- getM first "message" ;;
        ret (negb (truthy (getOpt message "content"))))).

Definition generateSummaryFromVolcano
  (fullPrompt : string) (creds : VolcanoCredentials) : M Value :=
  emit (ConsoleLog "Making API call to Volcano Engine...") ;;
  if negb (truthyString (apiKey creds)) then ret (Str missingKeyMessage)
  else
    tryCatch
      (response <- call (Fetch apiEndpoint (requestInit fullPrompt creds))
                        (fun env h => fetch env h apiEndpoint
                                            (requestInit fullPrompt creds)) ;;
       if negb (Web.ok response) then
         (errorBody <- tryCatch (lift (Web.json response))
                                (fun _ => ret (Obj [])) ;;
          let fromBody := getOpt (getOpt errorBody "error") "message" in
          let errorMessage :=
            if truthy fromBody then fromBody
            else Str ("API request failed with status "
                      ++ natToString (Web.status response)) in
          e <- newError errorMessage ;;
          throw e)
       else
         (data <- lift (Web.json response) ;;
          invalid <- invalidStructure data ;;
          if invalid then throw (ErrorObj invalidStructureMessage)
          else
            (choices <- getM data "choices" ;;
             first <- getM choices "0" ;;
             message <- getM first "message" ;;
             getM message "content")))
      (fun error =>
         emit (ConsoleError "Error generating summary from Volcano Engine:") ;;
         match error with
         | ErrorObj message => ret (Str (errorPrefix ++ message))
         | NonError => ret (Str unknownErrorMessage)
         end).

End VolcanoService.

(** ** [App.tsx] *)

Module App.

Import GeminiService VolcanoService.

(** *** State setters *)

Definition withFiles (fs : list Web.File) (st : AppState) : AppState :=
  mkAppState fs (prompt st) (apiProvider st) (selectedModel st)
             (volcanoCreds st) (results st) (isProcessing st)
             (globalError st) (apiKeyMissing st).

Definition withResults (rs : list SummaryResult) (st : AppState) : AppState :=
  mkAppState (files st) (prompt st) (apiProvider st) (selectedModel st)
             (volcanoCreds st) rs (isProcessing st)
             (globalError st) (apiKeyMissing st).

Definition withIsProcessing (b : bool) (st : AppState) : AppState :=
  mkAppState (files st) (prompt st) (apiProvider st) (selectedModel st)
             (volcanoCreds st) (results st) b
             (globalError st) (apiKeyMissing st).

Definition withGlobalError (message : string) (st : AppState) : AppState :=
  mkAppState (files st) (prompt st) (apiProvider st) (selectedModel st)
             (volcanoCreds st) (results st) (isProcessing st)
             message (apiKeyMissing st).

Definition withPrompt (p : string) (st : AppState) : AppState :=
  mkAppState (files st) p (apiProvider st) (selectedModel st)
             (volcanoCreds st) (results st) (isProcessing st)
             (globalError st) (apiKeyMissing st).

Definition withApiProvider (provider : ApiProvider) (st : AppState) : AppState :=
  mkAppState (files st) (prompt st) provider (selectedModel st)
             (volcanoCreds st) (results st) (isProcessing st)
             (globalError st) (apiKeyMissing st).

Definition withSelectedModel (model : string) (st : AppState) : AppState :=
  mkAppState (files st) (prompt st) (apiProvider st) model
             (volcanoCreds st) (results st) (isProcessing st)
             (globalError st) (apiKeyMissing st).

Definition withVolcanoCreds (creds : VolcanoCredentials) (st : AppState)
  : AppState :=
  mkAppState (files st) (prompt st) (apiProvider st) (selectedModel st)
             creds (results st) (isProcessing st)
             (globalError st) (apiKeyMissing st).

Definition setFiles (fs : list Web.File) : M unit :=
  setState SetFiles (withFiles fs).

Definition setPrompt (p : string) : M unit :=
  setState SetPrompt (withPrompt p).

Definition setApiProvider (provider : ApiProvider) : M unit :=
  setState SetApiProvider (withApiProvider provider).

Definition setSelectedModel (model : string) : M unit :=
  setState SetSelectedModel (withSelectedModel model).

Definition setVolcanoCreds (creds : VolcanoCredentials) : M unit :=
  setState SetVolcanoCreds (withVolcanoCreds creds).

(** [setResults] with an updater; [setResults(v)] is [setResults (fun _ => v)]. *)
Definition setResults (f : list SummaryResult -> list SummaryResult) : M unit :=
  setState SetResults (fun st => withResults (f (results st)) st).

Definition setIsProcessing (b : bool) : M unit :=
  setState SetIsProcessing (withIsProcessing b).

Definition setGlobalError (message : string) : M unit :=
  setState SetGlobalError (withGlobalError message).

(** *** [handleFileSelect]; [None] is a change event without a file list. *)

Definition handleFileSelect (selectedFiles : option (list Web.File)) : M unit :=
  match selectedFiles with
  | Some allFiles =>
      let pdfFiles :=
        filter (fun file => (Web.type file =? "application/pdf")%string) allFiles in
      (if negb (List.length pdfFiles =? List.length allFiles)
       then setGlobalError "Some selected files were not PDFs and have been ignored."
       else setGlobalError "") ;;
      setFiles pdfFiles ;;
      setResults (fun _ => [])
  | None => ret tt
  end.

(** *** [parsePdf] *)

(** The page loop, over the page numbers still to read. *)
Fixpoint readPages (pdf : Web.PdfDocument) (pageNumbers : list nat)
                   (fullText : string) : M string :=
  match pageNumbers with
  | [] => ret fullText
  | i :: rest =>
      page <- lift (Web.getPage pdf i) ;;
      textContent <- lift (Web.getTextContent page) ;;
      let pageText := String.concat " " (map Web.str (Web.items textContent)) in
      readPages pdf rest (fullText ++ pageText ++ LF ++ LF)
  end.

Definition parsePdf (file : Web.File) : M string :=
  buffer <- call (ReadFile file) (fun env h => arrayBuffer env h file) ;;
  pdf <- call (GetDocument buffer) (fun env h => getDocument env h buffer) ;;
  readPages pdf (seq 1 (Web.numPages pdf)) "".

(** *** [constructFullPrompt] *)

Definition constructFullPrompt (pdfText userPrompt : string) : string :=
  LF ++ "          Based on the following user request, please analyze the provided PDF content and generate a response."
  ++ LF ++ "    "
  ++ LF ++ "          USER REQUEST:"
  ++ LF ++ "          " ++ DQUOTE ++ userPrompt ++ DQUOTE
  ++ LF ++ "    "
  ++ LF ++ "          The final output should be in plain TEXT format."
  ++ LF ++ "    "
  ++ LF ++ "          --- PDF CONTENT START ---"
  ++ LF ++ "          " ++ pdfText
  ++ LF ++ "          --- PDF CONTENT END ---"
  ++ LF ++ "        ".

(** *** [handleGenerate] *)

Definition blankTextMessage : string :=
  "Could not extract any text from the PDF. It might be an image-only PDF.".

Definition preconditionNotice : string :=
  "Please select a folder with PDFs and enter a prompt.".

Definition initialEntry (file : Web.File) : SummaryResult :=
  mkSummaryResult (Web.name file ++ "-" ++ intToString (Web.lastModified file))
                  (Web.name file) "" PROCESSING None.

Definition initialResults (fs : list Web.File) : list SummaryResult :=
  map initialEntry fs.

(** The selected model client. *)
Definition callModel (st : AppState) (fullPrompt : string) : M Value :=
  match apiProvider st with
  | gemini => generateSummaryFromText fullPrompt (selectedModel st)
  | volcano => generateSummaryFromVolcano fullPrompt (volcanoCreds st)
  end.

(** The [try] block up to the ledger update: the summary of one file, or
    the fault thrown on the way.  [summary.startsWith] on a value that is
    not a string is the engine's TypeError. *)
Definition summarizeFile (st : AppState) (file : Web.File) : M string :=
  pdfText <- parsePdf file ;;
  if negb (truthyString (trim pdfText)) then throw (ErrorObj blankTextMessage)
  else
    (let fullPrompt := constructFullPrompt pdfText (prompt st) in
     summary <- callModel st fullPrompt ;;
     match summary with
     | Str s => if startsWith s "Error" then throw (ErrorObj s) else ret s
     | other => fun env w =>
         (Abrupt (ErrorObj (typeErrorMessage env other "startsWith")), w)
     end).

Definition markSuccess (summary : string) (res : SummaryResult) : SummaryResult :=
  mkSummaryResult (id res) (fileName res) summary SUCCESS (error res).

Definition markError (errorMessage : string) (res : SummaryResult) : SummaryResult :=
  mkSummaryResult (id res) (fileName res) (content res) ERROR (Some errorMessage).

(** [setResults(prev => prev.map((res, index) => index === i ? f res : res))]. *)
Definition updateEntry (i : nat) (f : SummaryResult -> SummaryResult) : M unit :=
  setResults (mapi (fun res index => if index =? i then f res else res)).

Definition faultMessage (error : Thrown) : string :=
  match error with
  | ErrorObj message => message
  | NonError => "An unknown error occurred"
  end.

(** One iteration of the [for] loop. *)
Definition processFile (st : AppState) (i : nat) (file : Web.File) : M unit :=
  tryCatch
    (summary <- summarizeFile st file ;;
     updateEntry i (markSuccess summary))
    (fun error =>
       let errorMessage := faultMessage error in
       emit (ConsoleError ("Failed to process " ++ Web.name file ++ ":")) ;;
       updateEntry i (markError errorMessage)).

(** [for (let i = ...; i < files.length; i++)], from index [i] over the
    files not yet visited. *)
Fixpoint forFiles (st : AppState) (i : nat) (rest : list Web.File) : M unit :=
  match rest with
  | [] => ret tt
  | file :: rest' => processFile st i file ;; forFiles st (S i) rest'
  end.

Definition rejects (st : AppState) : bool :=
  (List.length (files st) =? 0) || negb (truthyString (trim (prompt st))).

(** The statements before the loop. *)
Definition startBatch (st : AppState) : M unit :=
  setIsProcessing true ;;
  setGlobalError "" ;;
  setResults (fun _ => initialResults (files st)).

(** The handler as it runs when no other handler runs at its [await]s;
    the runs in which one does are in [Interleaved] below. *)
Definition handleGenerate : M unit :=
  st <- getState ;;
  if rejects st then setGlobalError preconditionNotice
  else
    (startBatch st ;;
     forFiles st 0 (files st) ;;
     setIsProcessing false).

(** *** [handleDownloadZip]

    The archive is built by one [zip.file(name, data)] call per
    successful entry, in ledger order; the generated archive is handed to
    the download link. *)

Definition noSuccessNotice : string := "No successful summaries to download.".

Definition archiveEntry (result : SummaryResult) : string * string :=
  (replace ".pdf" ".txt" (fileName result), content result).

(** [successfulResults.forEach(result => zip.file(fileName, result.content))]. *)
Definition addFiles (successfulResults : list SummaryResult) (zip : JSZip.Zip)
  : JSZip.Zip :=
  fold_left (fun z result =>
               JSZip.file (fst (archiveEntry result)) (snd (archiveEntry result)) z)
            successfulResults zip.

Definition handleDownloadZip : M unit :=
  st <- getState ;;
  let successfulResults :=
    filter (fun r => statusEq (status r) SUCCESS) (results st) in
  if List.length successfulResults =? 0 then setGlobalError noSuccessNotice
  else emit (Download "pdf_summaries.zip" (addFiles successfulResults JSZip.empty)).

(** *** Derived flags *)

Definition isReadyToGenerate (st : AppState) : bool :=
  if (List.length (files st) =? 0) || negb (truthyString (trim (prompt st)))
  then false
  else match apiProvider st with
       | gemini => negb (apiKeyMissing st)
       | volcano => truthyString (apiKey (volcanoCreds st))
       end.

Definition allDone (st : AppState) : bool :=
  (0 <? List.length (results st)) && negb (isProcessing st).

End App.
Import App.

(** ** Observations on runs *)

Module Observe.

(** The events a program adds to the log. *)
Definition runEvents {A} (m : M A) (env : Env) (w : World) : list Event :=
  skipn (List.length (log w)) (log (snd (m env w))).

(** The requests sent over the network. *)
Fixpoint networkCalls (evs : list Event) : list (string * Web.RequestInit) :=
  match evs with
  | [] => []
  | Fetch url init :: rest => (url, init) :: networkCalls rest
  | _ :: rest => networkCalls rest
  end.


(** The successive application states. *)
Fixpoint stateTrace (evs : list Event) : list AppState :=
  match evs with
  | [] => []
  | StateSet _ st :: rest => st :: stateTrace rest
  | _ :: rest => stateTrace rest
  end.

(** The successive values of the ledger. *)
Fixpoint ledgerTrace (evs : list Event) : list (list SummaryResult) :=
  match evs with
  | [] => []
  | StateSet SetResults st :: rest => results st :: ledgerTrace rest
  | _ :: rest => ledgerTrace rest
  end.

(** The archives handed to the download link. *)
Fixpoint downloads (evs : list Event) : list (string * list (string * string)) :=
  match evs with
  | [] => []
  | Download n entries :: rest => (n, entries) :: downloads rest
  | _ :: rest => downloads rest
  end.

(** A step that leaves the application state alone: it only adds events
    that set no state. *)
Definition Quiet (w w' : World) : Prop :=
  app w' = app w /\
  exists evs, log w' = log w ++ evs /\ stateTrace evs = [].

Definition QuietM {A} (m : M A) : Prop :=
  forall env w, Quiet w (snd (m env w)).

(** A program that always completes normally. *)
Definition TotalM {A} (m : M A) : Prop :=
  forall env w, exists a, fst (m env w) = Normal a.

End Observe.
Import Observe.

(** ** The batch, file by file *)

Module Batch.

(** The entry of a file once its block has completed with [o]. *)
Definition outcomeEntry (o : Completion string) (res : SummaryResult)
  : SummaryResult :=
  match o with
  | Normal summary => markSuccess summary res
  | Abrupt t => markError (faultMessage t) res
  end.

(** The world in which the loop started from [w] reaches index [i]. *)
Definition worldBefore (env : Env) (w : World) (i : nat) : World :=
  snd ((startBatch (app w) ;;
        forFiles (app w) 0 (firstn i (files (app w)))) env w).

(** How the block of [file], reached at index [i], completes. *)
Definition fileOutcome (env : Env) (w : World) (i : nat) (file : Web.File)
  : Completion string :=
  fst (summarizeFile (app w) file env (worldBefore env w i)).

(** The ledger when the loop reaches index [i]: the entries below [i]
    carry their outcome, the others are as created. *)
Definition ledgerAt (env : Env) (w : World) (i : nat) : list SummaryResult :=
  mapi (fun file index =>
          if index <? i
          then outcomeEntry (fileOutcome env w index file) (initialEntry file)
          else initialEntry file)
       (files (app w)).

(** The application state while the loop runs. *)
Definition runningState (env : Env) (w : World) (i : nat) : AppState :=
  withResults (ledgerAt env w i)
              (withGlobalError "" (withIsProcessing true (app w))).

(** The ways the processing of a file, started in [w], fails for the
    loop: the extraction faults, the extracted text is blank, or the model
    client returns a text that begins with the marker. *)
Inductive Fails (st : AppState) (file : Web.File) (env : Env) (w : World)
  : Thrown -> Prop :=
| ExtractionFault (t : Thrown) (w1 : World) :
    parsePdf file env w = (Abrupt t, w1) ->
    Fails st file env w t
| BlankText (pdfText : string) (w1 : World) :
    parsePdf file env w = (Normal pdfText, w1) ->
    trim pdfText = "" ->
    Fails st file env w (ErrorObj blankTextMessage)
| GenerationFailure (pdfText : string) (w1 : World) (s : string) (w2 : World) :
    parsePdf file env w = (Normal pdfText, w1) ->
    trim pdfText <> "" ->
    callModel st (constructFullPrompt pdfText (prompt st)) env w1
      = (Normal (Str s), w2) ->
    startsWith s "Error" = true ->
    Fails st file env w (ErrorObj s).

(** The processing of a file, started in [w], succeeds with [s] for the
    loop: the model client returned the text [s], which does not begin with
    the marker. *)
Inductive Succeeds (st : AppState) (file : Web.File) (env : Env) (w : World)
  : string -> Prop :=
| Summarized (pdfText : string) (w1 : World) (s : string) (w2 : World) :
    parsePdf file env w = (Normal pdfText, w1) ->
    trim pdfText <> "" ->
    callModel st (constructFullPrompt pdfText (prompt st)) env w1
      = (Normal (Str s), w2) ->
    startsWith s "Error" = false ->
    Succeeds st file env w s.

End Batch.
Import Batch.

(** ** What the user can do *)

Module Session.

(** The handlers the page wires to its controls. *)
Inductive Action : Type :=
| SelectFiles (selection : option (list Web.File))
| EditPrompt (p : string)
| ChooseProvider (provider : ApiProvider)
| ChooseModel (model : string)
| EnterKey (key : string)
| Generate
| DownloadZip.

Definition perform (a : Action) : M unit :=
  match a with
  | SelectFiles selection => handleFileSelect selection
  | EditPrompt p => setPrompt p
  | ChooseProvider provider => setApiProvider provider
  | ChooseModel model => setSelectedModel model
  | EnterKey key => setVolcanoCreds (mkVolcanoCredentials key)
  | Generate => handleGenerate
  | DownloadZip => handleDownloadZip
  end.

(** The action starts a batch: a generation request that passes the guard. *)
Definition startsBatch (a : Action) (st : AppState) : bool :=
  match a with
  | Generate => negb (rejects st)
  | _ => false
  end.

(** The action hands over a list of selected files. *)
Definition selectsFiles (a : Action) : bool :=
  match a with
  | SelectFiles (Some _) => true
  | _ => false
  end.

(** The state [App] mounts with; [keyMissing] tells whether the Gemini key
    is configured. *)
Definition initialState (keyMissing : bool) : AppState :=
  mkAppState [] "Summarize this document in three key bullet points."
             gemini "gemini-2.5-flash" (mkVolcanoCredentials "")
             [] false "" keyMissing.

(** The worlds a session reaches, one handler after the other. *)
Inductive Reachable (env : Env) : World -> Prop :=
| ReachInitial (keyMissing : bool) :
    Reachable env (mkWorld (initialState keyMissing) [])
| ReachStep (w : World) (a : Action) :
    Reachable env w -> Reachable env (snd (perform a env w)).

End Session.
Import Session.

(** ** Sample runs *)

Module Examples.

Definition pdf (n : string) : Web.File :=
  Web.mkFile n 1700000000000%Z "application/pdf".

Definition onePage (pageItems : list string) : Web.PdfDocument :=
  Web.mkPdfDocument 1
    (fun _ => Normal (Web.mkPdfPage
                        (Normal (Web.mkTextContent (map Web.mkTextItem pageItems))))).

(** A world outside: [scan.pdf] holds no text, every other file reads
    "Hello world"; the Gemini endpoint answers [reply]; the Volcano
    endpoint answers [response]. *)
Definition outside (reply : Completion Web.GenerateContentResponse)
                   (response : Completion Web.Response) : Env :=
  mkEnv
    (fun _ file => if (Web.name file =? "scan.pdf")%string
                   then Normal [] else Normal [Init.Byte.x25])
    (fun _ data => match data with
                   | [] => Normal (onePage [" "])
                   | _ => Normal (onePage ["Hello"; "world"])
                   end)
    (fun _ _ _ => reply)
    (fun _ _ _ => response)
    (fun v key =>
       ("Cannot read properties of "
        ++ match v with Null => "null" | _ => "undefined" end
        ++ " (reading '" ++ key ++ "')")%string)
    (fun _ => Normal "[object Object]").

Definition answers (reply : string) : Env :=
  outside (Normal (Web.mkGenerateContentResponse (Some reply)))
          (Abrupt (ErrorObj "Failed to fetch")).

Definition replies (response : Completion Web.Response) : Env :=
  outside (Abrupt (ErrorObj "unused")) response.

Definition selected (fs : list Web.File) (p : string) : AppState :=
  mkAppState fs p gemini "gemini-2.5-flash" (mkVolcanoCredentials "")
             [] false "" false.

Definition threeFiles : World :=
  mkWorld (selected [pdf "a.pdf"; pdf "scan.pdf"; pdf "c.pdf"]
                    "Summarize this document in three key bullet points.")
          [].

Definition oneFile : World :=
  mkWorld (selected [pdf "a.pdf"]
                    "Summarize this document in three key bullet points.")
          [].

(** A ledger whose one entry is a success for [n]. *)
Definition summarized (n : string) : World :=
  mkWorld
    (mkAppState [pdf n] "Summarize." gemini "gemini-2.5-flash"
                (mkVolcanoCredentials "")
                [mkSummaryResult (n ++ "-1700000000000") n "A summary." SUCCESS None]
                false "" false)
    [].

Definition withKey : VolcanoCredentials := mkVolcanoCredentials "secret".

(** A 429 response with an error body. *)
Definition quotaExceeded : Web.Response :=
  Web.mkResponse 429
    (Normal (Obj [("error", Obj [("message", Str "Quota exceeded.")])])).

(** A 200 response whose single choice is [null]. *)
Definition nullChoice : Web.Response :=
  Web.mkResponse 200 (Normal (Obj [("choices", Arr [Null])])).


End Examples.

(** ** Further observations *)

Module Footprint.

Definition isReadFile (e : Event) : bool :=
  match e with ReadFile _ => true | _ => false end.

Definition isGenerateContent (e : Event) : bool :=
  match e with GenerateContent _ _ => true | _ => false end.

Definition isFetch (e : Event) : bool :=
  match e with Fetch _ _ => true | _ => false end.

(** A call of a model client's endpoint. *)
Definition isModelCall (e : Event) : bool :=
  isGenerateContent e || isFetch e.

(** A program that adds no event of the kind [p]. *)
Definition SilentM {A} (p : Event -> bool) (m : M A) : Prop :=
  forall env w,
  exists evs, log (snd (m env w)) = log w ++ evs /\ filter p evs = [].

(** A program whose events of the kind [p] are exactly [l]. *)
Definition OnlyM {A} (p : Event -> bool) (l : list Event) (m : M A) : Prop :=
  forall env w,
  exists evs, log (snd (m env w)) = log w ++ evs /\ filter p evs = l.

(** A program that adds at most [n] events of the kind [p]. *)
Definition AtMostM {A} (p : Event -> bool) (n : nat) (m : M A) : Prop :=
  forall env w,
  exists evs,
    log (snd (m env w)) = log w ++ evs /\ List.length (filter p evs) <= n.

(** The events of the iteration for the file at index [i] of a batch
    started in [w]. *)
Definition fileEvents (env : Env) (w : World) (i : nat) : list Event :=
  match nth_error (files (app w)) i with
  | Some file =>
      runEvents (processFile (app w) i file) env (worldBefore env w i)
  | None => []
  end.

(** The kind of no event. *)
Definition none (e : Event) : bool := false.

End Footprint.
Import Footprint.


(** ** Closed forms *)

Module Closed.

(** What the two awaits on page [i] give: the strings of its text items. *)
Definition pageOutcome (pdf : Web.PdfDocument) (i : nat)
  : Completion (list string) :=
  match Web.getPage pdf i with
  | Normal page =>
      match Web.getTextContent page with
      | Normal textContent => Normal (map Web.str (Web.items textContent))
      | Abrupt t => Abrupt t
      end
  | Abrupt t => Abrupt t
  end.

(** The text of a page: its items joined by a space, then a blank line. *)
Definition pageText (pageItems : list string) : string :=
  String.concat " " pageItems ++ LF ++ LF.

(** The text of a document: the texts of its pages, one after the other. *)
Definition documentText (pages : list (list string)) : string :=
  fold_right String.append "" (map pageText pages).

(** The request a model call for [fullPrompt] makes, if it makes one. *)
Definition modelRequest (st : AppState) (fullPrompt : string) : list Event :=
  match apiProvider st with
  | gemini => [GenerateContent (selectedModel st) fullPrompt]
  | volcano =>
      if truthyString (apiKey (volcanoCreds st))
      then [Fetch VolcanoService.apiEndpoint
                  (VolcanoService.requestInit fullPrompt (volcanoCreds st))]
      else []
  end.

(** The model request of the iteration at index [i]: one for a file that
    yields text, none for the others. *)
Definition fileRequest (env : Env) (w : World) (i : nat) : list Event :=
  match nth_error (files (app w)) i with
  | Some file =>
      match parsePdf file env (worldBefore env w i) with
      | (Normal pdfText, _) =>
          if negb (truthyString (trim pdfText)) then []
          else modelRequest (app w)
                            (constructFullPrompt pdfText (prompt (app w)))
      | (Abrupt _, _) => []
      end
  | None => []
  end.

(** A finished entry: a success without error message, or an error with
    its message and no content. *)
Definition finished (r : SummaryResult) : Prop :=
  (status r = SUCCESS /\ error r = None)
  \/ (status r = ERROR /\ content r = "" /\ error r <> None).


(** The entry a Gemini answer leaves for [file]. *)
Definition geminiEntry (env : Env)
           (answer : Completion Web.GenerateContentResponse)
           (file : Web.File) : SummaryResult :=
  match answer with
  | Normal response =>
      match Web.text response with
      | Some s =>
          if startsWith s "Error" then markError s (initialEntry file)
          else markSuccess s (initialEntry file)
      | None =>
          markError (typeErrorMessage env Undefined "startsWith")
                    (initialEntry file)
      end
  | Abrupt (ErrorObj message) =>
      markError ("Error during summary generation: " ++ message)
                (initialEntry file)
  | Abrupt NonError =>
      markSuccess "An unknown error occurred during summary generation."
                  (initialEntry file)
  end.

(** The three fixed parts of the prompt template: before the request,
    between the request and the PDF text, and after the PDF text. *)
Definition promptDivider : string :=
  DQUOTE
  ++ LF ++ "    "
  ++ LF ++ "          The final output should be in plain TEXT format."
  ++ LF ++ "    "
  ++ LF ++ "          --- PDF CONTENT START ---"
  ++ LF ++ "          ".

Definition promptOpening : string :=
  LF ++ "          Based on the following user request, please analyze the provided PDF content and generate a response."
  ++ LF ++ "    "
  ++ LF ++ "          USER REQUEST:"
  ++ LF ++ "          " ++ DQUOTE.

Definition promptClosing : string :=
  LF ++ "          --- PDF CONTENT END ---"
  ++ LF ++ "        ".

(** Two states with the same inputs of a batch. *)
Definition sameInputs (a b : AppState) : Prop :=
  files a = files b /\ prompt a = prompt b /\ apiProvider a = apiProvider b
  /\ selectedModel a = selectedModel b /\ volcanoCreds a = volcanoCreds b
  /\ apiKeyMissing a = apiKeyMissing b.

(** The test of the file filter. *)
Definition isPdf (file : Web.File) : bool :=
  (Web.type file =? "application/pdf")%string.

(** The archive built by the [file(name, data)] calls [entries], in order. *)
Definition archiveOf (entries : list (string * string)) : JSZip.Zip :=
  fold_left (fun z e => JSZip.file (fst e) (snd e) z) entries JSZip.empty.

End Closed.
Import Closed.

(** ** Handlers that run while a batch awaits

    [handleGenerate] is asynchronous: at each [await] the page is free to
    run another handler, to its end, before the batch goes on.  The batch
    keeps the [files], [prompt] and provider settings it started with
    (its closure), while its ledger updates, [setResults(prev => ...)],
    read the ledger as the other handler left it.  The file input is
    enabled during a batch; here the other handlers run during the first
    [await] of an iteration, the read of its file. *)

Module Interleaved.

(** An [await] of an external call during which [others] runs: the call
    is made, the other handlers run to their end, then the outcome of the
    call comes back to the awaiting code; what the other handlers throw
    does not reach it. *)
Definition callDuring {A} (others : M unit) (e : Event)
           (answer : Env -> list Event -> Completion A) : M A :=
  fun env w =>
    let (outcome, w1) := call e answer env w in
    (outcome, snd (others env w1)).

(** [parsePdf], with [others] running while [file.arrayBuffer()] is awaited. *)
Definition parsePdfDuring (others : M unit) (file : Web.File) : M string :=
  buffer <- callDuring others (ReadFile file)
                       (fun env h => arrayBuffer env h file) ;;
  pdf <- call (GetDocument buffer) (fun env h => getDocument env h buffer) ;;
  readPages pdf (seq 1 (Web.numPages pdf)) "".

Definition summarizeFileDuring (others : M unit) (st : AppState)
           (file : Web.File) : M string :=
  pdfText <- parsePdfDuring others file ;;
  if negb (truthyString (trim pdfText)) then throw (ErrorObj blankTextMessage)
  else
    (let fullPrompt := constructFullPrompt pdfText (prompt st) in
     summary <- callModel st fullPrompt ;;
     match summary with
     | Str s => if startsWith s "Error" then throw (ErrorObj s) else ret s
     | other => fun env w =>
         (Abrupt (ErrorObj (typeErrorMessage env other "startsWith")), w)
     end).

Definition processFileDuring (others : M unit) (st : AppState) (i : nat)
           (file : Web.File) : M unit :=
  tryCatch
    (summary <- summarizeFileDuring others st file ;;
     updateEntry i (markSuccess summary))
    (fun error =>
       let errorMessage := faultMessage error in
       emit (ConsoleError ("Failed to process " ++ Web.name file ++ ":")) ;;
       updateEntry i (markError errorMessage)).

(** The loop; [others i] is what runs while the file at index [i] is read. *)
Fixpoint forFilesDuring (others : nat -> M unit) (st : AppState) (i : nat)
         (rest : list Web.File) : M unit :=
  match rest with
  | [] => ret tt
  | file :: rest' =>
      processFileDuring (others i) st i file ;;
      forFilesDuring others st (S i) rest'
  end.

Definition handleGenerateDuring (others : nat -> M unit) : M unit :=
  st <- getState ;;
  if rejects st then setGlobalError preconditionNotice
  else
    (startBatch st ;;
     forFilesDuring others st 0 (files st) ;;
     setIsProcessing false).

(** No other handler runs. *)
Definition undisturbed : nat -> M unit := fun _ => ret tt.

(** The user picks the files [selection] while the file at index [k] is
    read. *)
Definition selectionAt (k : nat) (selection : list Web.File) : nat -> M unit :=
  fun i => if i =? k then handleFileSelect (Some selection) else ret tt.

End Interleaved.
Import Interleaved.

(** ** More sample runs *)

Module Samples.

(** Two selected files under the Volcano provider, with the key [key]. *)
Definition underVolcano (key : string) : World :=
  mkWorld
    (mkAppState [Examples.pdf "a.pdf"; Examples.pdf "scan.pdf"]
                "Summarize." volcano "gemini-2.5-flash"
                (mkVolcanoCredentials key) [] false "" false)
    [].

Definition notes : Web.File := Web.mkFile "notes.txt" 1700000000000%Z "text/plain".

(** A document of two pages. *)
Definition twoPages : Web.PdfDocument :=
  Web.mkPdfDocument 2
    (fun i =>
       Normal (Web.mkPdfPage
                 (Normal (Web.mkTextContent
                            (if i =? 1
                             then [Web.mkTextItem "Annual"; Web.mkTextItem "report"]
                             else [Web.mkTextItem "Page two"]))))).

(** A document whose second page cannot be loaded. *)
Definition brokenSecondPage : Web.PdfDocument :=
  Web.mkPdfDocument 3
    (fun i =>
       if i =? 2 then Abrupt (ErrorObj "Invalid page request")
       else Normal (Web.mkPdfPage
                      (Normal (Web.mkTextContent [Web.mkTextItem "Text"])))).

(** A 200 response with one completion. *)
Definition completion (s : string) : Web.Response :=
  Web.mkResponse 200
    (Normal (Obj [("choices",
                   Arr [Obj [("message", Obj [("role", Str "assistant");
                                              ("content", Str s)])]])])).

(** A 503 response whose body is no JSON. *)
Definition unavailable : Web.Response :=
  Web.mkResponse 503 (Abrupt (ErrorObj "Unexpected token '<'")).

(** An environment that opens every file as [pdf]. *)
Definition opens (pdf : Web.PdfDocument)
                 (reply : Completion Web.GenerateContentResponse) : Env :=
  mkEnv (fun _ _ => Normal [Init.Byte.x25])
        (fun _ _ => Normal pdf)
        (fun _ _ _ => reply)
        (fun _ _ _ => Abrupt (ErrorObj "Failed to fetch"))
        (fun v key =>
           ("Cannot read properties of undefined (reading '" ++ key ++ "')")%string)
        (fun _ => Normal "[object Object]").

(** A Gemini reply with the text [s]. *)
Definition said (s : string) : Completion Web.GenerateContentResponse :=
  Normal (Web.mkGenerateContentResponse (Some s)).

(** The world of [Examples.answers], but the Gemini SDK answers its first
    call with [first] and every later call with [later]. *)
Definition inTurn (first later : Completion Web.GenerateContentResponse) : Env :=
  let base := Examples.answers "" in
  mkEnv (arrayBuffer base) (getDocument base)
        (fun h _ _ => if existsb isGenerateContent h then later else first)
        (fetch base) (typeErrorMessage base) (toStringOther base).

(** Two selected files, [a.pdf] and [c.pdf]. *)
Definition twoFiles : World :=
  mkWorld (Examples.selected [Examples.pdf "a.pdf"; Examples.pdf "c.pdf"]
                             "Summarize.")
          [].

(** A selected folder that holds [report.pdf] in two of its sub-folders. *)
Definition twoReports : World :=
  mkWorld
    (Examples.selected
       [Web.mkFile "report.pdf" 1700000000000%Z "application/pdf";
        Web.mkFile "report.pdf" 1700000000001%Z "application/pdf"]
       "Summarize.")
    [].

(** A 200 response whose single choice has no message. *)
Definition emptyChoice : Web.Response :=
  Web.mkResponse 200 (Normal (Obj [("choices", Arr [Obj []])])).

End Samples.

(** * Properties *)

Unset Implicit Arguments.

(** ** The program monad *)

Section MonadFacts.

Context {A B : Type}.

Lemma quiet_refl (w : World) : Quiet w w.
Proof.
  split; [reflexivity|]. exists []. now rewrite app_nil_r.
Qed.

Lemma stateTrace_app (e1 e2 : list Event) :
  stateTrace (e1 ++ e2) = stateTrace e1 ++ stateTrace e2.
Proof.
  induction e1 as [|e e1 IH]; simpl; [reflexivity|].
  destruct e; simpl; rewrite ?IH; reflexivity.
Qed.

Lemma quiet_trans (w1 w2 w3 : World) :
  Quiet w1 w2 -> Quiet w2 w3 -> Quiet w1 w3.
Proof.
  intros [Ha (e1 & Hl1 & Hs1)] [Hb (e2 & Hl2 & Hs2)]. split.
  - congruence.
  - exists (e1 ++ e2). rewrite Hl2, Hl1, <- app_assoc. split; [reflexivity|].
    now rewrite stateTrace_app, Hs1, Hs2.
Qed.

Lemma quietM_ret (a : A) : QuietM (ret a).
Proof. intros env w. apply quiet_refl. Qed.

Lemma quietM_throw (t : Thrown) : QuietM (@throw A t).
Proof. intros env w. apply quiet_refl. Qed.

Lemma quietM_lift (c : Completion A) : QuietM (lift c).
Proof. intros env w. apply quiet_refl. Qed.

Lemma quietM_call (e : Event) (answer : Env -> list Event -> Completion A) :
  stateTrace [e] = [] -> QuietM (call e answer).
Proof.
  intros He env w. split; [reflexivity|]. exists [e]. now split.
Qed.

Lemma quietM_bind (m : M A) (k : A -> M B) :
  QuietM m -> (forall a, QuietM (k a)) -> QuietM (bind m k).
Proof.
  intros Hm Hk env w. unfold bind. specialize (Hm env w).
  destruct (m env w) as [[a|t] w1]; simpl in *; [|exact Hm].
  eapply quiet_trans; [exact Hm|]. apply Hk.
Qed.

Lemma quietM_tryCatch (body : M A) (handler : Thrown -> M A) :
  QuietM body -> (forall t, QuietM (handler t)) -> QuietM (tryCatch body handler).
Proof.
  intros Hm Hk env w. unfold tryCatch. specialize (Hm env w).
  destruct (body env w) as [[a|t] w1]; simpl in *; [exact Hm|].
  eapply quiet_trans; [exact Hm|]. apply Hk.
Qed.

Lemma totalM_tryCatch (body : M A) (handler : Thrown -> M A) :
  (forall t, TotalM (handler t)) -> TotalM (tryCatch body handler).
Proof.
  intros Hk env w. unfold tryCatch.
  destruct (body env w) as [[a|t] w1]; simpl; [eauto|]. apply Hk.
Qed.

Lemma totalM_bind (m : M A) (k : A -> M B) :
  TotalM m -> (forall a, TotalM (k a)) -> TotalM (bind m k).
Proof.
  intros Hm Hk env w. unfold bind. destruct (Hm env w) as [a Ha].
  destruct (m env w) as [[a'|t] w1]; simpl in *; [apply Hk|discriminate].
Qed.

End MonadFacts.

Lemma quietM_emit (e : Event) : stateTrace [e] = [] -> QuietM (emit e).
Proof.
  intros He env w. split; [reflexivity|]. exists [e]. now split.
Qed.

Lemma totalM_ret {A} (a : A) : TotalM (ret a).
Proof. intros env w. now exists a. Qed.

Lemma totalM_emit (e : Event) : TotalM (emit e).
Proof. intros env w. now exists tt. Qed.

Lemma quietM_getM (v : Value) (key : string) : QuietM (getM v key).
Proof.
  intros env w. unfold getM. destruct (Js.get v key); apply quiet_refl.
Qed.

Lemma quietM_newError (v : Value) : QuietM (newError v).
Proof.
  intros env w. destruct v; simpl; try apply quiet_refl;
    match goal with |- context [toStringOther ?e ?x] =>
      destruct (toStringOther e x) end; apply quiet_refl.
Qed.

Create HintDb quiet.

#[local] Hint Resolve quietM_ret quietM_throw quietM_lift quietM_getM
  quietM_newError : quiet.

Ltac quiet_step :=
  first
    [ solve [auto with quiet]
    | apply quietM_bind; [|intros]
    | apply quietM_tryCatch; [|intros]
    | apply quietM_emit; reflexivity
    | apply quietM_call; reflexivity
    | match goal with
      | |- QuietM (if ?b then _ else _) => destruct b
      | |- QuietM (match ?x with _ => _ end) => destruct x
      | |- QuietM (let _ := _ in _) => cbv zeta
      end ].

Ltac total_step :=
  first
    [ apply totalM_tryCatch; intros
    | apply totalM_bind; [|intros]
    | apply totalM_emit
    | apply totalM_ret
    | match goal with
      | |- TotalM (if ?b then _ else _) => destruct b
      | |- TotalM (match ?x with _ => _ end) => destruct x
      end ].

(** ** The model clients *)

Lemma generateSummaryFromText_quiet (fullPrompt modelName : string) :
  QuietM (GeminiService.generateSummaryFromText fullPrompt modelName).
Proof. unfold GeminiService.generateSummaryFromText. repeat quiet_step. Qed.

Lemma generateSummaryFromText_total (fullPrompt modelName : string) :
  TotalM (GeminiService.generateSummaryFromText fullPrompt modelName).
Proof. unfold GeminiService.generateSummaryFromText. repeat total_step. Qed.

Lemma invalidStructure_quiet (data : Value) :
  QuietM (VolcanoService.invalidStructure data).
Proof. unfold VolcanoService.invalidStructure. repeat quiet_step. Qed.

Lemma generateSummaryFromVolcano_quiet (fullPrompt : string) (creds : VolcanoCredentials) :
  QuietM (VolcanoService.generateSummaryFromVolcano fullPrompt creds).
Proof.
  unfold VolcanoService.generateSummaryFromVolcano.
  pose proof invalidStructure_quiet. repeat quiet_step.
Qed.

Lemma generateSummaryFromVolcano_total (fullPrompt : string) (creds : VolcanoCredentials) :
  TotalM (VolcanoService.generateSummaryFromVolcano fullPrompt creds).
Proof. unfold VolcanoService.generateSummaryFromVolcano. repeat total_step. Qed.

Lemma callModel_quiet (st : AppState) (fullPrompt : string) :
  QuietM (callModel st fullPrompt).
Proof.
  unfold callModel. destruct (apiProvider st);
    [apply generateSummaryFromText_quiet | apply generateSummaryFromVolcano_quiet].
Qed.

Lemma callModel_total (st : AppState) (fullPrompt : string) :
  TotalM (callModel st fullPrompt).
Proof.
  unfold callModel. destruct (apiProvider st);
    [apply generateSummaryFromText_total | apply generateSummaryFromVolcano_total].
Qed.

(** ** Text extraction and the per-file block *)

Lemma readPages_quiet (pdf : Web.PdfDocument) (pageNumbers : list nat) :
  forall fullText, QuietM (readPages pdf pageNumbers fullText).
Proof.
  induction pageNumbers as [|i rest IH]; intros fullText; simpl;
    repeat quiet_step.
Qed.

Lemma parsePdf_quiet (file : Web.File) : QuietM (parsePdf file).
Proof.
  unfold parsePdf. repeat quiet_step. apply readPages_quiet.
Qed.

Lemma summarizeFile_quiet (st : AppState) (file : Web.File) :
  QuietM (summarizeFile st file).
Proof.
  unfold summarizeFile. pose proof parsePdf_quiet. pose proof callModel_quiet.
  repeat quiet_step; intros env w; apply quiet_refl.
Qed.

Lemma truthyString_trim_false (s : string) :
  trim s = "" -> negb (truthyString (trim s)) = true.
Proof. intros ->. reflexivity. Qed.

Lemma truthyString_trim_true (s : string) :
  trim s <> "" -> negb (truthyString (trim s)) = false.
Proof.
  intros H. unfold truthyString. destruct (String.eqb_spec (trim s) ""); easy.
Qed.

Lemma fails_outcome st file env w t :
  Fails st file env w t -> fst (summarizeFile st file env w) = Abrupt t.
Proof.
  intros H. unfold summarizeFile, bind.
  destruct H as [t w1 Hp | pdfText w1 Hp Hb | pdfText w1 s w2 Hp Hb Hc Hs];
    rewrite Hp; [reflexivity| |].
  - now rewrite (truthyString_trim_false _ Hb).
  - rewrite (truthyString_trim_true _ Hb). cbv zeta. rewrite Hc, Hs. reflexivity.
Qed.

Lemma succeeds_outcome st file env w s :
  Succeeds st file env w s -> fst (summarizeFile st file env w) = Normal s.
Proof.
  intros [pdfText w1 s' w2 Hp Hb Hc Hs]. unfold summarizeFile, bind.
  rewrite Hp, (truthyString_trim_true _ Hb). cbv zeta. rewrite Hc, Hs. reflexivity.
Qed.

(** ** Indexed maps *)

Lemma nth_error_mapiFrom {A B} (f : A -> nat -> B) (l : list A) :
  forall start j,
    nth_error (mapiFrom start f l) j
    = option_map (fun x => f x (start + j)) (nth_error l j).
Proof.
  induction l as [|x l IH]; intros start j; simpl.
  - now destruct j.
  - destruct j as [|j]; simpl.
    + now rewrite Nat.add_0_r.
    + rewrite IH. now rewrite Nat.add_succ_r.
Qed.

Lemma nth_error_mapi {A B} (f : A -> nat -> B) (l : list A) (j : nat) :
  nth_error (mapi f l) j = option_map (fun x => f x j) (nth_error l j).
Proof. unfold mapi. now rewrite nth_error_mapiFrom. Qed.

Lemma length_mapiFrom {A B} (f : A -> nat -> B) (l : list A) :
  forall start, List.length (mapiFrom start f l) = List.length l.
Proof. induction l; intros; simpl; auto. Qed.

Lemma length_mapi {A B} (f : A -> nat -> B) (l : list A) :
  List.length (mapi f l) = List.length l.
Proof. apply length_mapiFrom. Qed.

Lemma list_eq_nth_error {A} (l1 l2 : list A) :
  (forall j, nth_error l1 j = nth_error l2 j) -> l1 = l2.
Proof.
  revert l2. induction l1 as [|x l1 IH]; intros [|y l2] H.
  - reflexivity.
  - specialize (H 0). discriminate.
  - specialize (H 0). discriminate.
  - pose proof (H 0) as H0. simpl in H0. injection H0 as ->.
    f_equal. apply IH. intros j. exact (H (S j)).
Qed.

(** ** One iteration *)

Lemma ledgerTrace_app (e1 e2 : list Event) :
  ledgerTrace (e1 ++ e2) = ledgerTrace e1 ++ ledgerTrace e2.
Proof.
  induction e1 as [|e e1 IH]; simpl; [reflexivity|].
  destruct e as [| | | | | |which st|]; simpl; rewrite ?IH; try reflexivity.
  destruct which; simpl; rewrite ?IH; reflexivity.
Qed.

Lemma ledgerTrace_quiet (evs : list Event) :
  stateTrace evs = [] -> ledgerTrace evs = [].
Proof.
  induction evs as [|e evs IH]; simpl; [reflexivity|].
  destruct e; simpl; auto; discriminate.
Qed.

Lemma processFile_run (st : AppState) (i : nat) (file : Web.File) env w :
  let o := fst (summarizeFile st file env w) in
  let st' :=
    withResults
      (mapi (fun res index => if index =? i then outcomeEntry o res else res)
            (results (app w)))
      (app w) in
  exists evs,
    processFile st i file env w
    = (Normal tt, mkWorld st' (log w ++ evs ++ [StateSet SetResults st']))
    /\ stateTrace evs = [].
Proof.
  intros o st'. subst o st'.
  destruct (summarizeFile_quiet st file env w) as [Happ (evs & Hlog & Hq)].
  unfold processFile, tryCatch, bind.
  destruct (summarizeFile st file env w) as [[summary|t] w1]; simpl in *.
  - exists evs. unfold updateEntry, setResults, setState. simpl.
    rewrite Happ, Hlog, <- app_assoc. split; [reflexivity|assumption].
  - exists (evs ++ [ConsoleError ("Failed to process " ++ Web.name file ++ ":")]).
    unfold updateEntry, setResults, setState, emit. simpl.
    rewrite Happ, Hlog, <- !app_assoc. split; [reflexivity|].
    now rewrite stateTrace_app, Hq.
Qed.

Lemma forFiles_total (st : AppState) (rest : list Web.File) :
  forall i env w, fst (forFiles st i rest env w) = Normal tt.
Proof.
  induction rest as [|file rest IH]; intros i env w; simpl; [reflexivity|].
  unfold bind. destruct (processFile_run st i file env w) as (evs & -> & _).
  apply IH.
Qed.

Lemma forFiles_app (st : AppState) (l1 l2 : list Web.File) :
  forall i env w,
    forFiles st i (l1 ++ l2) env w
    = forFiles st (i + List.length l1) l2 env (snd (forFiles st i l1 env w)).
Proof.
  induction l1 as [|file l1 IH]; intros i env w; simpl.
  - now rewrite Nat.add_0_r.
  - unfold bind. destruct (processFile_run st i file env w) as (evs & -> & _).
    rewrite IH. now rewrite Nat.add_succ_r.
Qed.

(** ** The loop, index by index *)

Lemma startBatch_run (st : AppState) env w :
  let s1 := withIsProcessing true (app w) in
  let s2 := withGlobalError "" s1 in
  let s3 := withResults (initialResults (files st)) s2 in
  startBatch st env w
  = (Normal tt,
     mkWorld s3 (log w ++ [StateSet SetIsProcessing s1;
                           StateSet SetGlobalError s2;
                           StateSet SetResults s3])).
Proof.
  cbv zeta. unfold startBatch, bind, setIsProcessing, setGlobalError, setResults,
    setState. simpl. now rewrite <- !app_assoc.
Qed.

Lemma firstn_succ_nth_error {A} (l : list A) :
  forall i x, nth_error l i = Some x -> firstn (S i) l = firstn i l ++ [x].
Proof.
  induction l as [|y l IH]; intros [|i] x H; simpl in *; try discriminate.
  - now injection H as ->.
  - f_equal. now apply IH.
Qed.

Lemma worldBefore_unfold env w (i : nat) :
  worldBefore env w i
  = snd (forFiles (app w) 0 (firstn i (files (app w))) env
           (snd (startBatch (app w) env w))).
Proof.
  unfold worldBefore, bind. now rewrite startBatch_run.
Qed.

Lemma worldBefore_succ env w (i : nat) (file : Web.File) :
  nth_error (files (app w)) i = Some file ->
  worldBefore env w (S i)
  = snd (processFile (app w) i file env (worldBefore env w i)).
Proof.
  intros H. rewrite !worldBefore_unfold.
  rewrite (firstn_succ_nth_error _ _ _ H), forFiles_app.
  assert (Hlen : List.length (firstn i (files (app w))) = i).
  { apply firstn_length_le. apply Nat.lt_le_incl.
    apply nth_error_Some. congruence. }
  rewrite Hlen. simpl. unfold bind.
  match goal with
  | |- context [processFile ?st ?i ?f ?e ?x] =>
      destruct (processFile_run st i f e x) as (evs & -> & _)
  end.
  reflexivity.
Qed.

Lemma ledgerAt_zero env w : ledgerAt env w 0 = initialResults (files (app w)).
Proof.
  apply list_eq_nth_error. intros j. unfold ledgerAt, initialResults.
  rewrite nth_error_mapi, nth_error_map.
  now destruct (nth_error (files (app w)) j).
Qed.

Lemma ledgerAt_succ env w (i : nat) (file : Web.File) :
  nth_error (files (app w)) i = Some file ->
  mapi (fun res index =>
          if index =? i
          then outcomeEntry (fileOutcome env w i file) res else res)
       (ledgerAt env w i)
  = ledgerAt env w (S i).
Proof.
  intros H. apply list_eq_nth_error. intros j. unfold ledgerAt.
  rewrite !nth_error_mapi.
  destruct (nth_error (files (app w)) j) as [fj|] eqn:Hj; simpl; [|reflexivity].
  f_equal. destruct (Nat.eqb_spec j i) as [->|Hne].
  - rewrite Nat.ltb_irrefl.
    replace (i <? S i) with true by (symmetry; apply Nat.ltb_lt; lia).
    congruence.
  - destruct (Nat.ltb_spec j i), (Nat.ltb_spec j (S i)); try reflexivity; lia.
Qed.

Lemma worldBefore_state env w (i : nat) :
  i <= List.length (files (app w)) ->
  app (worldBefore env w i) = runningState env w i.
Proof.
  induction i as [|i IH]; intros Hi.
  - rewrite worldBefore_unfold. cbn [firstn forFiles]. unfold ret.
    rewrite startBatch_run. simpl.
    unfold runningState. now rewrite ledgerAt_zero.
  - destruct (nth_error (files (app w)) i) as [file|] eqn:Hf.
    2:{ apply nth_error_None in Hf. lia. }
    rewrite (worldBefore_succ _ _ _ _ Hf).
    destruct (processFile_run (app w) i file env (worldBefore env w i))
      as (evs & -> & _).
    simpl. rewrite IH by lia. unfold runningState at 1 2. simpl.
    fold (fileOutcome env w i file). rewrite (ledgerAt_succ _ _ _ _ Hf).
    reflexivity.
Qed.

Lemma worldBefore_log_succ env w (i : nat) :
  i < List.length (files (app w)) ->
  exists evs,
    log (worldBefore env w (S i))
    = log (worldBefore env w i) ++ evs
      ++ [StateSet SetResults (runningState env w (S i))]
    /\ stateTrace evs = [].
Proof.
  intros Hi.
  destruct (nth_error (files (app w)) i) as [file|] eqn:Hf.
  2:{ apply nth_error_None in Hf. lia. }
  pose proof (worldBefore_state env w (S i) Hi) as Hst.
  rewrite (worldBefore_succ _ _ _ _ Hf) in *.
  destruct (processFile_run (app w) i file env (worldBefore env w i))
    as (evs & Hrun & Hq).
  rewrite Hrun in *. simpl in *. exists evs. rewrite Hst. now split.
Qed.

(** The events of the batch up to index [i]. *)
Lemma worldBefore_trace env w (i : nat) :
  i <= List.length (files (app w)) ->
  exists evs,
    log (worldBefore env w i) = log w ++ evs
    /\ stateTrace evs
       = [withIsProcessing true (app w);
          withGlobalError "" (withIsProcessing true (app w))]
         ++ map (runningState env w) (seq 0 (S i))
    /\ ledgerTrace evs = map (ledgerAt env w) (seq 0 (S i)).
Proof.
  induction i as [|i IH]; intros Hi.
  - rewrite worldBefore_unfold. cbn [firstn forFiles]. unfold ret.
    rewrite startBatch_run. cbn [snd log].
    eexists. split; [reflexivity|]. simpl.
    unfold runningState. rewrite ledgerAt_zero. now split.
  - destruct IH as (evs & Hlog & Hst & Hld); [lia|].
    destruct (worldBefore_log_succ env w i Hi) as (evs' & Hlog' & Hq).
    exists (evs ++ evs' ++ [StateSet SetResults (runningState env w (S i))]).
    rewrite Hlog', Hlog, <- app_assoc. split; [reflexivity|].
    rewrite !stateTrace_app, !ledgerTrace_app, Hst, Hld, Hq,
      (ledgerTrace_quiet _ Hq).
    rewrite (seq_S (S i) 0), !map_app. simpl.
    rewrite <- ?app_assoc. now split.
Qed.

Lemma handleGenerate_run env w :
  rejects (app w) = false ->
  handleGenerate env w
  = setIsProcessing false env (worldBefore env w (List.length (files (app w)))).
Proof.
  intros H. unfold handleGenerate, bind at 1, getState. rewrite H.
  rewrite worldBefore_unfold, firstn_all.
  unfold bind. rewrite startBatch_run. simpl.
  match goal with
  | |- context [forFiles ?st ?i ?l ?e ?x] =>
      pose proof (forFiles_total st l i e x) as Ht;
      destruct (forFiles st i l e x) as [c wf]
  end.
  simpl in Ht. now rewrite Ht.
Qed.

Lemma runEvents_of_log {A} (m : M A) env w (evs : list Event) :
  log (snd (m env w)) = log w ++ evs -> runEvents m env w = evs.
Proof.
  intros H. unfold runEvents. rewrite H.
  rewrite skipn_app, Nat.sub_diag, skipn_all. reflexivity.
Qed.

Lemma handleGenerate_final env w :
  rejects (app w) = false ->
  let n := List.length (files (app w)) in
  let final := withIsProcessing false (runningState env w n) in
  handleGenerate env w
  = (Normal tt,
     mkWorld final (log (worldBefore env w n) ++ [StateSet SetIsProcessing final])).
Proof.
  intros H n final. subst n final. rewrite (handleGenerate_run _ _ H).
  unfold setIsProcessing, setState. cbv zeta.
  rewrite (worldBefore_state env w _ (Nat.le_refl _)). reflexivity.
Qed.

Lemma ledgerAt_nth env w (i j : nat) :
  nth_error (ledgerAt env w i) j
  = option_map
      (fun file =>
         if j <? i
         then outcomeEntry (fileOutcome env w j file) (initialEntry file)
         else initialEntry file)
      (nth_error (files (app w)) j).
Proof. unfold ledgerAt. apply nth_error_mapi. Qed.

(** After the batch, the entry of each file carries the outcome of that
    file's own block, whatever happened to the others. *)
Lemma entry_after_batch env w (i : nat) (file : Web.File) :
  rejects (app w) = false ->
  nth_error (files (app w)) i = Some file ->
  exists wf,
    handleGenerate env w = (Normal tt, wf)
    /\ isProcessing (app wf) = false
    /\ List.length (results (app wf)) = List.length (files (app w))
    /\ nth_error (results (app wf)) i
       = Some (outcomeEntry (fileOutcome env w i file) (initialEntry file)).
Proof.
  intros H Hf. rewrite (handleGenerate_final _ _ H). eexists.
  split; [reflexivity|]. simpl. split; [reflexivity|]. split.
  - unfold ledgerAt. apply length_mapi.
  - rewrite ledgerAt_nth, Hf. simpl.
    replace (i <? List.length (files (app w))) with true; [reflexivity|].
    symmetry. apply Nat.ltb_lt. apply nth_error_Some. congruence.
Qed.

(** ** White space *)

Lemma trimStart_blank (s : string) :
  allWhiteSpace s = true -> trimStart s = "".
Proof.
  induction s as [|c s IH]; simpl; [reflexivity|].
  destruct (isWhiteSpace c); simpl; [exact IH|discriminate].
Qed.

Lemma trimStart_shape (s : string) :
  (trimStart s = "" /\ allWhiteSpace s = true)
  \/ exists c r, trimStart s = String c r /\ isWhiteSpace c = false.
Proof.
  induction s as [|c s IH]; simpl; [now left|].
  destruct (isWhiteSpace c) eqn:Hc; simpl; [exact IH|].
  right. now exists c, s.
Qed.

Lemma trim_blank_iff (s : string) :
  trim s = "" <-> allWhiteSpace s = true.
Proof.
  unfold trim. split.
  - intros H. destruct (trimStart_shape s) as [[_ Hall]|(c & r & Hs & Hc)];
      [exact Hall|].
    rewrite Hs in H. simpl in H. rewrite Hc in H. discriminate.
  - intros H. now rewrite (trimStart_blank _ H).
Qed.

Lemma rejects_iff (st : AppState) :
  rejects st = true <-> files st = [] \/ allWhiteSpace (prompt st) = true.
Proof.
  unfold rejects, truthyString. rewrite orb_true_iff, negb_true_iff, negb_false_iff.
  rewrite Nat.eqb_eq, String.eqb_eq, trim_blank_iff, length_zero_iff_nil.
  reflexivity.
Qed.

(** ** Every file is visited *)

Lemma quiet_log (w w' : World) : Quiet w w' -> exists evs, log w' = log w ++ evs.
Proof. intros [_ (evs & H & _)]. eauto. Qed.

Lemma summarizeFile_reads (st : AppState) (file : Web.File) env w :
  exists rest,
    log (snd (summarizeFile st file env w)) = log w ++ ReadFile file :: rest.
Proof.
  pose (w1 := mkWorld (app w) (log w ++ [ReadFile file])).
  assert (Hrest : forall (m : M string), QuietM m ->
             exists rest, log (snd (m env w1)) = log w ++ ReadFile file :: rest).
  { intros m Hm. destruct (quiet_log _ _ (Hm env w1)) as [evs Hevs].
    exists evs. rewrite Hevs. simpl. now rewrite <- app_assoc. }
  unfold summarizeFile, parsePdf. unfold bind at 1 2 3, call at 1.
  fold w1. destruct (arrayBuffer env (log w) file) as [buffer|t].
  - apply (Hrest (pdfText <- (pdf <- call (GetDocument buffer)
                                       (fun env h => getDocument env h buffer) ;;
                              readPages pdf (seq 1 (Web.numPages pdf)) "") ;;
                  if negb (truthyString (trim pdfText))
                  then throw (ErrorObj blankTextMessage)
                  else
                    (let fullPrompt := constructFullPrompt pdfText (prompt st) in
                     summary <- callModel st fullPrompt ;;
                     match summary with
                     | Str s => if startsWith s "Error" then throw (ErrorObj s) else ret s
                     | other => fun env w =>
                         (Abrupt (ErrorObj (typeErrorMessage env other "startsWith")), w)
                     end))).
    pose proof readPages_quiet. pose proof callModel_quiet.
    repeat quiet_step; intros env' w'; apply quiet_refl.
  - exists []. reflexivity.
Qed.

Lemma processFile_reads (st : AppState) (i : nat) (file : Web.File) env w :
  exists rest,
    log (snd (processFile st i file env w)) = log w ++ ReadFile file :: rest.
Proof.
  destruct (summarizeFile_reads st file env w) as [rest Hrest].
  unfold processFile, tryCatch, bind.
  destruct (summarizeFile st file env w) as [[summary|t] w1]; simpl in *;
    rewrite Hrest; eexists; rewrite <- ?app_assoc; simpl; reflexivity.
Qed.

Lemma worldBefore_grows env w (i j : nat) :
  i <= j -> j <= List.length (files (app w)) ->
  exists evs, log (worldBefore env w j) = log (worldBefore env w i) ++ evs.
Proof.
  induction j as [|j IH]; intros Hij Hj.
  - assert (i = 0) as -> by lia. exists []. now rewrite app_nil_r.
  - destruct (Nat.eq_dec i (S j)) as [->|Hne].
    + exists []. now rewrite app_nil_r.
    + destruct IH as [evs Hevs]; [lia|lia|].
      destruct (worldBefore_log_succ env w j) as (evs' & Hlog & _); [lia|].
      rewrite Hlog, Hevs, <- app_assoc. eauto.
Qed.

Lemma every_file_read env w (i : nat) (file : Web.File) :
  rejects (app w) = false ->
  nth_error (files (app w)) i = Some file ->
  In (ReadFile file) (runEvents handleGenerate env w).
Proof.
  intros H Hf.
  assert (Hi : i < List.length (files (app w))) by (apply nth_error_Some; congruence).
  destruct (worldBefore_trace env w i) as (e0 & He0 & _); [lia|].
  destruct (processFile_reads (app w) i file env (worldBefore env w i)) as [rest Hrest].
  rewrite <- (worldBefore_succ _ _ _ _ Hf) in Hrest.
  destruct (worldBefore_grows env w (S i) (List.length (files (app w))))
    as [e1 He1]; [lia|lia|].
  rewrite (runEvents_of_log _ _ _
             (e0 ++ ReadFile file :: rest ++ e1
              ++ [StateSet SetIsProcessing
                    (withIsProcessing false
                       (runningState env w (List.length (files (app w)))))])).
  - apply in_or_app. right. now left.
  - rewrite (handleGenerate_final _ _ H). cbn [snd log].
    rewrite He1, Hrest, He0, <- !app_assoc. simpl. rewrite <- ?app_assoc. reflexivity.
Qed.

(** ** Runs that do not start a batch *)

Lemma handleGenerate_rejected env w :
  rejects (app w) = true ->
  handleGenerate env w
  = (Normal tt,
     mkWorld (withGlobalError preconditionNotice (app w))
       (log w ++ [StateSet SetGlobalError
                    (withGlobalError preconditionNotice (app w))])).
Proof.
  intros H. unfold handleGenerate, bind, getState. rewrite H. reflexivity.
Qed.

Lemma handleDownloadZip_results env w :
  results (app (snd (handleDownloadZip env w))) = results (app w).
Proof.
  unfold handleDownloadZip, bind, getState.
  destruct (List.length _ =? 0); reflexivity.
Qed.

(** ** The archive *)

Lemma file_fresh (name data : string) (zip : JSZip.Zip) :
  ~ In name (map fst zip) -> JSZip.file name data zip = zip ++ [(name, data)].
Proof.
  induction zip as [|[n d] zip IH]; intros Hnot; simpl; [reflexivity|].
  destruct (String.eqb_spec n name) as [->|Hne].
  - exfalso. apply Hnot. now left.
  - f_equal. apply IH. intros Hin. apply Hnot. now right.
Qed.

Lemma file_names (name data : string) (zip : JSZip.Zip) (n : string) :
  In n (map fst (JSZip.file name data zip)) <-> n = name \/ In n (map fst zip).
Proof.
  induction zip as [|[n0 d0] zip IH]; simpl.
  - intuition congruence.
  - destruct (String.eqb_spec n0 name) as [->|Hne]; simpl.
    + intuition congruence.
    + rewrite IH. intuition congruence.
Qed.

Lemma file_NoDup (name data : string) (zip : JSZip.Zip) :
  NoDup (map fst zip) -> NoDup (map fst (JSZip.file name data zip)).
Proof.
  induction zip as [|[n0 d0] zip IH]; simpl; intros Hnd.
  - constructor; [intros []|constructor].
  - inversion Hnd as [|x l Hnot Hrest]; subst.
    destruct (String.eqb_spec n0 name) as [->|Hne]; simpl.
    + now constructor.
    + constructor; [|now apply IH].
      rewrite file_names. intros [->|Hin]; [congruence|contradiction].
Qed.


Lemma addFiles_archiveOf (l : list SummaryResult) :
  addFiles l JSZip.empty = archiveOf (map archiveEntry l).
Proof.
  unfold addFiles, archiveOf. generalize JSZip.empty.
  induction l as [|r l IH]; intros z; simpl; [reflexivity|apply IH].
Qed.

Lemma archiveOf_snoc (entries : list (string * string)) (e : string * string) :
  archiveOf (entries ++ [e]) = JSZip.file (fst e) (snd e) (archiveOf entries).
Proof. unfold archiveOf. now rewrite fold_left_app. Qed.

Lemma archiveOf_NoDup (entries : list (string * string)) :
  NoDup (map fst (archiveOf entries)).
Proof.
  induction entries as [|e entries IH] using rev_ind.
  - constructor.
  - rewrite archiveOf_snoc. now apply file_NoDup.
Qed.

Lemma archiveOf_names (entries : list (string * string)) (n : string) :
  In n (map fst (archiveOf entries)) <-> In n (map fst entries).
Proof.
  induction entries as [|e entries IH] using rev_ind.
  - reflexivity.
  - rewrite archiveOf_snoc, file_names, IH, map_app, in_app_iff. simpl.
    intuition congruence.
Qed.

(** With names that differ, the archive is the list of the calls. *)
Lemma archiveOf_distinct (entries : list (string * string)) :
  NoDup (map fst entries) -> archiveOf entries = entries.
Proof.
  induction entries as [|e entries IH] using rev_ind; intros Hnd.
  - reflexivity.
  - rewrite map_app in Hnd. simpl in Hnd.
    rewrite archiveOf_snoc, IH by (now apply NoDup_app_remove_r in Hnd).
    destruct e as [n d]. apply file_fresh. simpl.
    apply NoDup_remove_2 in Hnd. now rewrite app_nil_r in Hnd.
Qed.


(** * The claims *)

(** ** C3: the precondition guard *)



(** ** C5: the credential guard of the Volcano client *)

(** C5. Called with an empty API key, [generateSummaryFromVolcano] returns
    its local Failure text for every prompt, in every environment, and sends
    nothing over the network: the one event of the call is its console line. *)
Theorem volcano_credential_guard (fullPrompt : string) env w :
  let run := VolcanoService.generateSummaryFromVolcano
               fullPrompt (mkVolcanoCredentials "") in
  fst (run env w) = Normal (Str VolcanoService.missingKeyMessage)
  /\ startsWith VolcanoService.missingKeyMessage "Error" = true
  /\ runEvents run env w = [ConsoleLog "Making API call to Volcano Engine..."]
  /\ networkCalls (runEvents run env w) = []
  /\ app (snd (run env w)) = app w.
Proof.
  cbv zeta.
  assert (Hev : runEvents (VolcanoService.generateSummaryFromVolcano
                             fullPrompt (mkVolcanoCredentials "")) env w
                = [ConsoleLog "Making API call to Volcano Engine..."]).
  { apply runEvents_of_log. reflexivity. }
  rewrite Hev. repeat split; reflexivity.
Qed.

(** ** C1: one file's failure stays with that file *)

Lemma outcomeEntry_status (o : Completion string) (res : SummaryResult) :
  status (outcomeEntry o res) = SUCCESS \/ status (outcomeEntry o res) = ERROR.
Proof. destruct o; simpl; auto. Qed.

(** What holds of the loop.  In a batch that passes the guard the loop
    visits every file (each one is read) and ends: each entry finishes in
    SUCCESS or ERROR.  A fault caught for file [i] becomes the ERROR entry
    [i], carrying the fault's message, or "An unknown error occurred" when
    the fault is no [Error].  When file [k] fails in a way the loop can
    see (its extraction faults, its text is blank or the model client
    returns a text that begins with the marker) and all the other files
    succeed, entry [k] alone ends in ERROR and every other entry ends in
    SUCCESS. *)
Lemma isolation_of_marked_failures env w :
  rejects (app w) = false ->
  exists wf,
    handleGenerate env w = (Normal tt, wf)
    /\ isProcessing (app wf) = false
    /\ List.length (results (app wf)) = List.length (files (app w))
    /\ (forall i file,
          nth_error (files (app w)) i = Some file ->
          In (ReadFile file) (runEvents handleGenerate env w))
    /\ (forall i r, nth_error (results (app wf)) i = Some r ->
          status r = SUCCESS \/ status r = ERROR)
    /\ (forall i file t,
          nth_error (files (app w)) i = Some file ->
          fileOutcome env w i file = Abrupt t ->
          nth_error (results (app wf)) i
          = Some (markError match t with
                            | ErrorObj message => message
                            | NonError => "An unknown error occurred"
                            end
                            (initialEntry file)))
    /\ (forall k fileK t,
          nth_error (files (app w)) k = Some fileK ->
          Fails (app w) fileK env (worldBefore env w k) t ->
          (forall j fileJ,
              j <> k -> nth_error (files (app w)) j = Some fileJ ->
              exists s, Succeeds (app w) fileJ env (worldBefore env w j) s) ->
          forall j r,
            nth_error (results (app wf)) j = Some r ->
            (j = k -> status r = ERROR /\ error r = Some (faultMessage t))
            /\ (j <> k -> status r = SUCCESS)).
Proof.
  intros H.
  assert (Hentry : forall i file,
             nth_error (files (app w)) i = Some file ->
             nth_error (results (app (snd (handleGenerate env w)))) i
             = Some (outcomeEntry (fileOutcome env w i file) (initialEntry file))).
  { intros i file Hf.
    destruct (entry_after_batch env w i file H Hf) as (wf & -> & _ & _ & He).
    exact He. }
  pose proof (handleGenerate_final env w H) as Hrun. cbv zeta in Hrun.
  rewrite Hrun in Hentry. eexists. split; [exact Hrun|]. cbn [snd app] in *.
  split; [reflexivity|]. split; [apply length_mapi|].
  assert (Hfile : forall i r,
             nth_error (results
               (withIsProcessing false
                  (runningState env w (List.length (files (app w)))))) i = Some r ->
             exists file, nth_error (files (app w)) i = Some file).
  { intros i r Hr. simpl in Hr. rewrite ledgerAt_nth in Hr.
    destruct (nth_error (files (app w)) i) as [file|]; [eauto|discriminate]. }
  split; [|split; [|split]].
  - intros i file Hf. exact (every_file_read env w i file H Hf).
  - intros i r Hr. destruct (Hfile i r Hr) as [file Hf].
    rewrite (Hentry i file Hf) in Hr. injection Hr as <-.
    apply outcomeEntry_status.
  - intros i file t Hf Ho. rewrite (Hentry i file Hf), Ho.
    destruct t; reflexivity.
  - intros k fileK t Hk Hfail Hothers j r Hr.
    destruct (Hfile j r Hr) as [fileJ Hj].
    rewrite (Hentry j fileJ Hj) in Hr. injection Hr as <-. split.
    + intros ->. assert (fileJ = fileK) as -> by congruence.
      unfold fileOutcome. rewrite (fails_outcome _ _ _ _ _ Hfail). now split.
    + intros Hne. destruct (Hothers j fileJ Hne Hj) as [s Hs].
      unfold fileOutcome. now rewrite (succeeds_outcome _ _ _ _ _ Hs).
Qed.

Lemma isolation_of_marked_failures_example :
  exists wf,
    handleGenerate (Examples.answers "A summary.") Examples.threeFiles
    = (Normal tt, wf)
    /\ forall j r,
         nth_error (results (app wf)) j = Some r ->
         (j = 1 -> status r = ERROR /\ error r = Some blankTextMessage)
         /\ (j <> 1 -> status r = SUCCESS).
Proof.
  destruct (isolation_of_marked_failures (Examples.answers "A summary.")
              Examples.threeFiles eq_refl)
    as (wf & Hrun & _ & _ & _ & _ & _ & Hiso).
  exists wf. split; [exact Hrun|].
  apply (Hiso 1 (Examples.pdf "scan.pdf") (ErrorObj blankTextMessage));
    [reflexivity| |].
  - eapply BlankText; vm_compute; reflexivity.
  - intros j fileJ Hne Hj. exists "A summary.".
    destruct j as [|[|[|j]]]; [|congruence| |destruct j; discriminate].
    + injection Hj as <-. eapply Summarized;
        [vm_compute; reflexivity|vm_compute; discriminate
        |vm_compute; reflexivity|reflexivity].
    + injection Hj as <-. eapply Summarized;
        [vm_compute; reflexivity|vm_compute; discriminate
        |vm_compute; reflexivity|reflexivity].
Defined.

(** C1. A generation failure does not always end in ERROR.  In a batch of
    [a.pdf] and [c.pdf] under the Gemini provider, the SDK rejects the call
    for [a.pdf] with a value that is no [Error] and answers the call for
    [c.pdf]: the client returns its failure text "An unknown error
    occurred during summary generation.", which does not begin with the
    marker, and entry 0 ends in SUCCESS with that text as its content;
    no entry ends in ERROR.  The same happens under the Volcano provider
    when [fetch] rejects with such a value. *)
Theorem unmarked_failure_ends_in_success :
  let env := Samples.inTurn (Abrupt NonError) (Samples.said "A summary.") in
  let w := Samples.twoFiles in
  let refused := Examples.outside (Abrupt NonError) (Abrupt NonError) in
  generateContent env [] "gemini-2.5-flash" "" = Abrupt NonError
  /\ fileOutcome env w 0 (Examples.pdf "a.pdf")
     = Normal "An unknown error occurred during summary generation."
  /\ fileOutcome env w 1 (Examples.pdf "c.pdf") = Normal "A summary."
  /\ results (app (snd (handleGenerate env w)))
     = [mkSummaryResult "a.pdf-1700000000000" "a.pdf"
          "An unknown error occurred during summary generation." SUCCESS None;
        mkSummaryResult "c.pdf-1700000000000" "c.pdf" "A summary." SUCCESS None]
  /\ results (app (snd (handleGenerate refused (Samples.underVolcano "secret"))))
     = [mkSummaryResult "a.pdf-1700000000000" "a.pdf"
          "An unknown error occurred during Volcano Engine summary generation."
          SUCCESS None;
        mkSummaryResult "scan.pdf-1700000000000" "scan.pdf" "" ERROR
          (Some blankTextMessage)].
Proof.
  cbv zeta. repeat split; vm_compute; reflexivity.
Qed.

(** ** C4: the error marker *)

(** C4. When the model client called for file [i] returns a text that
    begins with "Error", entry [i] ends in ERROR with that text as its
    error message, and not in SUCCESS; its content stays empty. *)
Theorem error_marker_detection env w (i : nat) (file : Web.File)
        (pdfText : string) (w1 : World) (s : string) (w2 : World) :
  rejects (app w) = false ->
  nth_error (files (app w)) i = Some file ->
  parsePdf file env (worldBefore env w i) = (Normal pdfText, w1) ->
  trim pdfText <> "" ->
  callModel (app w) (constructFullPrompt pdfText (prompt (app w))) env w1
    = (Normal (Str s), w2) ->
  startsWith s "Error" = true ->
  exists wf r,
    handleGenerate env w = (Normal tt, wf)
    /\ nth_error (results (app wf)) i = Some r
    /\ status r = ERROR
    /\ error r = Some s
    /\ content r = ""
    /\ fileName r = Web.name file.
Proof.
  intros H Hf Hp Hb Hc Hs.
  destruct (entry_after_batch env w i file H Hf) as (wf & Hrun & _ & _ & He).
  exists wf. eexists. split; [exact Hrun|]. split; [exact He|].
  assert (Hfail : Fails (app w) file env (worldBefore env w i) (ErrorObj s))
    by (eapply GenerationFailure; eassumption).
  unfold fileOutcome. rewrite (fails_outcome _ _ _ _ _ Hfail).
  repeat split; reflexivity.
Qed.

Lemma error_marker_detection_witness :
  exists wf r,
    handleGenerate (Examples.answers "Error: xyz") Examples.oneFile
    = (Normal tt, wf)
    /\ nth_error (results (app wf)) 0 = Some r
    /\ status r = ERROR
    /\ error r = Some "Error: xyz".
Proof.
  edestruct (error_marker_detection (Examples.answers "Error: xyz")
               Examples.oneFile 0 (Examples.pdf "a.pdf"))
    as (wf & r & Hrun & Hr & Hst & Herr & _).
  - reflexivity.
  - reflexivity.
  - vm_compute. reflexivity.
  - vm_compute. discriminate.
  - vm_compute. reflexivity.
  - reflexivity.
  - exists wf, r. repeat split; assumption.
Defined.

(** ** C10: an empty summary is a success *)

(** C10. The only test made on a returned summary is the marker: when the
    model client called for file [i] returns the empty string, entry [i]
    ends in SUCCESS with the empty string as content.  The Gemini client
    does return the empty string when the response text is empty. *)
Theorem empty_summary_is_success env w (i : nat) (file : Web.File)
        (pdfText : string) (w1 : World) :
  rejects (app w) = false ->
  nth_error (files (app w)) i = Some file ->
  parsePdf file env (worldBefore env w i) = (Normal pdfText, w1) ->
  trim pdfText <> "" ->
  let fullPrompt := constructFullPrompt pdfText (prompt (app w)) in
  (fst (callModel (app w) fullPrompt env w1) = Normal (Str "") ->
   exists wf r,
     handleGenerate env w = (Normal tt, wf)
     /\ nth_error (results (app wf)) i = Some r
     /\ status r = SUCCESS
     /\ content r = ""
     /\ error r = None)
  /\ (apiProvider (app w) = gemini ->
      generateContent env (log w1) (selectedModel (app w)) fullPrompt
      = Normal (Web.mkGenerateContentResponse (Some "")) ->
      fst (callModel (app w) fullPrompt env w1) = Normal (Str "")).
Proof.
  intros H Hf Hp Hb fullPrompt. split.
  - intros Hc.
    destruct (entry_after_batch env w i file H Hf) as (wf & Hrun & _ & _ & He).
    exists wf. eexists. split; [exact Hrun|]. split; [exact He|].
    unfold fileOutcome.
    destruct (callModel (app w) fullPrompt env w1) as [c w2] eqn:Hcall.
    simpl in Hc. subst c.
    assert (Hok : Succeeds (app w) file env (worldBefore env w i) "")
      by (eapply Summarized; [exact Hp|exact Hb|exact Hcall|reflexivity]).
    rewrite (succeeds_outcome _ _ _ _ _ Hok).
    repeat split; reflexivity.
  - intros Hg Hreply. unfold callModel. rewrite Hg.
    unfold GeminiService.generateSummaryFromText, tryCatch, bind, call.
    rewrite Hreply. reflexivity.
Qed.

Lemma empty_summary_is_success_witness :
  exists wf r,
    handleGenerate (Examples.answers "") Examples.oneFile = (Normal tt, wf)
    /\ nth_error (results (app wf)) 0 = Some r
    /\ status r = SUCCESS
    /\ content r = "".
Proof.
  edestruct (empty_summary_is_success (Examples.answers "")
               Examples.oneFile 0 (Examples.pdf "a.pdf"))
    as [Hsuccess Hgemini].
  - reflexivity.
  - reflexivity.
  - vm_compute. reflexivity.
  - vm_compute. discriminate.
  - destruct (Hsuccess (Hgemini eq_refl eq_refl))
      as (wf & r & Hrun & Hr & Hst & Hc & _).
    exists wf, r. repeat split; assumption.
Defined.

(** ** C2: the name of an exported entry *)

Lemma prefix_pdf_overlap (stem : string) :
  String.prefix ".pdf" stem = false ->
  String.prefix ".pdf" (stem ++ ".pdf") = true ->
  stem = "".
Proof.
  intros H1 H2.
  destruct stem as [|c1 [|c2 [|c3 [|c4 s]]]]; [reflexivity|exfalso..];
    cbn [String.prefix append] in *;
    repeat match goal with
           | H : context [ascii_dec ?a ?b] |- _ =>
               destruct (ascii_dec a b); try subst; try discriminate
           end.
  destruct s; discriminate.
Qed.

(** Where [.pdf] occurs only as the suffix, the exported name is the stem
    followed by [.txt]. *)
Lemma replace_suffix (stem : string) :
  occursIn ".pdf" stem = false ->
  replace ".pdf" ".txt" (stem ++ ".pdf") = (stem ++ ".txt")%string.
Proof.
  induction stem as [|c stem IH]; intros H; [reflexivity|].
  cbn [occursIn] in H. apply orb_false_iff in H. destruct H as [Hp Ho].
  cbn [append replace].
  destruct (String.prefix ".pdf" (String c (stem ++ ".pdf"))) eqn:E.
  - apply (prefix_pdf_overlap (String c stem) Hp) in E. discriminate.
  - f_equal. apply IH. exact Ho.
Qed.

(** C2. The exported name is built by replacing the first occurrence of
    [.pdf]: for the successful entry [report.pdf.pdf] the archive holds
    [report.txt.pdf], not the stem [report.pdf] followed by [.txt]. *)
Theorem export_name_first_occurrence :
  let r := mkSummaryResult "report.pdf.pdf-1700000000000" "report.pdf.pdf"
                           "A summary." SUCCESS None in
  fst (archiveEntry r) = "report.txt.pdf"
  /\ fst (archiveEntry r) <> ("report.pdf" ++ ".txt")%string
  /\ downloads (runEvents handleDownloadZip (Examples.answers "A summary.")
                          (Examples.summarized "report.pdf.pdf"))
     = [("pdf_summaries.zip", [("report.txt.pdf", "A summary.")])].
Proof.
  cbv zeta. split; [reflexivity|]. split; [discriminate|]. vm_compute. reflexivity.
Qed.

(** ** C6: the failure paths of the Volcano client *)

Lemma getM_some (v : Value) (key : string) env w :
  nullish v = false -> getM v key env w = (Normal (getOpt v key), w).
Proof.
  intros H. unfold getM, getOpt.
  destruct (Js.get v key) eqn:E; [reflexivity|].
  destruct v; simpl in *; try discriminate;
    repeat match type of E with
           | context [if ?b then _ else _] => destruct b
           | context [match ?x with _ => _ end] => destruct x
           end; discriminate.
Qed.

Lemma getM_none (v : Value) (key : string) env w :
  nullish v = true ->
  getM v key env w = (Abrupt (ErrorObj (typeErrorMessage env v key)), w).
Proof.
  intros H. unfold getM. destruct v; try discriminate; reflexivity.
Qed.

Lemma truthy_not_nullish (v : Value) : truthy v = true -> nullish v = false.
Proof. destruct v; simpl; auto; discriminate. Qed.

Import VolcanoService.

Lemma invalidStructure_run (data : Value) env w :
  let choices := getOpt data "choices" in
  let first := getOpt choices "0" in
  let content := getOpt (getOpt first "message") "content" in
  invalidStructure data env w
  = if nullish data
    then (Abrupt (ErrorObj (typeErrorMessage env data "choices")), w)
    else if negb (truthy choices) then (Normal true, w)
    else if strictEqualsZero (getOpt choices "length") then (Normal true, w)
    else if nullish first
    then (Abrupt (ErrorObj (typeErrorMessage env first "message")), w)
    else (Normal (negb (truthy content)), w).
Proof.
  cbv zeta. unfold invalidStructure, bind.
  destruct (nullish data) eqn:Hd.
  - now rewrite (getM_none _ _ _ _ Hd).
  - rewrite !(getM_some _ _ _ _ Hd). cbv beta iota.
    destruct (truthy (getOpt data "choices")) eqn:Hc; [|reflexivity].
    cbn [negb]. rewrite !(getM_some _ _ _ _ Hd). cbv beta iota.
    rewrite (getM_some _ "length" _ _ (truthy_not_nullish _ Hc)).
    destruct (strictEqualsZero (getOpt (getOpt data "choices") "length"));
      [reflexivity|].
    rewrite !(getM_some _ _ _ _ Hd). cbv beta iota.
    rewrite (getM_some _ "0" _ _ (truthy_not_nullish _ Hc)).
    destruct (nullish (getOpt (getOpt data "choices") "0")) eqn:Hf.
    + now rewrite (getM_none _ _ _ _ Hf).
    + now rewrite (getM_some _ _ _ _ Hf).
Qed.

Lemma getOpt_truthy_source (v : Value) (key : string) :
  truthy (getOpt v key) = true -> nullish v = false.
Proof. destruct v; simpl; auto; discriminate. Qed.

Ltac volcano_start Hkey :=
  unfold generateSummaryFromVolcano, bind at 1, emit; rewrite Hkey;
  cbn [negb]; unfold tryCatch, bind at 1, call; cbn [log app].

(** What the client returns, with a key, on each of its paths: it always
    returns and never throws.  A network exception that is an [Error]
    comes back as the Failure text carrying its message, and one that is
    no [Error] as the text "An unknown error occurred during Volcano Engine
    summary generation.".  On a non-2xx response the Failure carries the
    [error.message] of the JSON body when that is a non-empty string, and
    the generic "request failed with status" text when the body does not
    parse or holds no such message.  On a 2xx response a body that does
    not parse, with an [Error], comes back as a Failure with that message;
    a parsed body without choices, with no choice, or whose first choice
    has no message content comes back as the "invalid response structure"
    Failure, except that a [null] or [undefined] body or first choice
    comes back as a Failure carrying the engine's TypeError text;
    otherwise the content of the first choice is returned. *)
Lemma volcano_failure_paths (fullPrompt : string)
        (creds : VolcanoCredentials) env w :
  truthyString (apiKey creds) = true ->
  let result := fst (generateSummaryFromVolcano fullPrompt creds env w) in
  let answer :=
    fetch env (log w ++ [ConsoleLog "Making API call to Volcano Engine..."])
          apiEndpoint (requestInit fullPrompt creds) in
  (exists v, result = Normal v)
  /\ (forall m, answer = Abrupt (ErrorObj m) ->
        result = Normal (Str (errorPrefix ++ m)))
  /\ (answer = Abrupt NonError -> result = Normal (Str unknownErrorMessage))
  /\ (forall response,
        answer = Normal response -> Web.ok response = false ->
        let generic := ("API request failed with status "
                        ++ natToString (Web.status response))%string in
        (forall body m,
            Web.json response = Normal body ->
            getOpt (getOpt body "error") "message" = Str m -> m <> "" ->
            result = Normal (Str (errorPrefix ++ m)))
        /\ (forall body,
            Web.json response = Normal body ->
            truthy (getOpt (getOpt body "error") "message") = false ->
            result = Normal (Str (errorPrefix ++ generic)))
        /\ (forall t,
            Web.json response = Abrupt t ->
            result = Normal (Str (errorPrefix ++ generic))))
  /\ (forall response,
        answer = Normal response -> Web.ok response = true ->
        (forall m,
            Web.json response = Abrupt (ErrorObj m) ->
            result = Normal (Str (errorPrefix ++ m)))
        /\ (forall data,
            Web.json response = Normal data ->
            let choices := getOpt data "choices" in
            let first := getOpt choices "0" in
            let content := getOpt (getOpt first "message") "content" in
            (nullish data = true ->
             result = Normal (Str (errorPrefix
                                   ++ typeErrorMessage env data "choices")))
            /\ (nullish data = false ->
                truthy choices = false
                \/ strictEqualsZero (getOpt choices "length") = true ->
                result = invalidStructureFailure)
            /\ (nullish data = false -> truthy choices = true ->
                strictEqualsZero (getOpt choices "length") = false ->
                (nullish first = true ->
                 result = Normal (Str (errorPrefix
                                       ++ typeErrorMessage env first "message")))
                /\ (nullish first = false -> truthy content = false ->
                    result = invalidStructureFailure)
                /\ (nullish first = false -> truthy content = true ->
                    result = Normal content)))).
Proof.
  intros Hkey result answer. subst result.
  split.
  { apply generateSummaryFromVolcano_total. }
  split.
  { intros m Ha. volcano_start Hkey. fold answer. rewrite Ha. reflexivity. }
  split.
  { intros Ha. volcano_start Hkey. fold answer. rewrite Ha. reflexivity. }
  split.
  { intros response Ha Hok generic.
    assert (Hrun : forall c : Completion Value,
               c = fst (tryCatch
                          (errorBody <- tryCatch (lift (Web.json response))
                                                 (fun _ => ret (Obj [])) ;;
                           let fromBody :=
                             getOpt (getOpt errorBody "error") "message" in
                           let errorMessage :=
                             if truthy fromBody then fromBody else Str generic in
                           e <- newError errorMessage ;;
                           throw e)
                          (fun error =>
                             emit (ConsoleError
                                     "Error generating summary from Volcano Engine:") ;;
                             match error with
                             | ErrorObj message => ret (Str (errorPrefix ++ message))
                             | NonError => ret (Str unknownErrorMessage)
                             end)
                          env
                          (mkWorld (app w)
                             ((log w ++ [ConsoleLog "Making API call to Volcano Engine..."])
                              ++ [Fetch apiEndpoint (requestInit fullPrompt creds)]))) ->
               fst (generateSummaryFromVolcano fullPrompt creds env w) = c).
    { intros c ->. volcano_start Hkey. fold answer. rewrite Ha. cbn [log app].
      rewrite Hok. reflexivity. }
    repeat split.
    - intros body m Hj Hm Hne. apply Hrun.
      unfold bind, tryCatch, lift. rewrite Hj, Hm. cbn [truthy].
      unfold truthyString. destruct (String.eqb_spec m ""); [contradiction|].
      reflexivity.
    - intros body Hj Hm. apply Hrun.
      unfold bind, tryCatch, lift. rewrite Hj, Hm. reflexivity.
    - intros t Hj. apply Hrun.
      unfold bind, tryCatch, lift. rewrite Hj. reflexivity. }
  intros response Ha Hok. split.
  { intros m Hj. volcano_start Hkey. fold answer. rewrite Ha. cbn [log app].
    rewrite Hok. cbn [negb]. unfold bind, lift. rewrite Hj. reflexivity. }
  intros data Hj choices first content.
  assert (Hrun : fst (generateSummaryFromVolcano fullPrompt creds env w)
                = if nullish data
                  then Normal (Str (errorPrefix
                                    ++ typeErrorMessage env data "choices"))
                  else if negb (truthy choices) then invalidStructureFailure
                  else if strictEqualsZero (getOpt choices "length")
                  then invalidStructureFailure
                  else if nullish first
                  then Normal (Str (errorPrefix
                                    ++ typeErrorMessage env first "message"))
                  else if negb (truthy content) then invalidStructureFailure
                  else Normal content).
  { volcano_start Hkey. fold answer. rewrite Ha. cbn [log app]. rewrite Hok.
    cbn [negb]. unfold bind at 1, lift. rewrite Hj. unfold bind at 1.
    rewrite invalidStructure_run. fold choices. fold first. fold content.
    destruct (nullish data) eqn:Hd; [reflexivity|].
    destruct (truthy choices) eqn:Hc; cbn [negb]; [|reflexivity].
    destruct (strictEqualsZero (getOpt choices "length")); [reflexivity|].
    destruct (nullish first) eqn:Hf; [reflexivity|].
    destruct (truthy content) eqn:Hcontent; cbn [negb]; [|reflexivity].
    unfold bind.
    rewrite (getM_some _ _ _ _ Hd). fold choices.
    rewrite (getM_some _ _ _ _ (truthy_not_nullish _ Hc)). fold first.
    rewrite (getM_some _ _ _ _ Hf).
    rewrite (getM_some _ _ _ _ (getOpt_truthy_source _ _ Hcontent)).
    reflexivity. }
  rewrite Hrun. clear Hrun.
  split; [|split].
  - intros Hd. rewrite Hd. reflexivity.
  - intros Hd [Hc|Hz]; rewrite Hd.
    + rewrite Hc. reflexivity.
    + destruct (truthy choices); cbn [negb]; [rewrite Hz|]; reflexivity.
  - intros Hd Hc Hz. rewrite Hd, Hc, Hz. cbn [negb]. repeat split.
    + intros Hf. rewrite Hf. reflexivity.
    + intros Hf Hcontent. rewrite Hf, Hcontent. reflexivity.
    + intros Hf Hcontent. rewrite Hf, Hcontent. reflexivity.
Qed.

Lemma volcano_failure_paths_example :
  fst (generateSummaryFromVolcano "Summarize." Examples.withKey
         (Examples.replies (Normal Examples.quotaExceeded)) Examples.oneFile)
  = Normal (Str (errorPrefix ++ "Quota exceeded.")).
Proof.
  destruct (volcano_failure_paths "Summarize." Examples.withKey
              (Examples.replies (Normal Examples.quotaExceeded)) Examples.oneFile
              eq_refl)
    as (_ & _ & _ & Hnot2xx & _).
  destruct (Hnot2xx Examples.quotaExceeded eq_refl eq_refl) as (Hmessage & _).
  apply (Hmessage _ "Quota exceeded." eq_refl eq_refl). discriminate.
Defined.

(** C6. A 200 response whose only choice is [null] has no choice with
    message content, yet the client does not return the "invalid response
    structure" Failure: [data.choices[0].message?.content] guards [message]
    but not [choices[0]], so the test itself throws, and the client returns
    the Failure that carries the engine's TypeError text.  For the
    neighbouring body, whose only choice is an object without message, the
    same test gives the "invalid response structure" Failure. *)
Theorem null_choice_skips_validation :
  let env := Examples.replies (Normal Examples.nullChoice) in
  let neighbour := Examples.replies (Normal Samples.emptyChoice) in
  let body := Obj [("choices", Arr [Null])] in
  Web.ok Examples.nullChoice = true
  /\ Web.json Examples.nullChoice = Normal body
  /\ truthy (getOpt (getOpt (getOpt (getOpt body "choices") "0") "message")
                    "content") = false
  /\ fst (generateSummaryFromVolcano "Summarize." Examples.withKey env
            Examples.oneFile)
     = Normal (Str (errorPrefix
                    ++ "Cannot read properties of null (reading 'message')"))
  /\ fst (generateSummaryFromVolcano "Summarize." Examples.withKey env
            Examples.oneFile)
     <> invalidStructureFailure
  /\ Web.json Samples.emptyChoice = Normal (Obj [("choices", Arr [Obj []])])
  /\ fst (generateSummaryFromVolcano "Summarize." Examples.withKey neighbour
            Examples.oneFile)
     = invalidStructureFailure.
Proof.
  cbv zeta. repeat split; try reflexivity. vm_compute. discriminate.
Qed.

(** The failure texts without the marker: a thrown value that is no [Error]
    comes back from either client as a text that does not begin with
    "Error". *)
Remark unknown_failure_texts_unmarked :
  startsWith unknownErrorMessage "Error" = false
  /\ startsWith "An unknown error occurred during summary generation." "Error"
     = false.
Proof. split; reflexivity. Qed.

(** ** C7: the ledger during a batch *)

Lemma handleGenerate_events env w :
  rejects (app w) = false ->
  let n := List.length (files (app w)) in
  let final := withIsProcessing false (runningState env w n) in
  stateTrace (runEvents handleGenerate env w)
  = [withIsProcessing true (app w);
     withGlobalError "" (withIsProcessing true (app w))]
    ++ map (runningState env w) (seq 0 (S n)) ++ [final]
  /\ ledgerTrace (runEvents handleGenerate env w)
     = map (ledgerAt env w) (seq 0 (S n)).
Proof.
  intros H n final.
  destruct (worldBefore_trace env w n (Nat.le_refl _)) as (evs & Hlog & Hst & Hld).
  assert (Hev : runEvents handleGenerate env w
                = evs ++ [StateSet SetIsProcessing final]).
  { apply runEvents_of_log. rewrite (handleGenerate_final _ _ H).
    cbn [snd log]. fold n. rewrite Hlog, <- app_assoc. reflexivity. }
  rewrite Hev, stateTrace_app, ledgerTrace_app, Hst, Hld. simpl.
  rewrite app_nil_r. split; reflexivity.
Qed.

Lemma outcomeEntry_names (o : Completion string) (res : SummaryResult) :
  fileName (outcomeEntry o res) = fileName res
  /\ id (outcomeEntry o res) = id res.
Proof. destruct o; split; reflexivity. Qed.

Lemma ledgerAt_names env w (i : nat) :
  map fileName (ledgerAt env w i) = map Web.name (files (app w))
  /\ map id (ledgerAt env w i) = map id (initialResults (files (app w))).
Proof.
  split; apply list_eq_nth_error; intros j; unfold initialResults;
    rewrite ?nth_error_map, ledgerAt_nth;
    destruct (nth_error (files (app w)) j) as [file|]; simpl; try reflexivity;
    destruct (j <? i); try reflexivity;
    f_equal; apply outcomeEntry_names.
Qed.

Lemma nth_error_map_seq {A} (f : nat -> A) (n t : nat) (x : A) :
  nth_error (map f (seq 0 n)) t = Some x -> t < n /\ x = f t.
Proof.
  intros H. rewrite nth_error_map in H.
  destruct (nth_error (seq 0 n) t) as [k|] eqn:Hk; [|discriminate].
  assert (Hlt : t < n).
  { rewrite <- (length_seq n 0). apply nth_error_Some. congruence. }
  rewrite (nth_error_nth' _ 0) in Hk by (now rewrite length_seq).
  rewrite seq_nth in Hk by exact Hlt. injection Hk as <-.
  simpl in H. injection H as <-. now split.
Qed.

(** Between handlers the ledger is empty or lists the selected files in
    their order. *)
Lemma ledger_follows_selection env w :
  Reachable env w ->
  isProcessing (app w) = false
  /\ (results (app w) = []
      \/ map fileName (results (app w)) = map Web.name (files (app w))).
Proof.
  induction 1 as [keyMissing|w a Hreach [IHp IHr]]; [split; [reflexivity|now left]|].
  destruct a as [[sel|]|p|provider|model|key| |]; simpl.
  - unfold bind. destruct (negb (List.length _ =? List.length sel)); simpl;
      (split; [exact IHp|now left]).
  - now split.
  - now split.
  - now split.
  - now split.
  - now split.
  - destruct (rejects (app w)) eqn:Hrej.
    + rewrite (handleGenerate_rejected _ _ Hrej). now split.
    + rewrite (handleGenerate_final _ _ Hrej). simpl. split; [reflexivity|].
      right. apply ledgerAt_names.
  - unfold handleDownloadZip, bind, getState.
    destruct (List.length _ =? 0); now split.
Qed.

(** What holds of a batch during which no other handler runs: the ledger
    has one entry per selected file, in selection order, with the
    identifiers given at the start, and nothing is added or removed.  The
    ledger takes [n + 1] successive values; in the value number [t] the
    entries below [t] are in SUCCESS or ERROR, exactly as they are at the
    end, and the entries from [t] on are still in PROCESSING, so that each
    entry changes status once.  A rejected run leaves the ledger
    untouched. *)
Lemma undisturbed_ledger_invariant env w :
  let n := List.length (files (app w)) in
  let trace := ledgerTrace (runEvents handleGenerate env w) in
  let final := results (app (snd (handleGenerate env w))) in
  (rejects (app w) = true -> trace = [] /\ final = results (app w))
  /\ (rejects (app w) = false ->
      List.length trace = S n
      /\ nth_error trace n = Some final
      /\ forall t ledger,
           nth_error trace t = Some ledger ->
           List.length ledger = n
           /\ map fileName ledger = map Web.name (files (app w))
           /\ map id ledger = map id (initialResults (files (app w)))
           /\ forall j r,
                nth_error ledger j = Some r ->
                (t <= j -> status r = PROCESSING)
                /\ (j < t ->
                    (status r = SUCCESS \/ status r = ERROR)
                    /\ nth_error final j = Some r)).
Proof.
  intros n trace final. split.
  - intros H. pose proof (handleGenerate_rejected env w H) as Hrun.
    subst trace final.
    rewrite (runEvents_of_log _ _ _ _ (f_equal log (f_equal snd Hrun))), Hrun.
    now split.
  - intros H. destruct (handleGenerate_events env w H) as [_ Hld].
    cbv zeta in Hld. fold n in Hld. fold trace in Hld.
    assert (Hfinal : final = ledgerAt env w n).
    { subst final. now rewrite (handleGenerate_final _ _ H). }
    rewrite Hld, Hfinal. split; [|split].
    + now rewrite length_map, length_seq.
    + rewrite nth_error_map.
      rewrite (nth_error_nth' _ 0) by (rewrite length_seq; lia).
      rewrite seq_nth by lia. reflexivity.
    + intros t ledger Ht. apply nth_error_map_seq in Ht. destruct Ht as [Ht ->].
      split; [apply length_mapi|]. split; [apply ledgerAt_names|].
      split; [apply ledgerAt_names|].
      intros j r Hr. rewrite ledgerAt_nth in Hr. rewrite ledgerAt_nth.
      destruct (nth_error (files (app w)) j) as [file|] eqn:Hf; [|discriminate].
      assert (Hj : j < n) by (apply nth_error_Some; congruence).
      simpl in Hr. injection Hr as <-. split.
      * intros Hle. replace (j <? t) with false; [reflexivity|].
        symmetry. apply Nat.ltb_ge. exact Hle.
      * intros Hlt. replace (j <? t) with true by (symmetry; now apply Nat.ltb_lt).
        split; [apply outcomeEntry_status|].
        simpl. now replace (j <? n) with true by (symmetry; now apply Nat.ltb_lt).
Qed.

Lemma undisturbed_ledger_invariant_example :
  let env := Examples.answers "A summary." in
  let trace := ledgerTrace (runEvents handleGenerate env Examples.threeFiles) in
  List.length trace = 4
  /\ nth_error trace 3
     = Some (results (app (snd (handleGenerate env Examples.threeFiles))))
  /\ forall t ledger,
       nth_error trace t = Some ledger ->
       List.length ledger = 3
       /\ map fileName ledger = ["a.pdf"; "scan.pdf"; "c.pdf"].
Proof.
  cbv zeta.
  destruct (undisturbed_ledger_invariant (Examples.answers "A summary.") Examples.threeFiles)
    as [_ Hrun].
  destruct (Hrun eq_refl) as (Hlen & Hlast & Hall).
  split; [exact Hlen|]. split; [exact Hlast|].
  intros t ledger Ht. destruct (Hall t ledger Ht) as (Hl & Hn & _).
  split; [exact Hl|exact Hn].
Defined.

(** *** A file selection during the batch *)

Lemma bind_ext {A B} (m m' : M A) (k k' : A -> M B) env w :
  m env w = m' env w ->
  (forall a w1, k a env w1 = k' a env w1) ->
  bind m k env w = bind m' k' env w.
Proof.
  intros Hm Hk. unfold bind. rewrite Hm.
  destruct (m' env w) as [[a|t] w1]; [apply Hk|reflexivity].
Qed.

Lemma tryCatch_ext {A} (body body' : M A) (handler : Thrown -> M A) env w :
  body env w = body' env w ->
  tryCatch body handler env w = tryCatch body' handler env w.
Proof. intros H. unfold tryCatch. now rewrite H. Qed.

Lemma processFileDuring_undisturbed (st : AppState) (i : nat)
      (file : Web.File) env w :
  processFileDuring (ret tt) st i file env w = processFile st i file env w.
Proof.
  unfold processFileDuring, processFile. apply tryCatch_ext.
  apply bind_ext; [|reflexivity].
  unfold summarizeFileDuring, summarizeFile. apply bind_ext; [|reflexivity].
  unfold parsePdfDuring, parsePdf. apply bind_ext; reflexivity.
Qed.

Lemma forFilesDuring_undisturbed (st : AppState) (rest : list Web.File) :
  forall i env w,
    forFilesDuring undisturbed st i rest env w = forFiles st i rest env w.
Proof.
  induction rest as [|file rest IH]; intros i env w; [reflexivity|].
  cbn [forFilesDuring forFiles]. apply bind_ext.
  - apply processFileDuring_undisturbed.
  - intros _ w1. apply IH.
Qed.

(** With no other handler running, the batch is [handleGenerate]. *)
Lemma handleGenerateDuring_undisturbed env w :
  handleGenerateDuring undisturbed env w = handleGenerate env w.
Proof.
  unfold handleGenerateDuring, handleGenerate.
  apply bind_ext; [reflexivity|]. intros st w1.
  destruct (rejects st); [reflexivity|].
  apply bind_ext; [reflexivity|]. intros _ w2.
  apply bind_ext; [apply forFilesDuring_undisturbed|reflexivity].
Qed.

Lemma summarizeFileDuring_state (others : M unit) (st : AppState)
      (file : Web.File) env w :
  app (snd (summarizeFileDuring others st file env w))
  = app (snd (others env (mkWorld (app w) (log w ++ [ReadFile file])))).
Proof.
  set (rest := fun buffer : Web.ArrayBuffer =>
         pdfText <- (pdf <- call (GetDocument buffer)
                                 (fun env h => getDocument env h buffer) ;;
                     readPages pdf (seq 1 (Web.numPages pdf)) "") ;;
         if negb (truthyString (trim pdfText))
         then throw (ErrorObj blankTextMessage)
         else
           (let fullPrompt := constructFullPrompt pdfText (prompt st) in
            summary <- callModel st fullPrompt ;;
            match summary with
            | Str s => if startsWith s "Error" then throw (ErrorObj s) else ret s
            | other => fun env w =>
                (Abrupt (ErrorObj (typeErrorMessage env other "startsWith")), w)
            end)).
  assert (Hq : forall buffer, QuietM (rest buffer)).
  { intros buffer. unfold rest.
    pose proof readPages_quiet. pose proof callModel_quiet.
    repeat quiet_step; intros e x; apply quiet_refl. }
  assert (Hrun : summarizeFileDuring others st file env w
                 = match arrayBuffer env (log w) file with
                   | Normal buffer =>
                       rest buffer env
                            (snd (others env
                                    (mkWorld (app w) (log w ++ [ReadFile file]))))
                   | Abrupt t =>
                       (Abrupt t,
                        snd (others env
                               (mkWorld (app w) (log w ++ [ReadFile file]))))
                   end).
  { unfold summarizeFileDuring, parsePdfDuring, callDuring, call, rest, bind.
    cbn [fst snd app log].
    destruct (arrayBuffer env (log w) file); reflexivity. }
  rewrite Hrun. destruct (arrayBuffer env (log w) file) as [buffer|t];
    [|reflexivity].
  apply (Hq buffer).
Qed.

Lemma processFileDuring_results (others : M unit) (st : AppState) (i : nat)
      (file : Web.File) env w :
  fst (processFileDuring others st i file env w) = Normal tt
  /\ exists f,
       results (app (snd (processFileDuring others st i file env w)))
       = mapi f (results
                   (app (snd (others env
                                (mkWorld (app w) (log w ++ [ReadFile file])))))).
Proof.
  pose proof (summarizeFileDuring_state others st file env w) as Hst.
  unfold processFileDuring, tryCatch, bind.
  destruct (summarizeFileDuring others st file env w) as [[summary|t] w1];
    cbn [snd] in Hst; (split; [reflexivity|]); eexists;
    unfold updateEntry, setResults, setState, emit; cbn [snd fst app results
      withResults]; rewrite Hst; reflexivity.
Qed.

Lemma forFilesDuring_keeps_empty (others : nat -> M unit) (st : AppState)
      (rest : list Web.File) :
  (forall j env w, results (app w) = [] ->
                   results (app (snd (others j env w))) = []) ->
  forall i env w,
    results (app w) = [] ->
    results (app (snd (forFilesDuring others st i rest env w))) = [].
Proof.
  intros Hkeep. induction rest as [|file rest IH]; intros i env w Hw;
    [exact Hw|].
  cbn [forFilesDuring]. unfold bind.
  destruct (processFileDuring_results (others i) st i file env w)
    as [Hn [f Hr]].
  destruct (processFileDuring (others i) st i file env w) as [c w1].
  cbn [fst snd] in Hn, Hr. subst c. apply IH.
  rewrite Hr, (Hkeep i) by exact Hw. reflexivity.
Qed.

Lemma selectionAt_keeps_empty (k : nat) (selection : list Web.File) :
  forall j env w, results (app w) = [] ->
                  results (app (snd (selectionAt k selection j env w))) = [].
Proof.
  intros j env w Hw. unfold selectionAt.
  destruct (j =? k); [|exact Hw].
  unfold handleFileSelect, bind. now destruct (negb _).
Qed.

Lemma forFilesDuring_selection (k : nat) (selection : list Web.File)
      (st : AppState) (rest : list Web.File) :
  forall i env w,
    i <= k < i + List.length rest ->
    results (app (snd (forFilesDuring (selectionAt k selection) st i rest env w)))
    = [].
Proof.
  induction rest as [|file rest IH]; intros i env w Hk; [simpl in Hk; lia|].
  cbn [forFilesDuring]. unfold bind.
  destruct (processFileDuring_results (selectionAt k selection i) st i file env w)
    as [Hn [f Hr]].
  destruct (processFileDuring (selectionAt k selection i) st i file env w)
    as [c w1].
  cbn [fst snd] in Hn, Hr. subst c.
  destruct (Nat.eq_dec i k) as [->|Hne].
  - apply forFilesDuring_keeps_empty; [apply selectionAt_keeps_empty|].
    rewrite Hr. unfold selectionAt. rewrite Nat.eqb_refl.
    unfold handleFileSelect, bind. now destruct (negb _).
  - apply IH. simpl in Hk. lia.
Qed.

(** Whatever the files, the answers of the outside and the index: a batch
    during which files are selected while the file at index [k] is read
    ends with an empty ledger. *)
Lemma selection_empties_ledger (k : nat) (selection : list Web.File) env w :
  rejects (app w) = false ->
  k < List.length (files (app w)) ->
  results (app (snd (handleGenerateDuring (selectionAt k selection) env w))) = [].
Proof.
  intros H Hk. unfold handleGenerateDuring, bind at 1, getState. rewrite H.
  unfold bind at 1. rewrite startBatch_run. unfold bind.
  match goal with
  | |- context [forFilesDuring ?o ?st ?i ?l ?e ?x] =>
      pose proof (forFilesDuring_selection k selection st l i e x) as Hempty;
      destruct (forFilesDuring o st i l e x) as [[[]|t] wf]
  end; cbn [snd] in Hempty |- *.
  - unfold setIsProcessing, setState. cbn [snd app results withIsProcessing].
    apply Hempty. lia.
  - apply Hempty. lia.
Qed.

(** C7. Entries are removed in the middle of a batch when files are
    selected while it awaits: the file input stays enabled during a batch
    (only the generate button and the export are held back by
    [isProcessing]) and [handleFileSelect] empties the ledger.  For the
    batch of [a.pdf], [scan.pdf] and [c.pdf], with [z.pdf] picked while
    [scan.pdf] is read: the file count fixed at the start is 3, the ledger
    has 3 entries at the start and after the first file, then none, and
    the batch ends with an empty ledger; the updates for the second and
    third file find no entry to change. *)
Theorem selection_during_batch_empties_ledger :
  let env := Examples.answers "A summary." in
  let w := Examples.threeFiles in
  let run := handleGenerateDuring (selectionAt 1 [Examples.pdf "z.pdf"]) in
  List.length (files (app w)) = 3
  /\ filter isReadFile (runEvents run env w) = map ReadFile (files (app w))
  /\ map (@List.length SummaryResult) (ledgerTrace (runEvents run env w))
     = [3; 3; 0; 0; 0]
  /\ results (app (snd (run env w))) = []
  /\ isProcessing (app (snd (run env w))) = false
  /\ files (app (snd (run env w))) = [Examples.pdf "z.pdf"].
Proof.
  cbv zeta. repeat split; vm_compute; reflexivity.
Qed.

(** ** C8: the export *)

Lemma statusEq_success (st : ProcessingStatus) :
  statusEq st SUCCESS = true <-> st = SUCCESS.
Proof. destruct st; simpl; split; congruence. Qed.

Lemma allDone_while_processing (st : AppState) :
  isProcessing st = true -> allDone st = false.
Proof. intros H. unfold allDone. rewrite H. apply andb_false_r. Qed.

(** What the export does: with no SUCCESS entry it sets the notice and
    hands no archive to the download; with at least one it hands over one
    archive, [pdf_summaries.zip], built from the SUCCESS entries of the
    ledger in their order, and leaves the state as it was.  The archive has
    one file per exported name; when the exported names of the SUCCESS
    entries differ from one another it holds exactly one file per SUCCESS
    entry.  The export control, shown when [allDone] holds, is off in every
    state of an undisturbed batch and on in the state that batch ends in. *)
Lemma export_of_ledger env w :
  let st := app w in
  let successes := filter (fun r => statusEq (status r) SUCCESS) (results st) in
  let after := snd (handleDownloadZip env w) in
  let evs := runEvents handleDownloadZip env w in
  (successes = [] ->
   fst (handleDownloadZip env w) = Normal tt
   /\ globalError (app after) = noSuccessNotice
   /\ results (app after) = results st
   /\ downloads evs = [])
  /\ (successes <> [] ->
      fst (handleDownloadZip env w) = Normal tt
      /\ app after = st
      /\ downloads evs
         = [("pdf_summaries.zip", archiveOf (map archiveEntry successes))]
      /\ NoDup (map fst (archiveOf (map archiveEntry successes)))
      /\ (NoDup (map fst (map archiveEntry successes)) ->
          archiveOf (map archiveEntry successes) = map archiveEntry successes)
      /\ forall e,
           In e (map archiveEntry successes)
           <-> exists r, In r (results st) /\ status r = SUCCESS
                         /\ e = archiveEntry r)
  /\ (rejects st = false ->
      exists during final,
        stateTrace (runEvents handleGenerate env w) = during ++ [final]
        /\ final = app (snd (handleGenerate env w))
        /\ Forall (fun s => allDone s = false) during
        /\ allDone final = true).
Proof.
  intros st successes after evs. split; [|split].
  - intros Hnone.
    assert (Hrun : handleDownloadZip env w
                   = (Normal tt,
                      mkWorld (withGlobalError noSuccessNotice st)
                        (log w ++ [StateSet SetGlobalError
                                     (withGlobalError noSuccessNotice st)]))).
    { unfold handleDownloadZip, bind, getState. fold st. fold successes.
      rewrite Hnone. reflexivity. }
    subst after evs. rewrite (runEvents_of_log _ _ _ _ (f_equal log (f_equal snd Hrun))).
    rewrite Hrun. repeat split; reflexivity.
  - intros Hsome.
    assert (Hrun : handleDownloadZip env w
                   = (Normal tt,
                      mkWorld st
                        (log w ++ [Download "pdf_summaries.zip"
                                     (archiveOf (map archiveEntry successes))]))).
    { unfold handleDownloadZip, bind, getState. fold st. fold successes.
      rewrite addFiles_archiveOf.
      destruct successes; [contradiction|reflexivity]. }
    subst after evs. rewrite (runEvents_of_log _ _ _ _ (f_equal log (f_equal snd Hrun))).
    rewrite Hrun. split; [reflexivity|]. split; [reflexivity|].
    split; [reflexivity|]. split; [apply archiveOf_NoDup|].
    split; [apply archiveOf_distinct|].
    intros e. rewrite in_map_iff. split.
    + intros (r & <- & Hin). apply filter_In in Hin. destruct Hin as [Hin Hs].
      exists r. split; [exact Hin|]. split; [now apply statusEq_success|reflexivity].
    + intros (r & Hin & Hs & ->). exists r. split; [reflexivity|].
      apply filter_In. split; [exact Hin|]. now apply statusEq_success.
  - intros H. destruct (handleGenerate_events env w H) as [Hst _].
    cbv zeta in Hst.
    exists ([withIsProcessing true (app w);
             withGlobalError "" (withIsProcessing true (app w))]
            ++ map (runningState env w) (seq 0 (S (List.length (files (app w)))))).
    eexists. split; [rewrite Hst, <- app_assoc; reflexivity|].
    split; [now rewrite (handleGenerate_final _ _ H)|]. split.
    + apply Forall_app. split.
      * repeat (constructor; [now apply allDone_while_processing|]).
        constructor.
      * apply Forall_forall. intros s0 Hin. apply in_map_iff in Hin.
        destruct Hin as (i & <- & _). now apply allDone_while_processing.
    + unfold allDone. cbn [results isProcessing withIsProcessing runningState
                            withResults negb].
      rewrite andb_true_r. apply Nat.ltb_lt. unfold ledgerAt. rewrite length_mapi.
      unfold rejects in H. apply orb_false_iff in H. destruct H as [H _].
      apply Nat.eqb_neq in H. fold st. lia.
Qed.

(** C8. The archive does not always hold the SUCCESS entries: for a
    selected folder with [report.pdf] in two sub-folders, both summarized
    (as "First." and as "Second."), the ledger ends with two SUCCESS
    entries, both named [report.pdf], and the export builds an archive with
    the single file [report.txt], holding "Second."; the summary "First."
    is in no file of the archive. *)
Theorem equal_names_lose_a_summary :
  let env := Samples.inTurn (Samples.said "First.") (Samples.said "Second.") in
  let finished := snd (handleGenerate env Samples.twoReports) in
  let successes :=
    filter (fun r => statusEq (status r) SUCCESS) (results (app finished)) in
  map fileName successes = ["report.pdf"; "report.pdf"]
  /\ map content successes = ["First."; "Second."]
  /\ downloads (runEvents handleDownloadZip env finished)
     = [("pdf_summaries.zip", [("report.txt", "Second.")])]
  /\ forall archiveName entries,
       In (archiveName, entries)
          (downloads (runEvents handleDownloadZip env finished)) ->
       List.length entries = 1 /\ ~ In "First." (map snd entries).
Proof.
  cbv zeta.
  assert (Hd : downloads
                 (runEvents handleDownloadZip
                    (Samples.inTurn (Samples.said "First.") (Samples.said "Second."))
                    (snd (handleGenerate
                            (Samples.inTurn (Samples.said "First.")
                                            (Samples.said "Second."))
                            Samples.twoReports)))
               = [("pdf_summaries.zip", [("report.txt", "Second.")])])
    by (vm_compute; reflexivity).
  split; [vm_compute; reflexivity|]. split; [vm_compute; reflexivity|].
  split; [exact Hd|].
  intros archiveName entries Hin. rewrite Hd in Hin.
  destruct Hin as [E|[]]. injection E as _ <-. split; [reflexivity|].
  intros [E|[]]. discriminate.
Qed.

(** ** C9: the life of the ledger *)

(** C9 (as stated, refuted). Selecting files starts no batch, yet it
    deletes the entries of the ledger. *)
Lemma ledger_dropped_on_selection :
  let w := Examples.summarized "a.pdf" in
  let a := SelectFiles (Some [Examples.pdf "b.pdf"]) in
  startsBatch a (app w) = false
  /\ List.length (results (app w)) = 1
  /\ results (app (snd (perform a (Examples.answers "A summary.") w))) = [].
Proof. cbv zeta. repeat split; reflexivity. Qed.

(** C9 (amended). The entries of the ledger stay until files are selected
    or a batch is started: every other action leaves the ledger as it was.
    A file selection empties the ledger.  Starting a batch replaces the
    ledger wholesale: its first value is one fresh PROCESSING entry per
    selected file, and each entry at the end is the fresh entry of the file
    at that index with the outcome of this run, nothing of the prior ledger
    being merged or kept. *)
Theorem ledger_lifecycle env w (a : Action) :
  let st := app w in
  let after := results (app (snd (perform a env w))) in
  (startsBatch a st = false -> selectsFiles a = false -> after = results st)
  /\ (selectsFiles a = true -> after = [])
  /\ (startsBatch a st = true ->
      hd_error (ledgerTrace (runEvents (perform a) env w))
      = Some (initialResults (files st))
      /\ List.length after = List.length (files st)
      /\ forall j r,
           nth_error after j = Some r ->
           exists file,
             nth_error (files st) j = Some file
             /\ r = outcomeEntry (fileOutcome env w j file) (initialEntry file)).
Proof.
  intros st after. subst st after. split; [|split].
  - intros Hb Hs.
    destruct a as [[sel|]|p|provider|model|key| |]; simpl in *;
      try discriminate; try reflexivity.
    + apply negb_false_iff in Hb. now rewrite (handleGenerate_rejected _ _ Hb).
    + apply handleDownloadZip_results.
  - intros Hs. destruct a as [[sel|]|p|provider|model|key| |]; try discriminate.
    simpl. unfold bind.
    destruct (negb (List.length _ =? List.length sel)); reflexivity.
  - intros Hb. destruct a; try discriminate. simpl in *.
    apply negb_true_iff in Hb.
    destruct (handleGenerate_events env w Hb) as [_ Hld]. cbv zeta in Hld.
    rewrite Hld, (handleGenerate_final _ _ Hb). simpl.
    rewrite ledgerAt_zero. split; [reflexivity|]. split; [apply length_mapi|].
    intros j r Hr. rewrite ledgerAt_nth in Hr.
    destruct (nth_error (files (app w)) j) as [file|] eqn:Hf; [|discriminate].
    exists file. split; [reflexivity|]. simpl in Hr. injection Hr as <-.
    replace (j <? List.length (files (app w))) with true; [reflexivity|].
    symmetry. apply Nat.ltb_lt. apply nth_error_Some. congruence.
Qed.

Lemma ledger_lifecycle_witness :
  results (app (snd (perform DownloadZip (Examples.answers "A summary.")
                             (Examples.summarized "a.pdf"))))
  = results (app (Examples.summarized "a.pdf"))
  /\ List.length
       (results (app (snd (perform Generate (Examples.answers "A summary.")
                                   (Examples.summarized "a.pdf"))))) = 1.
Proof.
  split.
  - destruct (ledger_lifecycle (Examples.answers "A summary.")
                (Examples.summarized "a.pdf") DownloadZip) as (Hkept & _).
    apply Hkept; reflexivity.
  - destruct (ledger_lifecycle (Examples.answers "A summary.")
                (Examples.summarized "a.pdf") Generate) as (_ & _ & Hnew).
    destruct (Hnew eq_refl) as (_ & Hlen & _). exact Hlen.
Defined.

(** * The footprint of a program *)

(** ** Events of a kind *)

Section SilentFacts.

Context {A B : Type} (p : Event -> bool).

Lemma silentM_pure (m : M A) :
  (forall env w, snd (m env w) = w) -> SilentM p m.
Proof.
  intros H env w. exists []. rewrite H, app_nil_r. now split.
Qed.

Lemma silentM_ret (a : A) : SilentM p (ret a).
Proof. now apply silentM_pure. Qed.

Lemma silentM_throw (t : Thrown) : SilentM p (@throw A t).
Proof. now apply silentM_pure. Qed.

Lemma silentM_lift (c : Completion A) : SilentM p (lift c).
Proof. now apply silentM_pure. Qed.

Lemma silentM_call (e : Event) (answer : Env -> list Event -> Completion A) :
  p e = false -> SilentM p (call e answer).
Proof.
  intros He env w. exists [e]. split; [reflexivity|]. simpl. now rewrite He.
Qed.

Lemma silentM_bind (m : M A) (k : A -> M B) :
  SilentM p m -> (forall a, SilentM p (k a)) -> SilentM p (bind m k).
Proof.
  intros Hm Hk env w. unfold bind. destruct (Hm env w) as (e1 & Hl1 & Hf1).
  destruct (m env w) as [[a|t] w1]; simpl in *; [|eauto].
  destruct (Hk a env w1) as (e2 & Hl2 & Hf2).
  exists (e1 ++ e2). rewrite Hl2, Hl1, <- app_assoc. split; [reflexivity|].
  now rewrite filter_app, Hf1, Hf2.
Qed.

Lemma silentM_tryCatch (body : M A) (handler : Thrown -> M A) :
  SilentM p body -> (forall t, SilentM p (handler t)) ->
  SilentM p (tryCatch body handler).
Proof.
  intros Hm Hk env w. unfold tryCatch. destruct (Hm env w) as (e1 & Hl1 & Hf1).
  destruct (body env w) as [[a|t] w1]; simpl in *; [eauto|].
  destruct (Hk t env w1) as (e2 & Hl2 & Hf2).
  exists (e1 ++ e2). rewrite Hl2, Hl1, <- app_assoc. split; [reflexivity|].
  now rewrite filter_app, Hf1, Hf2.
Qed.

End SilentFacts.

Lemma silentM_emit (p : Event -> bool) (e : Event) :
  p e = false -> SilentM p (emit e).
Proof.
  intros He env w. exists [e]. split; [reflexivity|]. simpl. now rewrite He.
Qed.

Lemma silentM_setState (p : Event -> bool) (which : Setter)
      (f : AppState -> AppState) :
  (forall st, p (StateSet which st) = false) -> SilentM p (setState which f).
Proof.
  intros He env w. eexists. split; [reflexivity|]. simpl. now rewrite He.
Qed.

Lemma silentM_getM (p : Event -> bool) (v : Value) (key : string) :
  SilentM p (getM v key).
Proof.
  apply silentM_pure. intros env w. unfold getM. now destruct (Js.get v key).
Qed.

Lemma silentM_newError (p : Event -> bool) (v : Value) :
  SilentM p (newError v).
Proof.
  apply silentM_pure. intros env w.
  destruct v; simpl; try reflexivity;
    match goal with |- context [toStringOther ?e ?x] =>
      destruct (toStringOther e x) end; reflexivity.
Qed.

Create HintDb silent.

#[local] Hint Resolve silentM_ret silentM_throw silentM_lift silentM_getM
  silentM_newError : silent.

Ltac silent_step :=
  first
    [ solve [auto with silent]
    | apply silentM_bind; [|intros]
    | apply silentM_tryCatch; [|intros]
    | apply silentM_emit; reflexivity
    | apply silentM_call; reflexivity
    | apply silentM_setState; reflexivity
    | match goal with
      | |- SilentM _ (if ?b then _ else _) => destruct b
      | |- SilentM _ (match ?x with _ => _ end) => destruct x
      | |- SilentM _ (let _ := _ in _) => cbv zeta
      end ].

Lemma silent_events {A} (p : Event -> bool) (m : M A) env w :
  SilentM p m -> filter p (runEvents m env w) = [].
Proof.
  intros H. destruct (H env w) as (evs & Hl & Hf).
  now rewrite (runEvents_of_log _ _ _ _ Hl).
Qed.

Lemma readPages_silent (p : Event -> bool) (pdf : Web.PdfDocument)
      (pageNumbers : list nat) :
  forall fullText, SilentM p (readPages pdf pageNumbers fullText).
Proof.
  induction pageNumbers as [|i rest IH]; intros fullText; simpl;
    repeat silent_step.
Qed.

Lemma invalidStructure_silent (p : Event -> bool) (data : Value) :
  SilentM p (VolcanoService.invalidStructure data).
Proof. unfold VolcanoService.invalidStructure. repeat silent_step. Qed.

Section OnlyFacts.

Context {A B : Type} (p : Event -> bool).

Lemma onlyM_call (e : Event) (answer : Env -> list Event -> Completion A) :
  p e = true -> OnlyM p [e] (call e answer).
Proof.
  intros He env w. exists [e]. split; [reflexivity|]. simpl. now rewrite He.
Qed.

Lemma onlyM_bind (l : list Event) (m : M A) (k : A -> M B) :
  OnlyM p l m -> (forall a, SilentM p (k a)) -> OnlyM p l (bind m k).
Proof.
  intros Hm Hk env w. unfold bind. destruct (Hm env w) as (e1 & Hl1 & Hf1).
  destruct (m env w) as [[a|t] w1]; simpl in *; [|eauto].
  destruct (Hk a env w1) as (e2 & Hl2 & Hf2).
  exists (e1 ++ e2). rewrite Hl2, Hl1, <- app_assoc. split; [reflexivity|].
  now rewrite filter_app, Hf1, Hf2, app_nil_r.
Qed.

Lemma onlyM_tryCatch (l : list Event) (body : M A) (handler : Thrown -> M A) :
  OnlyM p l body -> (forall t, SilentM p (handler t)) ->
  OnlyM p l (tryCatch body handler).
Proof.
  intros Hm Hk env w. unfold tryCatch. destruct (Hm env w) as (e1 & Hl1 & Hf1).
  destruct (body env w) as [[a|t] w1]; simpl in *; [eauto|].
  destruct (Hk t env w1) as (e2 & Hl2 & Hf2).
  exists (e1 ++ e2). rewrite Hl2, Hl1, <- app_assoc. split; [reflexivity|].
  now rewrite filter_app, Hf1, Hf2, app_nil_r.
Qed.

Lemma onlyM_after_emit (l : list Event) (e : Event) (k : unit -> M B) :
  p e = false -> OnlyM p l (k tt) -> OnlyM p l (bind (emit e) k).
Proof.
  intros He Hk env w. unfold bind, emit.
  destruct (Hk env (mkWorld (app w) (log w ++ [e]))) as (e2 & Hl2 & Hf2).
  exists (e :: e2). rewrite Hl2. simpl. rewrite <- app_assoc, He.
  now split.
Qed.

Lemma atMostM_bind (a b : nat) (m : M A) (k : A -> M B) :
  AtMostM p a m -> (forall x, AtMostM p b (k x)) -> AtMostM p (a + b) (bind m k).
Proof.
  intros Hm Hk env w. unfold bind. destruct (Hm env w) as (e1 & Hl1 & Hf1).
  destruct (m env w) as [[x|t] w1]; simpl in *.
  - destruct (Hk x env w1) as (e2 & Hl2 & Hf2).
    exists (e1 ++ e2). rewrite Hl2, Hl1, <- app_assoc. split; [reflexivity|].
    rewrite filter_app, length_app. lia.
  - exists e1. split; [exact Hl1|lia].
Qed.

Lemma atMostM_tryCatch (a b : nat) (body : M A) (handler : Thrown -> M A) :
  AtMostM p a body -> (forall t, AtMostM p b (handler t)) ->
  AtMostM p (a + b) (tryCatch body handler).
Proof.
  intros Hm Hk env w. unfold tryCatch. destruct (Hm env w) as (e1 & Hl1 & Hf1).
  destruct (body env w) as [[x|t] w1]; simpl in *.
  - exists e1. split; [exact Hl1|lia].
  - destruct (Hk t env w1) as (e2 & Hl2 & Hf2).
    exists (e1 ++ e2). rewrite Hl2, Hl1, <- app_assoc. split; [reflexivity|].
    rewrite filter_app, length_app. lia.
Qed.

Lemma atMostM_only (l : list Event) (m : M A) :
  OnlyM p l m -> AtMostM p (List.length l) m.
Proof.
  intros H env w. destruct (H env w) as (evs & Hl & Hf).
  exists evs. split; [exact Hl|]. now rewrite Hf.
Qed.

Lemma atMostM_weaken (a b : nat) (m : M A) :
  a <= b -> AtMostM p a m -> AtMostM p b m.
Proof.
  intros Hab H env w. destruct (H env w) as (evs & Hl & Hf).
  exists evs. split; [exact Hl|lia].
Qed.

End OnlyFacts.

Lemma silentM_only {A} (p : Event -> bool) (m : M A) :
  SilentM p m <-> OnlyM p [] m.
Proof. split; intros H; exact H. Qed.

Lemma only_events {A} (p : Event -> bool) (l : list Event) (m : M A) env w :
  OnlyM p l m -> filter p (runEvents m env w) = l.
Proof.
  intros H. destruct (H env w) as (evs & Hl & Hf).
  now rewrite (runEvents_of_log _ _ _ _ Hl).
Qed.

Lemma atMost_events {A} (p : Event -> bool) (n : nat) (m : M A) env w :
  AtMostM p n m -> List.length (filter p (runEvents m env w)) <= n.
Proof.
  intros H. destruct (H env w) as (evs & Hl & Hf).
  now rewrite (runEvents_of_log _ _ _ _ Hl).
Qed.

(** *** The clients *)

Lemma generateSummaryFromText_only (p : Event -> bool)
      (fullPrompt modelName : string) :
  p (GenerateContent modelName fullPrompt) = true ->
  (forall s, p (ConsoleError s) = false) ->
  OnlyM p [GenerateContent modelName fullPrompt]
        (GeminiService.generateSummaryFromText fullPrompt modelName).
Proof.
  intros Hp Hc. unfold GeminiService.generateSummaryFromText.
  apply onlyM_tryCatch.
  - apply onlyM_bind; [now apply onlyM_call|intros; auto with silent].
  - intros t. apply silentM_bind; [apply silentM_emit, Hc|].
    intros _. destruct t; auto with silent.
Qed.

Lemma generateSummaryFromText_silent (p : Event -> bool)
      (fullPrompt modelName : string) :
  p (GenerateContent modelName fullPrompt) = false ->
  (forall s, p (ConsoleError s) = false) ->
  SilentM p (GeminiService.generateSummaryFromText fullPrompt modelName).
Proof.
  intros Hp Hc. unfold GeminiService.generateSummaryFromText.
  apply silentM_tryCatch.
  - apply silentM_bind; [now apply silentM_call|intros; auto with silent].
  - intros t. apply silentM_bind; [apply silentM_emit, Hc|].
    intros _. destruct t; auto with silent.
Qed.

Lemma volcano_rest_silent (p : Event -> bool) (response : Web.Response) :
  (forall s, p (ConsoleError s) = false) ->
  SilentM p
    (if negb (Web.ok response)
     then
       (errorBody <- tryCatch (lift (Web.json response)) (fun _ => ret (Obj [])) ;;
        let fromBody := getOpt (getOpt errorBody "error") "message" in
        let errorMessage :=
          if truthy fromBody then fromBody
          else Str ("API request failed with status "
                    ++ natToString (Web.status response)) in
        e <- newError errorMessage ;;
        throw e)
     else
       (data <- lift (Web.json response) ;;
        invalid <- VolcanoService.invalidStructure data ;;
        if invalid then throw (ErrorObj VolcanoService.invalidStructureMessage)
        else
          (choices <- getM data "choices" ;;
           first <- getM choices "0" ;;
           message <- getM first "message" ;;
           getM message "content"))).
Proof.
  intros Hc. pose proof (invalidStructure_silent p). repeat silent_step.
Qed.

Lemma volcano_handler_silent (p : Event -> bool) (t : Thrown) :
  (forall s, p (ConsoleError s) = false) ->
  SilentM p
    (emit (ConsoleError "Error generating summary from Volcano Engine:") ;;
     match t with
     | ErrorObj message => ret (Str (VolcanoService.errorPrefix ++ message))
     | NonError => ret (Str VolcanoService.unknownErrorMessage)
     end).
Proof.
  intros Hc. apply silentM_bind; [apply silentM_emit, Hc|].
  intros _. destruct t; auto with silent.
Qed.

Lemma generateSummaryFromVolcano_only (p : Event -> bool)
      (fullPrompt : string) (creds : VolcanoCredentials) :
  truthyString (apiKey creds) = true ->
  p (Fetch VolcanoService.apiEndpoint
           (VolcanoService.requestInit fullPrompt creds)) = true ->
  (forall s, p (ConsoleError s) = false) ->
  (forall s, p (ConsoleLog s) = false) ->
  OnlyM p [Fetch VolcanoService.apiEndpoint
                 (VolcanoService.requestInit fullPrompt creds)]
        (VolcanoService.generateSummaryFromVolcano fullPrompt creds).
Proof.
  intros Hkey Hp Hc Hl. unfold VolcanoService.generateSummaryFromVolcano.
  apply onlyM_after_emit; [apply Hl|]. rewrite Hkey. cbn [negb].
  apply onlyM_tryCatch.
  - apply onlyM_bind; [now apply onlyM_call|].
    intros response. now apply volcano_rest_silent.
  - intros t. now apply volcano_handler_silent.
Qed.

Lemma generateSummaryFromVolcano_silent (p : Event -> bool)
      (fullPrompt : string) (creds : VolcanoCredentials) :
  (truthyString (apiKey creds) = true ->
   p (Fetch VolcanoService.apiEndpoint
            (VolcanoService.requestInit fullPrompt creds)) = false) ->
  (forall s, p (ConsoleError s) = false) ->
  (forall s, p (ConsoleLog s) = false) ->
  SilentM p (VolcanoService.generateSummaryFromVolcano fullPrompt creds).
Proof.
  intros Hp Hc Hl. unfold VolcanoService.generateSummaryFromVolcano.
  apply silentM_bind; [apply silentM_emit, Hl|]. intros _.
  destruct (truthyString (apiKey creds)); cbn [negb]; [|auto with silent].
  apply silentM_tryCatch.
  - apply silentM_bind; [apply silentM_call; now apply Hp|].
    intros response. now apply volcano_rest_silent.
  - intros t. now apply volcano_handler_silent.
Qed.

(** *** The block of one file *)

Lemma parsePdf_silent (p : Event -> bool) (file : Web.File) :
  p (ReadFile file) = false -> (forall b, p (GetDocument b) = false) ->
  SilentM p (parsePdf file).
Proof.
  intros Hr Hg. unfold parsePdf. pose proof (readPages_silent p).
  apply silentM_bind; [now apply silentM_call|]. intros buffer.
  apply silentM_bind; [apply silentM_call, Hg|]. intros pdf. auto.
Qed.

Lemma parsePdf_only (p : Event -> bool) (file : Web.File) :
  p (ReadFile file) = true -> (forall b, p (GetDocument b) = false) ->
  OnlyM p [ReadFile file] (parsePdf file).
Proof.
  intros Hr Hg. unfold parsePdf. pose proof (readPages_silent p).
  apply onlyM_bind; [now apply onlyM_call|]. intros buffer.
  apply silentM_bind; [apply silentM_call, Hg|]. intros pdf. auto.
Qed.

Lemma summary_check_silent (p : Event -> bool) (summary : Value) :
  SilentM p
    (match summary with
     | Str s => if startsWith s "Error" then throw (ErrorObj s) else ret s
     | other => fun env w =>
         (Abrupt (ErrorObj (typeErrorMessage env other "startsWith")), w)
     end).
Proof.
  apply silentM_pure. intros env w. destruct summary; try reflexivity.
  unfold throw, ret. now destruct (startsWith s "Error").
Qed.

Lemma summarizeFile_after_silent (p : Event -> bool) (st : AppState)
      (pdfText : string) :
  SilentM p (callModel st (constructFullPrompt pdfText (prompt st))) ->
  SilentM p
    (if negb (truthyString (trim pdfText)) then throw (ErrorObj blankTextMessage)
     else
       (let fullPrompt := constructFullPrompt pdfText (prompt st) in
        summary <- callModel st fullPrompt ;;
        match summary with
        | Str s => if startsWith s "Error" then throw (ErrorObj s) else ret s
        | other => fun env w =>
            (Abrupt (ErrorObj (typeErrorMessage env other "startsWith")), w)
        end)).
Proof.
  intros H. destruct (negb (truthyString (trim pdfText))); [auto with silent|].
  cbv zeta. apply silentM_bind; [exact H|]. intros summary.
  apply summary_check_silent.
Qed.

Lemma callModel_silent (p : Event -> bool) (st : AppState) (fullPrompt : string) :
  (apiProvider st = gemini ->
   p (GenerateContent (selectedModel st) fullPrompt) = false) ->
  (apiProvider st = volcano -> truthyString (apiKey (volcanoCreds st)) = true ->
   p (Fetch VolcanoService.apiEndpoint
            (VolcanoService.requestInit fullPrompt (volcanoCreds st))) = false) ->
  (forall s, p (ConsoleError s) = false) ->
  (forall s, p (ConsoleLog s) = false) ->
  SilentM p (callModel st fullPrompt).
Proof.
  intros Hg Hv Hc Hl. unfold callModel. destruct (apiProvider st).
  - apply generateSummaryFromText_silent; auto.
  - apply generateSummaryFromVolcano_silent; auto.
Qed.

Lemma callModel_atMost (st : AppState) (fullPrompt : string) :
  AtMostM isModelCall 1 (callModel st fullPrompt).
Proof.
  unfold callModel. destruct (apiProvider st).
  - apply (atMostM_only isModelCall
             [GenerateContent (selectedModel st) fullPrompt]).
    now apply generateSummaryFromText_only.
  - destruct (truthyString (apiKey (volcanoCreds st))) eqn:Hkey.
    + apply (atMostM_only isModelCall
               [Fetch VolcanoService.apiEndpoint
                      (VolcanoService.requestInit fullPrompt (volcanoCreds st))]).
      apply generateSummaryFromVolcano_only; auto.
    + apply (atMostM_weaken isModelCall 0 1); [lia|].
      apply (atMostM_only isModelCall []).
      apply generateSummaryFromVolcano_silent; auto. congruence.
Qed.

Lemma summarizeFile_reads_only (st : AppState) (file : Web.File) :
  OnlyM isReadFile [ReadFile file] (summarizeFile st file).
Proof.
  unfold summarizeFile. apply onlyM_bind; [now apply parsePdf_only|].
  intros pdfText. apply summarizeFile_after_silent.
  apply callModel_silent; auto.
Qed.

Lemma summarizeFile_atMost (st : AppState) (file : Web.File) :
  AtMostM isModelCall 1 (summarizeFile st file).
Proof.
  unfold summarizeFile.
  apply (atMostM_bind isModelCall 0 1).
  - apply (atMostM_only isModelCall []). now apply parsePdf_silent.
  - intros pdfText. destruct (negb (truthyString (trim pdfText))).
    + apply (atMostM_weaken isModelCall 0 1); [lia|].
      apply (atMostM_only isModelCall []). apply silentM_throw.
    + cbv zeta. apply (atMostM_bind isModelCall 1 0); [apply callModel_atMost|].
      intros summary. apply (atMostM_only isModelCall []).
      apply summary_check_silent.
Qed.

Lemma updateEntry_silent (p : Event -> bool) (i : nat)
      (f : SummaryResult -> SummaryResult) :
  (forall st, p (StateSet SetResults st) = false) ->
  SilentM p (updateEntry i f).
Proof. intros H. unfold updateEntry, setResults. now apply silentM_setState. Qed.

Lemma processFile_handler_silent (p : Event -> bool) (i : nat)
      (file : Web.File) (t : Thrown) :
  (forall st, p (StateSet SetResults st) = false) ->
  (forall s, p (ConsoleError s) = false) ->
  SilentM p
    (let errorMessage := faultMessage t in
     emit (ConsoleError ("Failed to process " ++ Web.name file ++ ":")) ;;
     updateEntry i (markError errorMessage)).
Proof.
  intros Hs Hc. cbv zeta. apply silentM_bind; [apply silentM_emit, Hc|].
  intros _. now apply updateEntry_silent.
Qed.

Lemma processFile_reads_only (st : AppState) (i : nat) (file : Web.File) :
  OnlyM isReadFile [ReadFile file] (processFile st i file).
Proof.
  unfold processFile. apply onlyM_tryCatch.
  - apply onlyM_bind; [apply summarizeFile_reads_only|].
    intros summary. now apply updateEntry_silent.
  - intros t. now apply processFile_handler_silent.
Qed.

Lemma processFile_atMost (st : AppState) (i : nat) (file : Web.File) :
  AtMostM isModelCall 1 (processFile st i file).
Proof.
  unfold processFile. apply (atMostM_tryCatch isModelCall 1 0).
  - apply (atMostM_bind isModelCall 1 0); [apply summarizeFile_atMost|].
    intros summary. apply (atMostM_only isModelCall []).
    now apply updateEntry_silent.
  - intros t. apply (atMostM_only isModelCall []).
    now apply processFile_handler_silent.
Qed.

Lemma processFile_silent (p : Event -> bool) (st : AppState) (i : nat)
      (file : Web.File) :
  p (ReadFile file) = false -> (forall b, p (GetDocument b) = false) ->
  (forall s, p (StateSet SetResults s) = false) ->
  (forall s, p (ConsoleError s) = false) ->
  (forall s, p (ConsoleLog s) = false) ->
  (forall fullPrompt, SilentM p (callModel st fullPrompt)) ->
  SilentM p (processFile st i file).
Proof.
  intros Hr Hg Hs Hc Hl Hm. unfold processFile. apply silentM_tryCatch.
  - apply silentM_bind; [|intros; now apply updateEntry_silent].
    unfold summarizeFile. apply silentM_bind; [now apply parsePdf_silent|].
    intros pdfText. apply summarizeFile_after_silent. apply Hm.
  - intros t. now apply processFile_handler_silent.
Qed.

(** *** The batch as the sequence of its iterations *)

Lemma processFile_log (st : AppState) (i : nat) (file : Web.File) env w :
  log (snd (processFile st i file env w))
  = log w ++ runEvents (processFile st i file) env w.
Proof.
  destruct (processFile_reads_only st i file env w) as (evs & Hl & _).
  now rewrite (runEvents_of_log _ _ _ _ Hl).
Qed.

Lemma worldBefore_log env w (i : nat) :
  i <= List.length (files (app w)) ->
  log (worldBefore env w i)
  = log w
    ++ [StateSet SetIsProcessing (withIsProcessing true (app w));
        StateSet SetGlobalError
          (withGlobalError "" (withIsProcessing true (app w)));
        StateSet SetResults (runningState env w 0)]
    ++ concat (map (fileEvents env w) (seq 0 i)).
Proof.
  induction i as [|i IH]; intros Hi.
  - rewrite worldBefore_unfold. cbn [firstn forFiles]. unfold ret.
    rewrite startBatch_run. cbn [snd log seq map concat].
    unfold runningState. rewrite ledgerAt_zero, app_nil_r. reflexivity.
  - destruct (nth_error (files (app w)) i) as [file|] eqn:Hf.
    2:{ apply nth_error_None in Hf. lia. }
    rewrite (worldBefore_succ _ _ _ _ Hf), processFile_log, IH by lia.
    rewrite seq_S, map_app, concat_app. cbn [map concat Nat.add].
    unfold fileEvents at 3. rewrite Hf, app_nil_r, <- !app_assoc. reflexivity.
Qed.

Lemma batch_events env w :
  rejects (app w) = false ->
  let n := List.length (files (app w)) in
  runEvents handleGenerate env w
  = [StateSet SetIsProcessing (withIsProcessing true (app w));
     StateSet SetGlobalError
       (withGlobalError "" (withIsProcessing true (app w)));
     StateSet SetResults (runningState env w 0)]
    ++ concat (map (fileEvents env w) (seq 0 n))
    ++ [StateSet SetIsProcessing
          (withIsProcessing false (runningState env w n))].
Proof.
  intros H n. apply runEvents_of_log. rewrite (handleGenerate_final _ _ H).
  cbn [snd log]. fold n. rewrite (worldBefore_log env w n (Nat.le_refl _)).
  rewrite <- !app_assoc. reflexivity.
Qed.

Lemma filter_concat_map {X} (p : Event -> bool) (f : X -> list Event)
      (l : list X) :
  filter p (concat (map f l)) = concat (map (fun x => filter p (f x)) l).
Proof.
  induction l as [|x l IH]; simpl; [reflexivity|].
  now rewrite filter_app, IH.
Qed.

(** * Further properties of the code *)

(** ** What a batch reads and sends *)

Lemma concat_map_nth_error {X Y} (l : list X) (g : X -> list Y) :
  forall (h : nat -> list Y) (start : nat),
    (forall j x, nth_error l j = Some x -> h (start + j) = g x) ->
    concat (map h (seq start (List.length l))) = concat (map g l).
Proof.
  induction l as [|x l IH]; intros h start H; simpl; [reflexivity|].
  rewrite (IH h (S start)).
  - f_equal. rewrite <- (H 0 x eq_refl). now rewrite Nat.add_0_r.
  - intros j y Hj. rewrite <- (H (S j) y Hj). f_equal. lia.
Qed.

Lemma fileEvents_filter (p : Event -> bool) env w (i : nat) (file : Web.File) :
  nth_error (files (app w)) i = Some file ->
  filter p (fileEvents env w i)
  = filter p (runEvents (processFile (app w) i file) env (worldBefore env w i)).
Proof. intros H. unfold fileEvents. now rewrite H. Qed.

Lemma batch_filter (p : Event -> bool) env w :
  rejects (app w) = false ->
  (forall which st, p (StateSet which st) = false) ->
  filter p (runEvents handleGenerate env w)
  = concat (map (fun i => filter p (fileEvents env w i))
                (seq 0 (List.length (files (app w))))).
Proof.
  intros H Hs. rewrite (batch_events _ _ H). cbv zeta.
  rewrite !filter_app, filter_concat_map. simpl. rewrite !Hs.
  now rewrite app_nil_r.
Qed.

Lemma rejected_filter (p : Event -> bool) env w :
  rejects (app w) = true ->
  (forall which st, p (StateSet which st) = false) ->
  filter p (runEvents handleGenerate env w) = [].
Proof.
  intros H Hs.
  rewrite (runEvents_of_log _ _ _ _
             (f_equal log (f_equal snd (handleGenerate_rejected env w H)))).
  simpl. now rewrite Hs.
Qed.

Lemma handleGenerate_reads env w :
  rejects (app w) = false ->
  filter isReadFile (runEvents handleGenerate env w)
  = map ReadFile (files (app w)).
Proof.
  intros H. rewrite (batch_filter isReadFile _ _ H) by reflexivity.
  rewrite (concat_map_nth_error (files (app w)) (fun file => [ReadFile file])).
  - induction (files (app w)) as [|f l IH]; simpl; [reflexivity|now rewrite IH].
  - intros j file Hj. simpl. rewrite (fileEvents_filter _ _ _ _ _ Hj).
    apply only_events, processFile_reads_only.
Qed.

(** X1. A batch reads every selected file exactly once, in selection
    order: no file is skipped, read again or read out of turn, whatever
    fails on the way. *)
Theorem batch_reads_in_order env w :
  rejects (app w) = false ->
  filter isReadFile (runEvents handleGenerate env w)
  = map ReadFile (files (app w)).
Proof. exact (handleGenerate_reads env w). Qed.

Lemma batch_reads_in_order_witness :
  filter isReadFile
         (runEvents handleGenerate (Examples.answers "A summary.")
                    Examples.threeFiles)
  = [ReadFile (Examples.pdf "a.pdf"); ReadFile (Examples.pdf "scan.pdf");
     ReadFile (Examples.pdf "c.pdf")].
Proof.
  exact (batch_reads_in_order (Examples.answers "A summary.")
                              Examples.threeFiles eq_refl).
Defined.

Lemma runEvents_bind {A B} (m : M A) (k : A -> M B) env w :
  SilentM none m -> (forall a, SilentM none (k a)) ->
  runEvents (bind m k) env w
  = runEvents m env w
    ++ match m env w with
       | (Normal a, w1) => runEvents (k a) env w1
       | (Abrupt _, _) => []
       end.
Proof.
  intros Hm Hk. destruct (Hm env w) as (e1 & Hl1 & _).
  rewrite (runEvents_of_log m _ _ _ Hl1). apply runEvents_of_log.
  unfold bind. destruct (m env w) as [[a|t] w1]; simpl in *.
  - destruct (Hk a env w1) as (e2 & Hl2 & _).
    rewrite (runEvents_of_log (k a) _ _ _ Hl2), Hl2, Hl1.
    now rewrite app_assoc.
  - now rewrite app_nil_r.
Qed.

Lemma runEvents_tryCatch {A} (body : M A) (handler : Thrown -> M A) env w :
  SilentM none body -> (forall t, SilentM none (handler t)) ->
  runEvents (tryCatch body handler) env w
  = runEvents body env w
    ++ match body env w with
       | (Normal _, _) => []
       | (Abrupt t, w1) => runEvents (handler t) env w1
       end.
Proof.
  intros Hm Hk. destruct (Hm env w) as (e1 & Hl1 & _).
  rewrite (runEvents_of_log body _ _ _ Hl1). apply runEvents_of_log.
  unfold tryCatch. destruct (body env w) as [[a|t] w1]; simpl in *.
  - now rewrite app_nil_r.
  - destruct (Hk t env w1) as (e2 & Hl2 & _).
    rewrite (runEvents_of_log (handler t) _ _ _ Hl2), Hl2, Hl1.
    now rewrite app_assoc.
Qed.

Lemma runEvents_pure {A} (m : M A) env w :
  snd (m env w) = w -> runEvents m env w = [].
Proof. intros H. unfold runEvents. rewrite H. apply skipn_all. Qed.

Lemma callModel_grows (st : AppState) (fullPrompt : string) :
  SilentM none (callModel st fullPrompt).
Proof. now apply callModel_silent. Qed.

Lemma summarizeFile_grows (st : AppState) (file : Web.File) :
  SilentM none (summarizeFile st file).
Proof.
  unfold summarizeFile. apply silentM_bind; [now apply parsePdf_silent|].
  intros pdfText. apply summarizeFile_after_silent, callModel_grows.
Qed.

(** The events of an iteration that are not console lines or ledger
    updates are those of the block of its file. *)
Lemma processFile_filter (p : Event -> bool) (st : AppState) (i : nat)
      (file : Web.File) env w :
  (forall s, p (StateSet SetResults s) = false) ->
  (forall s, p (ConsoleError s) = false) ->
  filter p (runEvents (processFile st i file) env w)
  = filter p (runEvents (summarizeFile st file) env w).
Proof.
  intros Hs Hc. destruct (summarizeFile_grows st file env w) as (e & Hl & _).
  rewrite (runEvents_of_log (summarizeFile st file) _ _ _ Hl).
  destruct (summarizeFile st file env w) as [[s|t] w1] eqn:E; simpl in Hl.
  - erewrite (runEvents_of_log (processFile st i file)).
    2:{ unfold processFile, tryCatch, bind. rewrite E.
        unfold updateEntry, setResults, setState. simpl.
        rewrite Hl, <- app_assoc. reflexivity. }
    rewrite filter_app. simpl. now rewrite Hs, app_nil_r.
  - erewrite (runEvents_of_log (processFile st i file)).
    2:{ unfold processFile, tryCatch, bind. rewrite E.
        unfold updateEntry, setResults, setState, emit. simpl.
        rewrite Hl, <- !app_assoc. reflexivity. }
    rewrite filter_app. simpl. now rewrite Hc, Hs, app_nil_r.
Qed.

Lemma callModel_request (st : AppState) (fullPrompt : string) :
  OnlyM isModelCall (modelRequest st fullPrompt) (callModel st fullPrompt).
Proof.
  unfold callModel, modelRequest. destruct (apiProvider st).
  - now apply generateSummaryFromText_only.
  - destruct (truthyString (apiKey (volcanoCreds st))) eqn:Hkey.
    + apply generateSummaryFromVolcano_only; auto.
    + apply generateSummaryFromVolcano_silent; auto. congruence.
Qed.

Lemma summarizeFile_request (st : AppState) (file : Web.File) env w :
  filter isModelCall (runEvents (summarizeFile st file) env w)
  = match parsePdf file env w with
    | (Normal pdfText, _) =>
        if negb (truthyString (trim pdfText)) then []
        else modelRequest st (constructFullPrompt pdfText (prompt st))
    | (Abrupt _, _) => []
    end.
Proof.
  unfold summarizeFile. rewrite runEvents_bind.
  - rewrite filter_app.
    rewrite (silent_events isModelCall (parsePdf file)) by now apply parsePdf_silent.
    destruct (parsePdf file env w) as [[pdfText|t] w1]; [|reflexivity].
    destruct (negb (truthyString (trim pdfText)));
      [now rewrite runEvents_pure|].
    cbv zeta. simpl. rewrite runEvents_bind.
    + rewrite filter_app, (only_events _ _ _ _ _ (callModel_request _ _)).
      destruct (callModel st _ env w1) as [[summary|t] w2];
        [|now rewrite app_nil_r].
      rewrite (silent_events isModelCall _ env w2 (summary_check_silent _ summary)).
      now rewrite app_nil_r.
    + apply callModel_grows.
    + intros summary. apply summary_check_silent.
  - now apply parsePdf_silent.
  - intros pdfText. apply summarizeFile_after_silent, callModel_grows.
Qed.

(** X2. The model traffic of a batch is, file by file in selection order,
    one request for each file whose extraction yields text that is not
    blank, carrying the prompt built from that file's own text and the
    user's prompt, and no request for a file whose extraction faults or
    yields blank text; under the Volcano provider without a key no request
    is made at all.  No request is repeated. *)
Theorem batch_model_traffic env w :
  rejects (app w) = false ->
  filter isModelCall (runEvents handleGenerate env w)
  = concat (map (fileRequest env w) (seq 0 (List.length (files (app w))))).
Proof.
  intros H. rewrite (batch_filter isModelCall _ _ H) by reflexivity.
  f_equal. apply map_ext_in. intros i Hi. apply in_seq in Hi.
  unfold fileRequest.
  destruct (nth_error (files (app w)) i) as [file|] eqn:Hf.
  - rewrite (fileEvents_filter _ _ _ _ _ Hf).
    rewrite processFile_filter by reflexivity.
    apply summarizeFile_request.
  - apply nth_error_None in Hf. lia.
Qed.

Lemma batch_model_traffic_witness :
  filter isModelCall
         (runEvents handleGenerate (Examples.answers "A summary.")
                    Examples.threeFiles)
  = [GenerateContent "gemini-2.5-flash"
       (constructFullPrompt ("Hello world" ++ LF ++ LF)
          "Summarize this document in three key bullet points.");
     GenerateContent "gemini-2.5-flash"
       (constructFullPrompt ("Hello world" ++ LF ++ LF)
          "Summarize this document in three key bullet points.")].
Proof.
  rewrite (batch_model_traffic (Examples.answers "A summary.")
                               Examples.threeFiles eq_refl).
  vm_compute. reflexivity.
Defined.

Lemma networkCalls_filter (evs : list Event) :
  filter isFetch evs = [] -> networkCalls evs = [].
Proof.
  induction evs as [|e evs IH]; simpl; [reflexivity|].
  destruct e; simpl; auto; discriminate.
Qed.

Lemma handleGenerate_silent_for (p : Event -> bool) env w :
  (forall which st, p (StateSet which st) = false) ->
  (forall file, p (ReadFile file) = false) ->
  (forall b, p (GetDocument b) = false) ->
  (forall s, p (ConsoleError s) = false) ->
  (forall s, p (ConsoleLog s) = false) ->
  (forall fullPrompt, SilentM p (callModel (app w) fullPrompt)) ->
  filter p (runEvents handleGenerate env w) = [].
Proof.
  intros Hs Hr Hg Hc Hl Hm. destruct (rejects (app w)) eqn:H.
  - now apply rejected_filter.
  - rewrite (batch_filter p _ _ H Hs).
    assert (Hall : forall i, filter p (fileEvents env w i) = []).
    { intros i. unfold fileEvents.
      destruct (nth_error (files (app w)) i) as [file|]; [|reflexivity].
      apply silent_events. apply processFile_silent; auto. }
    induction (seq 0 (List.length (files (app w)))) as [|i l IH];
      simpl; [reflexivity|]. now rewrite Hall, IH.
Qed.

(** X3. The two providers never mix: a run under the Gemini provider sends
    nothing over the network (the Volcano endpoint is never contacted and
    no key leaves the page), and a run under the Volcano provider never
    calls the Gemini SDK. *)
Theorem provider_exclusive env w :
  (apiProvider (app w) = gemini ->
   networkCalls (runEvents handleGenerate env w) = [])
  /\ (apiProvider (app w) = volcano ->
      filter isGenerateContent (runEvents handleGenerate env w) = []).
Proof.
  split; intros Hp.
  - apply networkCalls_filter. apply handleGenerate_silent_for; auto.
    intros fullPrompt. apply callModel_silent; auto. congruence.
  - apply handleGenerate_silent_for; auto.
    intros fullPrompt. apply callModel_silent; auto. congruence.
Qed.

Lemma provider_exclusive_witness :
  networkCalls (runEvents handleGenerate (Examples.answers "A summary.")
                          Examples.threeFiles) = [].
Proof.
  exact (proj1 (provider_exclusive (Examples.answers "A summary.")
                                   Examples.threeFiles) eq_refl).
Defined.

(** ** The Volcano provider without a key *)

Lemma callModel_without_key (st : AppState) (fullPrompt : string) env w :
  apiProvider st = volcano -> apiKey (volcanoCreds st) = "" ->
  callModel st fullPrompt env w
  = (Normal (Str VolcanoService.missingKeyMessage),
     mkWorld (app w)
             (log w ++ [ConsoleLog "Making API call to Volcano Engine..."])).
Proof.
  intros Hp Hk. unfold callModel. rewrite Hp.
  unfold VolcanoService.generateSummaryFromVolcano, bind, emit. rewrite Hk.
  reflexivity.
Qed.

Lemma summarizeFile_without_key (st : AppState) (file : Web.File) env w :
  apiProvider st = volcano -> apiKey (volcanoCreds st) = "" ->
  exists t,
    fst (summarizeFile st file env w) = Abrupt t
    /\ forall pdfText w1,
         parsePdf file env w = (Normal pdfText, w1) -> trim pdfText <> "" ->
         t = ErrorObj VolcanoService.missingKeyMessage.
Proof.
  intros Hp Hk. unfold summarizeFile, bind.
  destruct (parsePdf file env w) as [[pdfText|t] w1].
  - destruct (negb (truthyString (trim pdfText))) eqn:Hb.
    + eexists. split; [reflexivity|]. intros pdfText' w1' E Hne.
      injection E as <- <-. rewrite (truthyString_trim_true _ Hne) in Hb.
      discriminate.
    + cbv zeta. rewrite (callModel_without_key _ _ _ _ Hp Hk).
      eexists. split; [reflexivity|]. reflexivity.
  - exists t. split; [reflexivity|]. intros ? ? E. discriminate.
Qed.

(** X4. The batch itself does not look at the Volcano key: started under
    the Volcano provider with an empty key it still visits every file, but
    sends nothing and calls no model, and every entry ends in ERROR; the
    entry of a file that yields text carries the client's "API Key is
    required" text. *)
Theorem volcano_batch_without_key env w :
  rejects (app w) = false ->
  apiProvider (app w) = volcano ->
  apiKey (volcanoCreds (app w)) = "" ->
  let after := results (app (snd (handleGenerate env w))) in
  filter isModelCall (runEvents handleGenerate env w) = []
  /\ List.length after = List.length (files (app w))
  /\ (forall i r, nth_error after i = Some r -> status r = ERROR)
  /\ (forall i file pdfText w1,
        nth_error (files (app w)) i = Some file ->
        parsePdf file env (worldBefore env w i) = (Normal pdfText, w1) ->
        trim pdfText <> "" ->
        nth_error after i
        = Some (markError VolcanoService.missingKeyMessage (initialEntry file))).
Proof.
  intros H Hp Hk after. subst after. split; [|split; [|split]].
  - apply handleGenerate_silent_for; auto.
    intros fullPrompt. apply callModel_silent; auto; try congruence.
    intros _ Hkey. rewrite Hk in Hkey. discriminate.
  - rewrite (handleGenerate_final _ _ H). apply length_mapi.
  - intros i r Hr. rewrite (handleGenerate_final _ _ H) in Hr. simpl in Hr.
    rewrite ledgerAt_nth in Hr.
    destruct (nth_error (files (app w)) i) as [file|] eqn:Hf; [|discriminate].
    simpl in Hr.
    replace (i <? List.length (files (app w))) with true in Hr
      by (symmetry; apply Nat.ltb_lt, nth_error_Some; congruence).
    injection Hr as <-. unfold fileOutcome.
    destruct (summarizeFile_without_key (app w) file env (worldBefore env w i)
                Hp Hk) as (t & -> & _).
    reflexivity.
  - intros i file pdfText w1 Hf Hparse Hne.
    destruct (entry_after_batch env w i file H Hf) as (wf & Hrun & _ & _ & He).
    rewrite Hrun. simpl. rewrite He. unfold fileOutcome.
    destruct (summarizeFile_without_key (app w) file env (worldBefore env w i)
                Hp Hk) as (t & -> & Ht).
    now rewrite (Ht pdfText w1 Hparse Hne).
Qed.

Lemma volcano_batch_without_key_witness :
  filter isModelCall
         (runEvents handleGenerate (Examples.answers "A summary.")
                    (Samples.underVolcano "")) = []
  /\ nth_error
       (results (app (snd (handleGenerate (Examples.answers "A summary.")
                                          (Samples.underVolcano "")))))
       0
     = Some (markError VolcanoService.missingKeyMessage
                       (initialEntry (Examples.pdf "a.pdf"))).
Proof.
  destruct (volcano_batch_without_key (Examples.answers "A summary.")
              (Samples.underVolcano "") eq_refl eq_refl eq_refl)
    as (Hsilent & _ & _ & Hentry).
  split; [exact Hsilent|].
  eapply (Hentry 0 (Examples.pdf "a.pdf"));
    [reflexivity|vm_compute; reflexivity|vm_compute; discriminate].
Defined.

(** ** File selection *)

Lemma filter_length_all {X} (p : X -> bool) (l : list X) :
  List.length (filter p l) = List.length l <-> forallb p l = true.
Proof.
  induction l as [|x l IH]; simpl; [tauto|].
  pose proof (filter_length_le p l) as Hle.
  destruct (p x); simpl.
  - rewrite <- IH. split; intros H; lia.
  - split; [lia|discriminate].
Qed.

(** X5. A file selection keeps exactly the files typed [application/pdf],
    in their order, and empties the ledger; the notice about ignored files
    is set exactly when some selected file is not a PDF and is cleared
    otherwise; the prompt and the provider settings are left alone.  A
    change event without a file list changes nothing. *)
Theorem file_selection_keeps_pdfs env w (allFiles : list Web.File) :
  let isPdf := fun file => (Web.type file =? "application/pdf")%string in
  let after := app (snd (handleFileSelect (Some allFiles) env w)) in
  files after = filter isPdf allFiles
  /\ (forall file, In file (files after)
                   <-> In file allFiles /\ Web.type file = "application/pdf")
  /\ results after = []
  /\ globalError after
     = (if forallb isPdf allFiles then ""
        else "Some selected files were not PDFs and have been ignored.")
  /\ prompt after = prompt (app w)
  /\ apiProvider after = apiProvider (app w)
  /\ volcanoCreds after = volcanoCreds (app w)
  /\ isProcessing after = isProcessing (app w)
  /\ handleFileSelect None env w = (Normal tt, w).
Proof.
  intros isPdf after. subst after.
  assert (Hmem : forall file,
             In file (filter isPdf allFiles)
             <-> In file allFiles /\ Web.type file = "application/pdf").
  { intros file. rewrite filter_In. unfold isPdf. now rewrite String.eqb_eq. }
  unfold handleFileSelect, bind. fold isPdf.
  destruct (forallb isPdf allFiles) eqn:Hall.
  - apply filter_length_all in Hall as Hlen. rewrite Hlen, Nat.eqb_refl. simpl.
    split; [reflexivity|]. split; [exact Hmem|]. repeat split; reflexivity.
  - assert (Hlen : (List.length (filter isPdf allFiles) =? List.length allFiles)
                   = false).
    { apply Nat.eqb_neq. intros Hlen. apply filter_length_all in Hlen.
      congruence. }
    rewrite Hlen. simpl.
    split; [reflexivity|]. split; [exact Hmem|]. repeat split; reflexivity.
Qed.

(** ** Text extraction *)

Lemma append_assoc (a b c : string) : ((a ++ b) ++ c)%string = (a ++ b ++ c)%string.
Proof. induction a as [|x a IH]; simpl; [reflexivity|now rewrite IH]. Qed.

Lemma append_nil_r (a : string) : (a ++ "")%string = a.
Proof. induction a as [|x a IH]; simpl; [reflexivity|now rewrite IH]. Qed.

Lemma pageOutcome_normal (pdf : Web.PdfDocument) (i : nat) (l : list string) :
  pageOutcome pdf i = Normal l ->
  exists page textContent,
    Web.getPage pdf i = Normal page
    /\ Web.getTextContent page = Normal textContent
    /\ map Web.str (Web.items textContent) = l.
Proof.
  unfold pageOutcome. intros H.
  destruct (Web.getPage pdf i) as [page|]; [|discriminate].
  destruct (Web.getTextContent page) as [textContent|] eqn:E; [|discriminate].
  injection H as <-. now exists page, textContent.
Qed.

Lemma readPages_all (pdf : Web.PdfDocument) (pages : nat -> list string) env w :
  forall pageNumbers fullText,
    (forall i, In i pageNumbers -> pageOutcome pdf i = Normal (pages i)) ->
    readPages pdf pageNumbers fullText env w
    = (Normal (fullText ++ documentText (map pages pageNumbers))%string, w).
Proof.
  induction pageNumbers as [|i rest IH]; intros fullText H; simpl.
  - unfold ret, documentText. simpl. now rewrite append_nil_r.
  - destruct (pageOutcome_normal pdf i _ (H i (or_introl eq_refl)))
      as (page & textContent & Hp & Ht & Hi).
    unfold bind, lift. rewrite Hp, Ht, Hi. rewrite IH by (intros; apply H; now right).
    unfold documentText. simpl. fold (documentText (map pages rest)).
    unfold pageText. now rewrite !append_assoc.
Qed.

Lemma readPages_fault (pdf : Web.PdfDocument) (t : Thrown) env w :
  forall before k after fullText,
    (forall i, In i before -> exists l, pageOutcome pdf i = Normal l) ->
    pageOutcome pdf k = Abrupt t ->
    readPages pdf (before ++ k :: after) fullText env w = (Abrupt t, w).
Proof.
  induction before as [|i before IH]; intros k after fullText Hb Hk; simpl.
  - unfold bind, lift. unfold pageOutcome in Hk.
    destruct (Web.getPage pdf k) as [page|t']; [|now injection Hk as ->].
    destruct (Web.getTextContent page) as [c|t']; [discriminate|].
    now injection Hk as ->.
  - destruct (Hb i (or_introl eq_refl)) as [l Hl].
    destruct (pageOutcome_normal pdf i l Hl) as (page & c & Hp & Ht & _).
    unfold bind, lift. rewrite Hp, Ht. apply IH; [|exact Hk].
    intros j Hj. apply Hb. now right.
Qed.

Lemma parsePdf_run (file : Web.File) env w :
  parsePdf file env w
  = match arrayBuffer env (log w) file with
    | Normal buffer =>
        match getDocument env (log w ++ [ReadFile file]) buffer with
        | Normal pdf =>
            readPages pdf (seq 1 (Web.numPages pdf)) "" env
                      (mkWorld (app w)
                               ((log w ++ [ReadFile file]) ++ [GetDocument buffer]))
        | Abrupt t =>
            (Abrupt t,
             mkWorld (app w) ((log w ++ [ReadFile file]) ++ [GetDocument buffer]))
        end
    | Abrupt t => (Abrupt t, mkWorld (app w) (log w ++ [ReadFile file]))
    end.
Proof.
  unfold parsePdf, bind, call. simpl.
  destruct (arrayBuffer env (log w) file); [|reflexivity].
  now destruct (getDocument env (log w ++ [ReadFile file]) a).
Qed.

(** X6. When the file is read, the document opens and every page loads,
    [parsePdf] returns the pages' texts in page order, each page being its
    text items joined by single spaces and followed by a blank line; a
    document without pages gives the empty text. *)
Theorem parsePdf_text (file : Web.File) (buffer : Web.ArrayBuffer)
        (pdf : Web.PdfDocument) (pages : nat -> list string) env w :
  arrayBuffer env (log w) file = Normal buffer ->
  getDocument env (log w ++ [ReadFile file]) buffer = Normal pdf ->
  (forall i, 1 <= i <= Web.numPages pdf -> pageOutcome pdf i = Normal (pages i)) ->
  fst (parsePdf file env w)
  = Normal (documentText (map pages (seq 1 (Web.numPages pdf))))
  /\ (Web.numPages pdf = 0 -> fst (parsePdf file env w) = Normal "").
Proof.
  intros Hb Hd Hpages.
  assert (Hrun : fst (parsePdf file env w)
                 = Normal (documentText (map pages (seq 1 (Web.numPages pdf))))).
  { rewrite parsePdf_run, Hb, Hd, (readPages_all pdf pages); [reflexivity|].
    intros i Hi. apply in_seq in Hi. apply Hpages. lia. }
  split; [exact Hrun|]. intros Hzero. rewrite Hrun, Hzero. reflexivity.
Qed.

Lemma parsePdf_text_witness :
  fst (parsePdf (Examples.pdf "a.pdf")
                (Samples.opens Samples.twoPages (Abrupt NonError))
                Examples.oneFile)
  = Normal ("Annual report" ++ LF ++ LF ++ "Page two" ++ LF ++ LF)%string.
Proof.
  destruct (parsePdf_text (Examples.pdf "a.pdf") [Init.Byte.x25]
              Samples.twoPages
              (fun i => if i =? 1 then ["Annual"; "report"] else ["Page two"])
              (Samples.opens Samples.twoPages (Abrupt NonError))
              Examples.oneFile eq_refl eq_refl) as [H _].
  - intros i Hi. simpl in Hi.
    destruct i as [|[|[|i]]]; [lia|reflexivity|reflexivity|lia].
  - exact H.
Defined.

(** X7. [parsePdf] stops at the first thing that fails and throws that
    very fault: the file that cannot be read, the document that cannot be
    opened, or the first page (in page order) that cannot be loaded or has
    no readable text content; the pages before it do not matter. *)
Theorem parsePdf_first_fault (file : Web.File) (t : Thrown) env w :
  (arrayBuffer env (log w) file = Abrupt t ->
   fst (parsePdf file env w) = Abrupt t)
  /\ (forall buffer,
        arrayBuffer env (log w) file = Normal buffer ->
        getDocument env (log w ++ [ReadFile file]) buffer = Abrupt t ->
        fst (parsePdf file env w) = Abrupt t)
  /\ (forall buffer pdf k,
        arrayBuffer env (log w) file = Normal buffer ->
        getDocument env (log w ++ [ReadFile file]) buffer = Normal pdf ->
        1 <= k <= Web.numPages pdf ->
        (forall i, 1 <= i < k -> exists l, pageOutcome pdf i = Normal l) ->
        pageOutcome pdf k = Abrupt t ->
        fst (parsePdf file env w) = Abrupt t).
Proof.
  split; [|split].
  - intros Hb. now rewrite parsePdf_run, Hb.
  - intros buffer Hb Hd. now rewrite parsePdf_run, Hb, Hd.
  - intros buffer pdf k Hb Hd Hk Hbefore Hfault.
    rewrite parsePdf_run, Hb, Hd.
    replace (seq 1 (Web.numPages pdf))
      with (seq 1 (k - 1) ++ k :: seq (S k) (Web.numPages pdf - k)).
    + rewrite (readPages_fault pdf t); [reflexivity| |exact Hfault].
      intros i Hi. apply in_seq in Hi. apply Hbefore. lia.
    + replace (k :: seq (S k) (Web.numPages pdf - k))
        with (seq k (S (Web.numPages pdf - k))) by reflexivity.
      replace k with (1 + (k - 1)) at 2 by lia.
      rewrite <- seq_app. f_equal. lia.
Qed.

Lemma parsePdf_first_fault_witness :
  fst (parsePdf (Examples.pdf "a.pdf")
                (Samples.opens Samples.brokenSecondPage (Abrupt NonError))
                Examples.oneFile)
  = Abrupt (ErrorObj "Invalid page request").
Proof.
  destruct (parsePdf_first_fault (Examples.pdf "a.pdf")
              (ErrorObj "Invalid page request")
              (Samples.opens Samples.brokenSecondPage (Abrupt NonError))
              Examples.oneFile) as (_ & _ & Hpage).
  apply (Hpage [Init.Byte.x25] Samples.brokenSecondPage 2);
    [reflexivity|reflexivity|simpl; lia| |reflexivity].
  intros i Hi. assert (i = 1) as -> by lia. now eexists.
Defined.

Lemma allWhiteSpace_app (a b : string) :
  allWhiteSpace (a ++ b) = allWhiteSpace a && allWhiteSpace b.
Proof.
  induction a as [|c a IH]; simpl; [reflexivity|].
  now rewrite IH, andb_assoc.
Qed.

Lemma concat_blank (pageItems : list string) :
  forallb allWhiteSpace pageItems = true ->
  allWhiteSpace (String.concat " " pageItems) = true.
Proof.
  induction pageItems as [|x l IH]; simpl; [reflexivity|].
  intros H. apply andb_true_iff in H. destruct H as [Hx Hl].
  destruct l as [|y l]; [exact Hx|].
  rewrite !allWhiteSpace_app, Hx. simpl. now apply IH.
Qed.

Lemma documentText_blank (pages : list (list string)) :
  (forall p, In p pages -> forallb allWhiteSpace p = true) ->
  allWhiteSpace (documentText pages) = true.
Proof.
  induction pages as [|p pages IH]; intros H; [reflexivity|].
  unfold documentText. simpl. fold (documentText pages).
  unfold pageText. rewrite !allWhiteSpace_app.
  rewrite (concat_blank p) by (apply H; now left). simpl.
  apply IH. intros q Hq. apply H. now right.
Qed.

(** X8. A document without text (every page loads but carries no text
    item, or only blank ones, as a scanned document does; or no page at
    all) is never sent to a model: its entry ends in ERROR with the "Could
    not extract any text" message. *)
Theorem textless_document_is_error env w (i : nat) (file : Web.File)
        (buffer : Web.ArrayBuffer) (pdf : Web.PdfDocument)
        (pages : nat -> list string) :
  rejects (app w) = false ->
  nth_error (files (app w)) i = Some file ->
  arrayBuffer env (log (worldBefore env w i)) file = Normal buffer ->
  getDocument env (log (worldBefore env w i) ++ [ReadFile file]) buffer
  = Normal pdf ->
  (forall k, 1 <= k <= Web.numPages pdf ->
             pageOutcome pdf k = Normal (pages k)
             /\ forallb allWhiteSpace (pages k) = true) ->
  nth_error (results (app (snd (handleGenerate env w)))) i
  = Some (markError blankTextMessage (initialEntry file))
  /\ filter isModelCall
            (runEvents (processFile (app w) i file) env (worldBefore env w i))
     = [].
Proof.
  intros H Hf Hb Hd Hpages.
  set (text := documentText (map pages (seq 1 (Web.numPages pdf)))).
  assert (Hparse : parsePdf file env (worldBefore env w i)
                   = (Normal text,
                      mkWorld (app (worldBefore env w i))
                        ((log (worldBefore env w i) ++ [ReadFile file])
                         ++ [GetDocument buffer]))).
  { rewrite parsePdf_run, Hb, Hd, (readPages_all pdf pages); [reflexivity|].
    intros k Hk. apply in_seq in Hk. apply Hpages. lia. }
  assert (Hblank : trim text = "").
  { apply trim_blank_iff. apply documentText_blank. intros p Hp.
    apply in_map_iff in Hp. destruct Hp as (k & <- & Hk).
    apply in_seq in Hk. apply Hpages. lia. }
  split.
  - destruct (entry_after_batch env w i file H Hf) as (wf & -> & _ & _ & He).
    simpl. rewrite He. unfold fileOutcome.
    assert (Hfail : Fails (app w) file env (worldBefore env w i)
                          (ErrorObj blankTextMessage))
      by (eapply BlankText; eassumption).
    now rewrite (fails_outcome _ _ _ _ _ Hfail).
  - rewrite processFile_filter by reflexivity.
    rewrite summarizeFile_request, Hparse, Hblank. reflexivity.
Qed.

Lemma textless_document_is_error_witness :
  nth_error (results (app (snd (handleGenerate (Examples.answers "A summary.")
                                               Examples.threeFiles)))) 1
  = Some (markError blankTextMessage (initialEntry (Examples.pdf "scan.pdf"))).
Proof.
  refine (proj1 (textless_document_is_error (Examples.answers "A summary.")
                   Examples.threeFiles 1 (Examples.pdf "scan.pdf") []
                   (Examples.onePage [" "]) (fun _ => [" "])
                   eq_refl eq_refl _ _ _)).
  - vm_compute. reflexivity.
  - vm_compute. reflexivity.
  - intros k Hk. simpl in Hk. assert (k = 1) as -> by lia. now split.
Defined.

(** ** How a Gemini answer lands in the ledger *)

Lemma summarizeFile_gemini (st : AppState) (file : Web.File) (pdfText : string)
      env w w1 :
  apiProvider st = gemini ->
  parsePdf file env w = (Normal pdfText, w1) ->
  trim pdfText <> "" ->
  outcomeEntry (fst (summarizeFile st file env w)) (initialEntry file)
  = geminiEntry env
      (generateContent env (log w1) (selectedModel st)
                       (constructFullPrompt pdfText (prompt st)))
      file.
Proof.
  intros Hp Hparse Hne. unfold summarizeFile, bind at 1. rewrite Hparse.
  rewrite (truthyString_trim_true _ Hne). cbv zeta.
  unfold callModel. rewrite Hp.
  unfold GeminiService.generateSummaryFromText, tryCatch, bind, call, emit, ret.
  unfold geminiEntry.
  destruct (generateContent env (log w1) (selectedModel st)
              (constructFullPrompt pdfText (prompt st))) as [response|[m|]];
    simpl.
  - destruct (Web.text response) as [s|]; simpl; [|reflexivity].
    now destruct (startsWith s "Error").
  - reflexivity.
  - reflexivity.
Qed.

(** X9. Under the Gemini provider the entry of a file that yields text is
    decided by the SDK's answer alone: a response text is kept as the
    content of a SUCCESS entry unless it begins with "Error", which makes
    it the message of an ERROR entry; a response without text ends in
    ERROR with the engine's TypeError text; a rejection with an [Error]
    ends in ERROR with "Error during summary generation: " and its
    message; a rejection with any other value ends in SUCCESS with the
    text "An unknown error occurred during summary generation." as
    content. *)
Theorem gemini_answer_to_entry env w (i : nat) (file : Web.File)
        (pdfText : string) (w1 : World) :
  rejects (app w) = false ->
  apiProvider (app w) = gemini ->
  nth_error (files (app w)) i = Some file ->
  parsePdf file env (worldBefore env w i) = (Normal pdfText, w1) ->
  trim pdfText <> "" ->
  nth_error (results (app (snd (handleGenerate env w)))) i
  = Some (geminiEntry env
            (generateContent env (log w1) (selectedModel (app w))
                             (constructFullPrompt pdfText (prompt (app w))))
            file).
Proof.
  intros H Hp Hf Hparse Hne.
  destruct (entry_after_batch env w i file H Hf) as (wf & -> & _ & _ & He).
  simpl. rewrite He. f_equal. unfold fileOutcome.
  now apply (summarizeFile_gemini _ _ pdfText _ _ w1).
Qed.

Lemma gemini_answer_to_entry_witness :
  nth_error
    (results (app (snd (handleGenerate
                          (Examples.outside (Abrupt NonError)
                                            (Abrupt NonError))
                          Examples.oneFile)))) 0
  = Some (markSuccess "An unknown error occurred during summary generation."
                      (initialEntry (Examples.pdf "a.pdf"))).
Proof.
  refine (gemini_answer_to_entry
            (Examples.outside (Abrupt NonError) (Abrupt NonError))
            Examples.oneFile 0 (Examples.pdf "a.pdf")
            ("Hello world" ++ LF ++ LF)%string _ eq_refl eq_refl eq_refl _ _).
  - vm_compute. reflexivity.
  - vm_compute. discriminate.
Defined.

(** ** What the Volcano client can return *)

Lemma volcano_body_truthy (response : Web.Response) env w (v : Value) :
  fst ((if negb (Web.ok response)
        then
          (errorBody <- tryCatch (lift (Web.json response))
                                 (fun _ => ret (Obj [])) ;;
           let fromBody := getOpt (getOpt errorBody "error") "message" in
           let errorMessage :=
             if truthy fromBody then fromBody
             else Str ("API request failed with status "
                       ++ natToString (Web.status response)) in
           e <- newError errorMessage ;;
           throw e)
        else
          (data <- lift (Web.json response) ;;
           invalid <- VolcanoService.invalidStructure data ;;
           if invalid then throw (ErrorObj VolcanoService.invalidStructureMessage)
           else
             (choices <- getM data "choices" ;;
              first <- getM choices "0" ;;
              message <- getM first "message" ;;
              getM message "content"))) env w) = Normal v ->
  truthy v = true.
Proof.
  destruct (negb (Web.ok response)).
  - unfold bind, tryCatch, lift, throw, ret.
    destruct (Web.json response) as [body|t]; cbv zeta.
    + destruct (newError _ env w) as [[e|t] w1]; discriminate.
    + destruct (newError _ env w) as [[e|t'] w1]; discriminate.
  - unfold bind at 1, lift. destruct (Web.json response) as [data|t];
      [|discriminate].
    unfold bind at 1. rewrite invalidStructure_run.
    destruct (nullish data) eqn:Hd; [discriminate|].
    destruct (truthy (getOpt data "choices")) eqn:Hc; cbn [negb];
      [|discriminate].
    destruct (strictEqualsZero (getOpt (getOpt data "choices") "length"));
      [discriminate|].
    destruct (nullish (getOpt (getOpt data "choices") "0")) eqn:Hf;
      [discriminate|].
    destruct (truthy (getOpt (getOpt (getOpt (getOpt data "choices") "0")
                                     "message") "content")) eqn:Hcontent;
      cbn [negb]; [|discriminate].
    unfold bind.
    rewrite (getM_some _ _ _ _ Hd).
    rewrite (getM_some _ _ _ _ (truthy_not_nullish _ Hc)).
    rewrite (getM_some _ _ _ _ Hf).
    rewrite (getM_some _ _ _ _ (getOpt_truthy_source _ _ Hcontent)).
    simpl. intros E. injection E as <-. exact Hcontent.
Qed.

Lemma volcano_result_truthy (fullPrompt : string) (creds : VolcanoCredentials)
      env w (v : Value) :
  fst (VolcanoService.generateSummaryFromVolcano fullPrompt creds env w)
  = Normal v ->
  truthy v = true.
Proof.
  unfold VolcanoService.generateSummaryFromVolcano, bind at 1, emit.
  destruct (negb (truthyString (apiKey creds))).
  - intros E. injection E as <-. reflexivity.
  - unfold tryCatch, bind at 1, call. cbn [log app].
    destruct (fetch env _ VolcanoService.apiEndpoint _) as [response|t].
    + match goal with
      | |- context [(if negb (Web.ok response) then ?a else ?b) env ?w1] =>
          pose proof (volcano_body_truthy response env w1) as Hbody;
          destruct ((if negb (Web.ok response) then a else b) env w1)
            as [[v'|t] w2] eqn:Ebody
      end.
      * simpl. intros E. injection E as <-. apply Hbody. exact (f_equal fst Ebody).
      * destruct t as [m|]; simpl; intros E; injection E as <-; reflexivity.
    + destruct t as [m|]; simpl; intros E; injection E as <-; reflexivity.
Qed.

Lemma summarizeFile_normal (st : AppState) (file : Web.File) env w (s : string) :
  fst (summarizeFile st file env w) = Normal s ->
  exists fullPrompt w1,
    fst (callModel st fullPrompt env w1) = Normal (Str s)
    /\ startsWith s "Error" = false.
Proof.
  unfold summarizeFile, bind at 1.
  destruct (parsePdf file env w) as [[pdfText|t] w1]; [|discriminate].
  destruct (negb (truthyString (trim pdfText))); [discriminate|].
  cbv zeta. unfold bind. intros H.
  exists (constructFullPrompt pdfText (prompt st)), w1.
  destruct (callModel st _ env w1) as [[summary|t] w2]; [|discriminate].
  destruct summary; try discriminate.
  unfold throw, ret in H. destruct (startsWith s0 "Error") eqn:E; [discriminate|].
  injection H as <-. now split.
Qed.

(** X10. The Volcano client never returns an empty or otherwise falsy
    value: whatever the endpoint answers, what comes back is a non-empty
    failure text or the non-empty content of the first choice.  Hence
    under the Volcano provider no entry of the ledger ends in SUCCESS
    with an empty content. *)
Theorem volcano_never_empty env w :
  (forall fullPrompt creds v,
      fst (VolcanoService.generateSummaryFromVolcano fullPrompt creds env w)
      = Normal v ->
      truthy v = true /\ v <> Str "")
  /\ (rejects (app w) = false ->
      apiProvider (app w) = volcano ->
      forall i r,
        nth_error (results (app (snd (handleGenerate env w)))) i = Some r ->
        status r = SUCCESS -> content r <> "").
Proof.
  split.
  - intros fullPrompt creds v Hv.
    pose proof (volcano_result_truthy _ _ _ _ _ Hv) as Ht.
    split; [exact Ht|]. intros ->. discriminate.
  - intros H Hp i r Hr Hs. rewrite (handleGenerate_final _ _ H) in Hr.
    simpl in Hr. rewrite ledgerAt_nth in Hr.
    destruct (nth_error (files (app w)) i) as [file|] eqn:Hf; [|discriminate].
    simpl in Hr.
    replace (i <? List.length (files (app w))) with true in Hr
      by (symmetry; apply Nat.ltb_lt, nth_error_Some; congruence).
    injection Hr as <-. unfold fileOutcome in *.
    destruct (fst (summarizeFile (app w) file env (worldBefore env w i)))
      as [s|t] eqn:E; [|discriminate].
    destruct (summarizeFile_normal _ _ _ _ _ E) as (fullPrompt & w1 & Hc & _).
    unfold callModel in Hc. rewrite Hp in Hc.
    apply volcano_result_truthy in Hc. simpl. intros ->. discriminate.
Qed.

Lemma volcano_never_empty_witness :
  exists r,
    nth_error
      (results (app (snd (handleGenerate
                            (Examples.replies
                               (Normal (Samples.completion "A summary.")))
                            (Samples.underVolcano "secret"))))) 0 = Some r
    /\ status r = SUCCESS
    /\ content r <> "".
Proof.
  eexists. split; [vm_compute; reflexivity|]. split; [reflexivity|].
  apply (proj2 (volcano_never_empty
                  (Examples.replies (Normal (Samples.completion "A summary.")))
                  (Samples.underVolcano "secret")) eq_refl eq_refl 0);
    [vm_compute; reflexivity|reflexivity].
Defined.

(** ** How a Volcano answer lands in the ledger *)

Lemma volcano_call (st : AppState) (fullPrompt : string) env w :
  apiProvider st = volcano ->
  truthyString (apiKey (volcanoCreds st)) = true ->
  callModel st fullPrompt env w
  = tryCatch
      (response <- call (Fetch VolcanoService.apiEndpoint
                               (VolcanoService.requestInit fullPrompt
                                                           (volcanoCreds st)))
                        (fun env h => fetch env h VolcanoService.apiEndpoint
                                            (VolcanoService.requestInit
                                               fullPrompt (volcanoCreds st))) ;;
       if negb (Web.ok response) then
         (errorBody <- tryCatch (lift (Web.json response))
                                (fun _ => ret (Obj [])) ;;
          let fromBody := getOpt (getOpt errorBody "error") "message" in
          let errorMessage :=
            if truthy fromBody then fromBody
            else Str ("API request failed with status "
                      ++ natToString (Web.status response)) in
          e <- newError errorMessage ;;
          throw e)
       else
         (data <- lift (Web.json response) ;;
          invalid <- VolcanoService.invalidStructure data ;;
          if invalid then throw (ErrorObj VolcanoService.invalidStructureMessage)
          else
            (choices <- getM data "choices" ;;
             first <- getM choices "0" ;;
             message <- getM first "message" ;;
             getM message "content")))
      (fun error =>
         emit (ConsoleError "Error generating summary from Volcano Engine:") ;;
         match error with
         | ErrorObj message => ret (Str (VolcanoService.errorPrefix ++ message))
         | NonError => ret (Str VolcanoService.unknownErrorMessage)
         end)
      env
      (mkWorld (app w)
               (log w ++ [ConsoleLog "Making API call to Volcano Engine..."])).
Proof.
  intros Hp Hk. unfold callModel. rewrite Hp.
  unfold VolcanoService.generateSummaryFromVolcano, bind at 1, emit.
  now rewrite Hk.
Qed.

(** X11. Under the Volcano provider with a key, for a file that yields
    text: a network fault that is an [Error], and a non-2xx response whose
    body is no JSON or names no message, end in an ERROR entry whose
    message is "Error during Volcano Engine summary generation: " followed
    by the fault's message, respectively by "API request failed with
    status" and the status code; a 2xx response whose first choice has a
    text content that does not begin with "Error" ends in a SUCCESS entry
    with exactly that content. *)
Theorem volcano_answer_to_entry env w (i : nat) (file : Web.File)
        (pdfText : string) (w1 : World) :
  rejects (app w) = false ->
  apiProvider (app w) = volcano ->
  truthyString (apiKey (volcanoCreds (app w))) = true ->
  nth_error (files (app w)) i = Some file ->
  parsePdf file env (worldBefore env w i) = (Normal pdfText, w1) ->
  trim pdfText <> "" ->
  let fullPrompt := constructFullPrompt pdfText (prompt (app w)) in
  let answer :=
    fetch env (log w1 ++ [ConsoleLog "Making API call to Volcano Engine..."])
          VolcanoService.apiEndpoint
          (VolcanoService.requestInit fullPrompt (volcanoCreds (app w))) in
  let entry := nth_error (results (app (snd (handleGenerate env w)))) i in
  (forall m,
      answer = Abrupt (ErrorObj m) ->
      entry = Some (markError (VolcanoService.errorPrefix ++ m)
                              (initialEntry file)))
  /\ (forall response,
        answer = Normal response -> Web.ok response = false ->
        (forall body, Web.json response = Normal body ->
                      truthy (getOpt (getOpt body "error") "message") = false) ->
        entry = Some (markError
                        (VolcanoService.errorPrefix
                         ++ "API request failed with status "
                         ++ natToString (Web.status response))
                        (initialEntry file)))
  /\ (forall response data s,
        answer = Normal response -> Web.ok response = true ->
        Web.json response = Normal data ->
        strictEqualsZero (getOpt (getOpt data "choices") "length") = false ->
        getOpt (getOpt (getOpt (getOpt data "choices") "0") "message") "content"
        = Str s ->
        s <> "" -> startsWith s "Error" = false ->
        entry = Some (markSuccess s (initialEntry file))).
Proof.
  intros H Hp Hk Hf Hparse Hne fullPrompt answer entry.
  destruct (entry_after_batch env w i file H Hf) as (wf & Hrun & _ & _ & He).
  subst entry. rewrite Hrun. simpl. rewrite He. clear Hrun He wf.
  unfold fileOutcome.
  assert (Hfailure : forall m,
             fst (callModel (app w) fullPrompt env w1)
             = Normal (Str (VolcanoService.errorPrefix ++ m)) ->
             Some (outcomeEntry
                     (fst (summarizeFile (app w) file env (worldBefore env w i)))
                     (initialEntry file))
             = Some (markError (VolcanoService.errorPrefix ++ m)
                               (initialEntry file))).
  { intros m Hc.
    destruct (callModel (app w) fullPrompt env w1) as [c w2] eqn:Hcall.
    simpl in Hc. subst c.
    assert (Hfail : Fails (app w) file env (worldBefore env w i)
                          (ErrorObj (VolcanoService.errorPrefix ++ m)))
      by (eapply GenerationFailure; [exact Hparse|exact Hne|exact Hcall|reflexivity]).
    now rewrite (fails_outcome _ _ _ _ _ Hfail). }
  split; [|split].
  - intros m Ha. apply Hfailure. rewrite (volcano_call _ _ _ _ Hp Hk).
    unfold tryCatch, bind at 1, call. cbn [log app]. fold answer.
    rewrite Ha. reflexivity.
  - intros response Ha Hok Hbody. apply Hfailure.
    rewrite (volcano_call _ _ _ _ Hp Hk).
    unfold tryCatch at 1, bind at 1, call. cbn [log app]. fold answer.
    rewrite Ha, Hok. cbn [negb]. unfold bind, tryCatch, lift.
    destruct (Web.json response) as [body|t] eqn:Hj.
    + rewrite (Hbody body eq_refl). reflexivity.
    + reflexivity.
  - intros response data s Ha Hok Hj Hlen Hcontent Hs Hmarker.
    assert (Htruthy : truthy (Str s) = true).
    { simpl. unfold truthyString. now destruct (String.eqb_spec s ""). }
    rewrite <- Hcontent in Htruthy.
    pose proof (getOpt_truthy_source _ _ Htruthy) as Hmessage.
    assert (Hfirst : nullish (getOpt (getOpt data "choices") "0") = false).
    { destruct (getOpt (getOpt data "choices") "0"); try reflexivity;
        simpl in Hmessage; discriminate. }
    assert (Hchoices : truthy (getOpt data "choices") = true).
    { destruct (getOpt data "choices") as [| |b|q|c|l|ps] eqn:E;
        try (simpl in Hfirst; discriminate); try reflexivity.
      destruct c; [simpl in Hfirst; discriminate|reflexivity]. }
    assert (Hdata : nullish data = false).
    { now apply (getOpt_truthy_source data "choices"). }
    assert (Hcall : fst (callModel (app w) fullPrompt env w1) = Normal (Str s)).
    { rewrite (volcano_call _ _ _ _ Hp Hk).
      unfold tryCatch at 1, bind at 1, call. cbn [log app]. fold answer.
      rewrite Ha, Hok. cbn [negb]. unfold bind at 1, lift. rewrite Hj.
      unfold bind at 1. rewrite invalidStructure_run.
      rewrite Hdata, Hchoices, Hlen, Hfirst, Htruthy. cbn [negb].
      unfold bind.
      rewrite (getM_some _ _ _ _ Hdata).
      rewrite (getM_some _ _ _ _ (truthy_not_nullish _ Hchoices)).
      rewrite (getM_some _ _ _ _ Hfirst).
      rewrite (getM_some _ _ _ _ Hmessage).
      now rewrite Hcontent. }
    destruct (callModel (app w) fullPrompt env w1) as [c w2] eqn:Hrun.
    simpl in Hcall. subst c.
    assert (Hok' : Succeeds (app w) file env (worldBefore env w i) s)
      by (eapply Summarized; [exact Hparse|exact Hne|exact Hrun|exact Hmarker]).
    now rewrite (succeeds_outcome _ _ _ _ _ Hok').
Qed.

Lemma volcano_answer_to_entry_witness :
  nth_error
    (results (app (snd (handleGenerate
                          (Examples.replies
                             (Normal (Samples.completion "A summary.")))
                          (Samples.underVolcano "secret"))))) 0
  = Some (markSuccess "A summary." (initialEntry (Examples.pdf "a.pdf")))
  /\ nth_error
       (results (app (snd (handleGenerate
                             (Examples.replies (Normal Samples.unavailable))
                             (Samples.underVolcano "secret"))))) 0
     = Some (markError
               (VolcanoService.errorPrefix ++ "API request failed with status 503")
               (initialEntry (Examples.pdf "a.pdf"))).
Proof.
  split.
  - edestruct (volcano_answer_to_entry
                 (Examples.replies (Normal (Samples.completion "A summary.")))
                 (Samples.underVolcano "secret") 0 (Examples.pdf "a.pdf"))
      as (_ & _ & Hsuccess);
      [reflexivity|reflexivity|reflexivity|reflexivity
      |vm_compute; reflexivity|vm_compute; discriminate|].
    eapply (Hsuccess (Samples.completion "A summary."));
      [reflexivity|reflexivity|reflexivity|reflexivity|reflexivity
      |discriminate|reflexivity].
  - edestruct (volcano_answer_to_entry
                 (Examples.replies (Normal Samples.unavailable))
                 (Samples.underVolcano "secret") 0 (Examples.pdf "a.pdf"))
      as (_ & Hstatus & _);
      [reflexivity|reflexivity|reflexivity|reflexivity
      |vm_compute; reflexivity|vm_compute; discriminate|].
    apply (Hstatus Samples.unavailable); try reflexivity.
    intros body Hbody. discriminate.
Defined.

(** ** The generate button and the guard *)

(** X12. Whenever the generate button is enabled, the guard of
    [handleGenerate] passes: there is a file and the prompt is not blank,
    so the run starts a batch, sets no notice and clears the one shown.
    Enabled under the Volcano provider, the key is not empty, so each model
    call is a request to the endpoint and never the local missing-key
    failure; enabled under the Gemini provider, the key is configured. *)
Theorem ready_passes_the_guard env w :
  isReadyToGenerate (app w) = true ->
  let st := app w in
  let after := app (snd (handleGenerate env w)) in
  rejects st = false
  /\ files st <> []
  /\ allWhiteSpace (prompt st) = false
  /\ globalError after = ""
  /\ List.length (results after) = List.length (files st)
  /\ (apiProvider st = gemini -> apiKeyMissing st = false)
  /\ (apiProvider st = volcano ->
      forall fullPrompt,
        modelRequest st fullPrompt
        = [Fetch VolcanoService.apiEndpoint
                 (VolcanoService.requestInit fullPrompt (volcanoCreds st))]).
Proof.
  intros Hready st after. subst st after. unfold isReadyToGenerate in Hready.
  fold (rejects (app w)) in Hready.
  destruct (rejects (app w)) eqn:H; [discriminate|].
  split; [reflexivity|].
  assert (Hnot : ~ (files (app w) = [] \/ allWhiteSpace (prompt (app w)) = true)).
  { intros Hr. apply rejects_iff in Hr. congruence. }
  split; [tauto|]. split; [destruct (allWhiteSpace (prompt (app w))); tauto|].
  rewrite (handleGenerate_final _ _ H). simpl.
  split; [reflexivity|]. split; [apply length_mapi|]. split.
  - intros Hp. rewrite Hp in Hready. now apply negb_true_iff.
  - intros Hp fullPrompt. rewrite Hp in Hready. unfold modelRequest.
    now rewrite Hp, Hready.
Qed.

Lemma ready_passes_the_guard_witness :
  rejects (app Examples.threeFiles) = false
  /\ globalError (app (snd (handleGenerate (Examples.answers "A summary.")
                                           Examples.threeFiles))) = "".
Proof.
  destruct (ready_passes_the_guard (Examples.answers "A summary.")
              Examples.threeFiles eq_refl) as (Hguard & _ & _ & Hnotice & _).
  split; [exact Hguard|exact Hnotice].
Defined.

(** ** The ledger between handlers *)

Lemma outcomeEntry_finished (o : Completion string) (file : Web.File) :
  finished (outcomeEntry o (initialEntry file)).
Proof.
  destruct o as [s|t]; [left|right]; simpl; repeat split; discriminate.
Qed.

Lemma ledgerAt_finished env w :
  Forall finished (ledgerAt env w (List.length (files (app w)))).
Proof.
  apply Forall_forall. intros r Hr. apply In_nth_error in Hr.
  destruct Hr as [j Hj]. rewrite ledgerAt_nth in Hj.
  destruct (nth_error (files (app w)) j) as [file|] eqn:Hf; [|discriminate].
  simpl in Hj.
  replace (j <? List.length (files (app w))) with true in Hj
    by (symmetry; apply Nat.ltb_lt, nth_error_Some; congruence).
  injection Hj as <-. apply outcomeEntry_finished.
Qed.

(** X13. Between two handlers of a session the application is never
    processing and every entry of the ledger is finished: it is a SUCCESS
    without error message or an ERROR with its message and an empty
    content, never IDLE or PROCESSING.  The ledger is then either empty or
    lists the selected files in their order, under the identifiers built
    from their names and modification times. *)
Theorem session_ledger_invariant env w :
  Reachable env w ->
  isProcessing (app w) = false
  /\ Forall finished (results (app w))
  /\ (results (app w) = []
      \/ (map fileName (results (app w)) = map Web.name (files (app w))
          /\ map id (results (app w))
             = map id (initialResults (files (app w))))).
Proof.
  induction 1 as [keyMissing|w a Hreach (IHp & IHf & IHr)].
  - split; [reflexivity|]. split; [constructor|now left].
  - destruct a as [[sel|]|p|provider|model|key| |]; simpl.
    + unfold bind. destruct (negb (List.length _ =? List.length sel)); simpl;
        (split; [exact IHp|]; split; [constructor|now left]).
    + now repeat split.
    + now repeat split.
    + now repeat split.
    + now repeat split.
    + now repeat split.
    + destruct (rejects (app w)) eqn:Hrej.
      * rewrite (handleGenerate_rejected _ _ Hrej). now repeat split.
      * rewrite (handleGenerate_final _ _ Hrej). simpl.
        split; [reflexivity|]. split; [apply ledgerAt_finished|].
        right. apply ledgerAt_names.
    + unfold handleDownloadZip, bind, getState.
      destruct (List.length _ =? 0); now repeat split.
Qed.

Lemma session_ledger_invariant_witness :
  let env := Examples.answers "A summary." in
  let session :=
    snd (perform Generate env
           (snd (perform (SelectFiles (Some [Examples.pdf "a.pdf";
                                             Examples.pdf "scan.pdf"]))
                         env (mkWorld (initialState false) [])))) in
  isProcessing (app session) = false
  /\ Forall finished (results (app session))
  /\ List.length (results (app session)) = 2.
Proof.
  cbv zeta.
  destruct (session_ledger_invariant (Examples.answers "A summary.") _
              (ReachStep Generate
                 (ReachStep (SelectFiles (Some [Examples.pdf "a.pdf";
                                                Examples.pdf "scan.pdf"]))
                            (ReachInitial (Examples.answers "A summary.") false))))
    as (Hidle & Hfinished & _).
  split; [exact Hidle|]. split; [exact Hfinished|]. vm_compute. reflexivity.
Defined.

(** ** Exporting after a batch *)






(** ** Exported names *)

Lemma length_append (a b : string) :
  String.length (a ++ b) = String.length a + String.length b.
Proof. induction a as [|c a IH]; simpl; [reflexivity|now rewrite IH]. Qed.

Lemma prefix_app_short (p x y : string) :
  String.length p <= String.length x ->
  String.prefix p (x ++ y) = String.prefix p x.
Proof.
  revert x. induction p as [|c p IH]; intros x Hlen.
  - destruct x; simpl; [destruct y|]; reflexivity.
  - destruct x as [|d x]; simpl in Hlen; [lia|].
    simpl. destruct (Ascii.ascii_dec c d); [|reflexivity].
    apply IH. lia.
Qed.

Lemma replace_absent (pattern replacement s : string) :
  occursIn pattern s = false -> replace pattern replacement s = s.
Proof.
  induction s as [|c s IH]; intros H;
    cbn [occursIn] in H; apply orb_false_iff in H; destruct H as [Hp Ho];
    cbn [replace]; rewrite Hp; [reflexivity|].
  now rewrite (IH Ho).
Qed.

Lemma drop_app (p b : string) : drop (String.length p) (p ++ b) = b.
Proof. induction p as [|c p IH]; simpl; [now destruct b|exact IH]. Qed.

Lemma prefix_app_self (p b : string) : String.prefix p (p ++ b) = true.
Proof.
  induction p as [|c p IH]; simpl; [now destruct b|].
  destruct (Ascii.ascii_dec c c); [exact IH|congruence].
Qed.

Lemma replace_first_pdf (a b : string) :
  occursIn ".pdf" (a ++ ".pd") = false ->
  replace ".pdf" ".txt" (a ++ ".pdf" ++ b) = (a ++ ".txt" ++ b)%string.
Proof.
  induction a as [|c a IH]; intros H.
  - change ("" ++ ".pdf" ++ b)%string with (".pdf" ++ b)%string.
    destruct b; reflexivity.
  - cbn [append occursIn] in H. apply orb_false_iff in H. destruct H as [Hp Ho].
    assert (Hq : String.prefix ".pdf" (String c (a ++ ".pdf" ++ b)) = false).
    { replace (String c (a ++ ".pdf" ++ b))
        with (String c (a ++ ".pd") ++ ("f" ++ b))%string
        by (cbn [append]; now rewrite append_assoc).
      rewrite prefix_app_short; [exact Hp|].
      cbn [String.length]. rewrite length_append. simpl. lia. }
    change (String c a ++ ".pdf" ++ b)%string
      with (String c (a ++ ".pdf" ++ b)).
    cbn [replace]. rewrite Hq. cbn [append]. f_equal. exact (IH Ho).
Qed.

Lemma replace_pdf_length (s : string) :
  String.length (replace ".pdf" ".txt" s) = String.length s.
Proof.
  induction s as [|c s IH]; [reflexivity|].
  cbn [replace]. destruct (String.prefix ".pdf" (String c s)) eqn:E.
  - apply prefix_correct in E.
    destruct s as [|c1 [|c2 [|c3 s]]]; try discriminate E. reflexivity.
  - cbn [String.length]. now rewrite IH.
Qed.

(** X15. The exported name of an entry: when [.pdf] first occurs in the
    file name at the end of [a], exactly that occurrence becomes [.txt] and
    everything after it, further [.pdf] included, is kept; the entry's
    content is the archived data. *)
Theorem export_name_first_match (r : SummaryResult) (a b : string) :
  fileName r = (a ++ ".pdf" ++ b)%string ->
  occursIn ".pdf" (a ++ ".pd") = false ->
  archiveEntry r = ((a ++ ".txt" ++ b)%string, content r).
Proof.
  intros Hname Hfirst. unfold archiveEntry.
  now rewrite Hname, replace_first_pdf.
Qed.

Lemma export_name_first_match_witness :
  archiveEntry (mkSummaryResult "notes.pdf.bak.pdf-7" "notes.pdf.bak.pdf"
                                "Text." SUCCESS None)
  = ("notes.txt.bak.pdf", "Text.").
Proof.
  exact (export_name_first_match
           (mkSummaryResult "notes.pdf.bak.pdf-7" "notes.pdf.bak.pdf"
                            "Text." SUCCESS None)
           "notes" ".bak.pdf" eq_refl eq_refl).
Defined.

(** X16. A file name without the lower-case [.pdf] (say [SCAN.PDF], which
    the browser still types as a PDF) is exported under its own name, with
    no [.txt] extension; and in every case the exported name is as long as
    the file name. *)
Theorem export_name_without_match (r : SummaryResult) :
  String.length (fst (archiveEntry r)) = String.length (fileName r)
  /\ (occursIn ".pdf" (fileName r) = false ->
      archiveEntry r = (fileName r, content r)).
Proof.
  unfold archiveEntry. split.
  - apply replace_pdf_length.
  - intros H. now rewrite replace_absent.
Qed.

Lemma export_name_without_match_witness :
  archiveEntry (mkSummaryResult "SCAN.PDF-7" "SCAN.PDF" "Text." SUCCESS None)
  = ("SCAN.PDF", "Text.").
Proof.
  exact (proj2 (export_name_without_match
                  (mkSummaryResult "SCAN.PDF-7" "SCAN.PDF" "Text." SUCCESS None))
               eq_refl).
Defined.

(** ** The prompt sent to the model *)

Lemma append_cancel_l (a x y : string) :
  (a ++ x)%string = (a ++ y)%string -> x = y.
Proof.
  induction a as [|c a IH]; simpl; intros H; [exact H|].
  injection H as H. exact (IH H).
Qed.

Lemma append_cancel_r (c x y : string) :
  (x ++ c)%string = (y ++ c)%string -> x = y.
Proof.
  revert y. induction x as [|a x IH]; intros [|b y] H.
  - reflexivity.
  - exfalso. apply (f_equal String.length) in H.
    rewrite !length_append in H. simpl in H. lia.
  - exfalso. apply (f_equal String.length) in H.
    rewrite !length_append in H. simpl in H. lia.
  - simpl in H. injection H as -> H. f_equal. exact (IH _ H).
Qed.

Lemma constructFullPrompt_parts (pdfText userPrompt : string) :
  constructFullPrompt pdfText userPrompt
  = (promptOpening ++ userPrompt ++ promptDivider ++ pdfText ++ promptClosing)%string.
Proof.
  unfold constructFullPrompt, promptOpening, promptDivider, promptClosing.
  cbn [append LF DQUOTE]. reflexivity.
Qed.

(** X17. The full prompt carries the request and the PDF text verbatim:
    with the same request, different PDF texts give different prompts, and
    with the same PDF text, different requests give different prompts. *)
Theorem full_prompt_keeps_its_parts (t1 t2 p1 p2 : string) :
  (t1 <> t2 -> constructFullPrompt t1 p1 <> constructFullPrompt t2 p1)
  /\ (p1 <> p2 -> constructFullPrompt t1 p1 <> constructFullPrompt t1 p2).
Proof.
  rewrite !constructFullPrompt_parts. split; intros Hne H; apply Hne;
    apply append_cancel_l in H.
  - do 2 apply append_cancel_l in H. now apply append_cancel_r in H.
  - rewrite <- !append_assoc in H. do 3 apply append_cancel_r in H. exact H.
Qed.

Lemma full_prompt_keeps_its_parts_witness :
  constructFullPrompt "Page one." "Summarize." <> constructFullPrompt "Page 1." "Summarize."
  /\ constructFullPrompt "Page one." "Summarize." <> constructFullPrompt "Page one." "Translate.".
Proof.
  destruct (full_prompt_keeps_its_parts "Page one." "Page 1." "Summarize." "Translate.")
    as [Ht Hp].
  split; [apply Ht|apply Hp]; discriminate.
Defined.

(** X18. Nothing in the full prompt is escaped: a PDF whose text holds the
    divider the template puts between the request and the content gives
    the same prompt as a longer request with a shorter PDF, so the model
    cannot tell where the user's request ends. *)
Theorem full_prompt_not_delimited (before after userPrompt : string) :
  constructFullPrompt (before ++ promptDivider ++ after) userPrompt
  = constructFullPrompt after (userPrompt ++ promptDivider ++ before).
Proof.
  rewrite !constructFullPrompt_parts. now rewrite !append_assoc.
Qed.

(** ** What a batch leaves alone *)

Lemma sameInputs_running env w (i : nat) : sameInputs (app w) (runningState env w i).
Proof. repeat split. Qed.

(** X19. A batch never touches its inputs: in every state it sets, and in
    the state it ends in, the selected files, the prompt, the provider, the
    model, the Volcano credentials and the missing-key flag are those it
    started with, whether it is rejected or runs through. *)
Theorem batch_keeps_inputs env w :
  Forall (sameInputs (app w)) (stateTrace (runEvents handleGenerate env w))
  /\ sameInputs (app w) (app (snd (handleGenerate env w))).
Proof.
  destruct (rejects (app w)) eqn:H.
  - rewrite (runEvents_of_log _ _ _ _
               (f_equal log (f_equal snd (handleGenerate_rejected env w H)))).
    rewrite (handleGenerate_rejected env w H). simpl.
    split; [constructor; [|constructor]|]; repeat split.
  - destruct (handleGenerate_events env w H) as [Hst _]. cbv zeta in Hst.
    rewrite Hst, (handleGenerate_final env w H). cbn [snd app].
    split; [|repeat split].
    apply Forall_app. split; [repeat constructor|].
    apply Forall_app. split; [|repeat constructor].
    apply Forall_map, Forall_forall. intros i _. apply sameInputs_running.
Qed.

(** ** Selecting files, then running a batch *)

Lemma handleFileSelect_state (allFiles : list Web.File) env w :
  files (app (snd (handleFileSelect (Some allFiles) env w)))
  = filter isPdf allFiles
  /\ prompt (app (snd (handleFileSelect (Some allFiles) env w)))
     = prompt (app w).
Proof.
  unfold handleFileSelect, bind.
  destruct (negb _); split; reflexivity.
Qed.

(** X20. Selecting files and then generating, with a prompt that is not
    blank and at least one PDF in the selection: exactly the files typed
    [application/pdf] are read, once each and in the order they were
    picked, and the ledger ends with one entry for each of them; a file of
    another type is never read. *)
Theorem selection_then_batch (allFiles : list Web.File) env0 env w :
  let chosen := snd (handleFileSelect (Some allFiles) env0 w) in
  filter isPdf allFiles <> [] ->
  allWhiteSpace (prompt (app w)) = false ->
  filter isReadFile (runEvents handleGenerate env chosen)
  = map ReadFile (filter isPdf allFiles)
  /\ map fileName (results (app (snd (handleGenerate env chosen))))
     = map Web.name (filter isPdf allFiles).
Proof.
  intros chosen Hsome Hprompt.
  destruct (handleFileSelect_state allFiles env0 w) as [Hfiles Hp].
  fold chosen in Hfiles, Hp.
  assert (H : rejects (app chosen) = false).
  { destruct (rejects (app chosen)) eqn:E; [|reflexivity].
    apply rejects_iff in E. rewrite Hfiles, Hp in E.
    destruct E as [E|E]; [contradiction|congruence]. }
  split.
  - now rewrite (handleGenerate_reads _ _ H), Hfiles.
  - rewrite (handleGenerate_final _ _ H). cbn [snd app].
    unfold runningState. simpl.
    rewrite (proj1 (ledgerAt_names env chosen _)). now rewrite Hfiles.
Qed.

Lemma selection_then_batch_witness :
  filter isReadFile
    (runEvents handleGenerate (Examples.answers "A summary.")
       (snd (handleFileSelect
               (Some [Examples.pdf "a.pdf";
                      Web.mkFile "notes.txt" 1700000000000%Z "text/plain";
                      Examples.pdf "c.pdf"])
               (Examples.answers "A summary.") Examples.oneFile)))
  = [ReadFile (Examples.pdf "a.pdf"); ReadFile (Examples.pdf "c.pdf")].
Proof.
  refine (proj1 (selection_then_batch
                   [Examples.pdf "a.pdf";
                    Web.mkFile "notes.txt" 1700000000000%Z "text/plain";
                    Examples.pdf "c.pdf"]
                   (Examples.answers "A summary.")
                   (Examples.answers "A summary.") Examples.oneFile _ eq_refl)).
  discriminate.
Defined.

(** ** Entry identifiers *)

Lemma occursIn_middle (p a b : string) : occursIn p (a ++ p ++ b) = true.
Proof.
  induction a as [|c a IH].
  - change ("" ++ p ++ b)%string with (p ++ b)%string.
    destruct (p ++ b)%string eqn:E; cbn [occursIn]; rewrite <- E;
      now rewrite prefix_app_self.
  - cbn [append occursIn]. rewrite IH. apply orb_true_r.
Qed.

Lemma split_at_last_dash (n1 n2 s1 s2 : string) :
  occursIn "-" s1 = false -> occursIn "-" s2 = false ->
  (n1 ++ "-" ++ s1)%string = (n2 ++ "-" ++ s2)%string ->
  n1 = n2 /\ s1 = s2.
Proof.
  intros H1 H2. revert n2. induction n1 as [|c n1 IH]; intros [|d n2] H.
  - simpl in H. injection H as H. now split.
  - exfalso. pose proof (occursIn_middle "-" n2 s2) as Hm.
    cbn [append] in H, Hm. injection H as _ H. congruence.
  - exfalso. pose proof (occursIn_middle "-" n1 s1) as Hm.
    cbn [append] in H, Hm. injection H as _ H. congruence.
  - simpl in H. injection H as -> H. destruct (IH _ H) as [-> ->]. now split.
Qed.

Lemma digits_without_dash (d : Decimal.uint) :
  occursIn "-" (DecimalString.NilEmpty.string_of_uint d) = false.
Proof. induction d; simpl; try reflexivity; exact IHd. Qed.

Lemma intToString_without_dash (z : Z) :
  (0 <= z)%Z -> occursIn "-" (intToString z) = false.
Proof.
  intros Hz. unfold intToString.
  destruct z as [|p|p]; [reflexivity| |lia].
  simpl. unfold NilZero.string_of_uint.
  destruct (Pos.to_uint p); try reflexivity; apply digits_without_dash.
Qed.

Lemma intToString_inj (x y : Z) : intToString x = intToString y -> x = y.
Proof.
  unfold intToString. intros H.
  assert (Hnil : forall z, Z.to_int z <> Decimal.Pos Decimal.Nil
                           /\ Z.to_int z <> Decimal.Neg Decimal.Nil).
  { intros z. split; intros E; pose proof (f_equal Z.of_int E) as E';
      rewrite DecimalZ.of_to in E'; simpl in E'; subst z; discriminate E. }
  apply DecimalZ.to_int_inj.
  pose proof (NilZero.isi _ (proj1 (Hnil x)) (proj2 (Hnil x))) as Hx.
  pose proof (NilZero.isi _ (proj1 (Hnil y)) (proj2 (Hnil y))) as Hy.
  rewrite H in Hx. congruence.
Qed.

(** X21. For files whose modification time is an integer from 0 to 2^53,
    which a Number holds exactly, the identifier of a ledger entry names
    its file: two entries carry the same identifier only when their files
    agree in name and in modification time. *)
Theorem entry_id_names_the_file (f g : Web.File) :
  (0 <= Web.lastModified f <= 2 ^ 53)%Z ->
  (0 <= Web.lastModified g <= 2 ^ 53)%Z ->
  id (initialEntry f) = id (initialEntry g) ->
  Web.name f = Web.name g /\ Web.lastModified f = Web.lastModified g.
Proof.
  intros [Hf _] [Hg _] H. simpl in H.
  apply split_at_last_dash in H; try now apply intToString_without_dash.
  destruct H as [Hn Hs]. split; [exact Hn|]. now apply intToString_inj.
Qed.

Lemma entry_id_names_the_file_witness :
  Web.name (Web.mkFile "a.pdf" 5%Z "application/pdf")
  = Web.name (Web.mkFile "a.pdf" 5%Z "text/plain").
Proof.
  refine (proj1 (entry_id_names_the_file
                   (Web.mkFile "a.pdf" 5%Z "application/pdf")
                   (Web.mkFile "a.pdf" 5%Z "text/plain") _ _ eq_refl));
    split; vm_compute; discriminate.
Defined.

(** With a modification time before 1970 the identifier no longer splits
    in one way. *)
Remark entry_id_with_negative_time (t : string) :
  id (initialEntry (Web.mkFile "a" (-5)%Z t))
  = id (initialEntry (Web.mkFile "a-" 5%Z t)).
Proof. reflexivity. Qed.
